(** * arcboard: treasury compliance records, payroll automation, and the
      treasury authorization / allocation engines

    Shallow embedding of
    - [src/models/compliance_record.ts]       (TypeScript record helpers),
    - [src/models/ComplianceRecord.mongoose.js] (Mongoose schema and methods),
    - the payroll automation service ([PayrollAutomationService]),
    together with a model of the on-chain treasury engines.

    Conventions.  JavaScript [number]s that carry chain integers (rule ids,
    Unix timestamps, block numbers) are integers [Z]; the decimal amount
    [usdcAmountFormatted] is an IEEE-754 binary64 [float].  Optional
    properties ([x?: T], possibly [undefined]) are [option].  A thrown
    exception is the [Throw] branch of [Result].  A JavaScript string is
    the [string] of the UTF-8 bytes of its text. *)

From Stdlib Require Import ZArith NArith List String Ascii Bool Lia.
From Stdlib Require Import Floats DecimalString.
From stdpp Require Import gmap strings sorting.
Import ListNotations.

Local Open Scope Z_scope.

(* ===================================================================== *)
(** * Part I — definitions                                                *)
(* ===================================================================== *)

(** ** The JavaScript runtime pieces the sources rely on *)

Module JS.

(** Exceptions that the modelled code can raise or pass on. *)
Inductive Exn : Type :=
| RangeError (msg : string)
| Error (msg : string).

Inductive Result (A : Type) : Type :=
| Ok (a : A)
| Throw (e : Exn).
Arguments Ok {A} a.
Arguments Throw {A} e.

Definition bind {A B} (r : Result A) (k : A -> Result B) : Result B :=
  match r with
  | Ok a => k a
  | Throw e => Throw e
  end.

(** Truthiness of a string value: only the empty string is falsy. *)
Definition truthy (s : string) : bool :=
  match s with
  | EmptyString => false
  | String _ _ => true
  end.

(** [o && f(o)] for an optional string [o]: [undefined] and [""] are
    falsy, so [f] is consulted only on a non-empty string. *)
Definition guard_str (o : option string) (f : string -> bool) : bool :=
  match o with
  | Some s => truthy s && f s
  | None => false
  end.

(** [a || b] on optional strings. *)
Definition or_str (a b : option string) : option string :=
  match a with
  | Some s => if truthy s then Some s else b
  | None => b
  end.

(** *** Character classes and the four anchored regular expressions *)

Definition in_range (lo hi : N) (c : ascii) : bool :=
  let n := N_of_ascii c in (N.leb lo n) && (N.leb n hi).

Definition is_digit (c : ascii) : bool := in_range 48 57 c.
Definition is_upper (c : ascii) : bool := in_range 65 90 c.
Definition is_hex (c : ascii) : bool :=
  is_digit c || in_range 97 102 c || in_range 65 70 c.

Fixpoint all_chars (p : ascii -> bool) (s : string) : bool :=
  match s with
  | EmptyString => true
  | String c rest => p c && all_chars p rest
  end.

(** [/^0x[0-9a-fA-F]{n}$/.test(s)] *)
Definition test_0x_hex (n : nat) (s : string) : bool :=
  match s with
  | String "0" (String "x" rest) =>
      Nat.eqb (String.length rest) n && all_chars is_hex rest
  | _ => false
  end.

(** [/^[0-9]+$/.test(s)] *)
Definition test_digits (s : string) : bool :=
  truthy s && all_chars is_digit s.

(** [/^[A-Z]{2}$/.test(s)] *)
Definition test_upper2 (s : string) : bool :=
  Nat.eqb (String.length s) 2 && all_chars is_upper s.

(** *** Dates

    A [Date] holds a time value: an integral number of milliseconds
    since the epoch within ±8.64e15, or NaN (an invalid date). *)

Definition maxTime : Z := 8640000000000000.

Definition validTime (ms : Z) : bool :=
  (Z.leb (- maxTime) ms) && (Z.leb ms maxTime).

Inductive Date : Type :=
| TimeValue (ms : Z)
| InvalidDate.

(** [new Date(ms)] (TimeClip). *)
Definition newDate (ms : Z) : Date :=
  if validTime ms then TimeValue ms else InvalidDate.

Definition digit_char (d : Z) : ascii :=
  ascii_of_N (48 + Z.to_N d).

(** The [w] least significant decimal digits of [n], zero padded. *)
Fixpoint pad (w : nat) (n : Z) (acc : string) : string :=
  match w with
  | O => acc
  | S w' => pad w' (n / 10) (String (digit_char (n mod 10)) acc)
  end.

(** Proleptic Gregorian (year, month, day) of a day number counted
    from 1970-01-01. *)
Definition civil_of_days (days : Z) : Z * Z * Z :=
  let z := days + 719468 in
  let era := z / 146097 in
  let doe := z - era * 146097 in
  let yoe := (doe - doe / 1460 + doe / 36524 - doe / 146096) / 365 in
  let doy := doe - (365 * yoe + yoe / 4 - yoe / 100) in
  let mp := (5 * doy + 2) / 153 in
  let d := doy - (153 * mp + 2) / 5 + 1 in
  let m := if Z.ltb mp 10 then mp + 3 else mp - 9 in
  let y := yoe + era * 400 + (if Z.leb m 2 then 1 else 0) in
  (y, m, d).

Definition iso_year (y : Z) : string :=
  if (Z.leb 0 y) && (Z.leb y 9999) then pad 4 y ""
  else if Z.ltb y 0 then String "-" (pad 6 (- y) "")
  else String "+" (pad 6 y "").

Definition iso_of_ms (ms : Z) : string :=
  let days := ms / 86400000 in
  let rest := ms mod 86400000 in
  let '(y, m, d) := civil_of_days days in
  let hh := rest / 3600000 in
  let mi := (rest / 60000) mod 60 in
  let ss := (rest / 1000) mod 60 in
  let mss := rest mod 1000 in
  (iso_year y ++ "-" ++ pad 2 m "" ++ "-" ++ pad 2 d ""
     ++ "T" ++ pad 2 hh "" ++ ":" ++ pad 2 mi "" ++ ":" ++ pad 2 ss ""
     ++ "." ++ pad 3 mss "" ++ "Z")%string.

(** [Date.prototype.toISOString]: throws on an invalid date. *)
Definition toISOString (d : Date) : Result string :=
  match d with
  | TimeValue ms => Ok (iso_of_ms ms)
  | InvalidDate => Throw (RangeError "Invalid time value")
  end.

(** *** [parseInt(s, 10)] *)

(** The white space and line terminators that [parseInt] skips.  Those of
    one byte: the space and U+0009 to U+000D. *)
Definition is_space (c : ascii) : bool :=
  let n := N_of_ascii c in
  N.eqb n 32 || (N.leb 9 n && N.leb n 13).

(** Those of two bytes: U+00A0 (C2 A0). *)
Definition is_space2 (c1 c2 : ascii) : bool :=
  N.eqb (N_of_ascii c1) 194 && N.eqb (N_of_ascii c2) 160.

(** Those of three bytes: U+1680 (E1 9A 80); U+2000 to U+200A, U+2028,
    U+2029 and U+202F (E2 80 80 to 8A, A8, A9, AF); U+205F (E2 81 9F);
    U+3000 (E3 80 80); U+FEFF (EF BB BF). *)
Definition is_space3 (c1 c2 c3 : ascii) : bool :=
  let b1 := N_of_ascii c1 in
  let b2 := N_of_ascii c2 in
  let b3 := N_of_ascii c3 in
  (N.eqb b1 225 && N.eqb b2 154 && N.eqb b3 128)
  || (N.eqb b1 226 && N.eqb b2 128
      && ((N.leb 128 b3 && N.leb b3 138)
          || N.eqb b3 168 || N.eqb b3 169 || N.eqb b3 175))
  || (N.eqb b1 226 && N.eqb b2 129 && N.eqb b3 159)
  || (N.eqb b1 227 && N.eqb b2 128 && N.eqb b3 128)
  || (N.eqb b1 239 && N.eqb b2 187 && N.eqb b3 191).

Fixpoint skip_spaces (s : string) : string :=
  match s with
  | String c1 rest1 =>
      if is_space c1 then skip_spaces rest1
      else
        match rest1 with
        | String c2 rest2 =>
            if is_space2 c1 c2 then skip_spaces rest2
            else
              match rest2 with
              | String c3 rest3 =>
                  if is_space3 c1 c2 c3 then skip_spaces rest3 else s
              | EmptyString => s
              end
        | EmptyString => s
        end
  | EmptyString => s
  end.

(** Value of the longest decimal prefix, with the number of digits read. *)
Fixpoint digits_prefix (s : string) (acc : Z) (read : nat) : Z * nat :=
  match s with
  | String c rest =>
      if is_digit c
      then digits_prefix rest (10 * acc + (Z.of_N (N_of_ascii c) - 48)) (S read)
      else (acc, read)
  | EmptyString => (acc, read)
  end.

(** The binary64 number nearest to an integer (ties to even). *)
Definition float_of_Z (z : Z) : float :=
  SF2Prim (binary_normalize prec emax z 0 false).

Definition parseInt10 (s : string) : float :=
  let s := skip_spaces s in
  let '(neg, s) :=
    match s with
    | String "-" rest => (true, rest)
    | String "+" rest => (false, rest)
    | _ => (false, s)
    end in
  let '(v, read) := digits_prefix s 0 O in
  match read with
  | O => nan
  | S _ => if neg then PrimFloat.opp (float_of_Z v) else float_of_Z v
  end.

End JS.

(** ** [src/models/compliance_record.ts] *)

Inductive TransactionSource : Type :=
| MULTISIG_TRANSACTION
| SCHEDULED_DISTRIBUTION
| ALLOCATION_RULE
| DISTRIBUTION_RULE.

#[global] Instance TransactionSource_eq_dec : EqDecision TransactionSource.
Proof. solve_decision. Defined.

Inductive ComplianceStatus : Type :=
| PENDING
| VERIFIED
| REJECTED
| EXEMPT
| UNKNOWN.

Record Metadata : Type := {
  jurisdiction : option string;
  regulatoryCategory : option string;
  reportingPeriod : option string;
  notes : option string
}.

Record ComplianceRecord : Type := {
  recordId : string;
  transactionHash : string;
  internalTxHash : string;
  ruleId : Z;
  source : TransactionSource;
  recipient : string;
  usdcAmount : string;
  usdcAmountFormatted : float;
  kycStatus : ComplianceStatus;
  amlStatus : ComplianceStatus;
  timestamp : Z;
  timestampISO : string;
  blockNumber : Z;
  executor : string;
  circleGatewayTxId : option string;
  arcTransparencyId : option string;
  reconciled : bool;
  reconciledAt : Z;
  reconciledAtISO : option string;
  metadata : option Metadata;
  createdAt : option string;
  updatedAt : option string
}.

(** [Partial<ComplianceRecord>]: every property may be absent. *)
Module Partial.
Record t : Type := {
  recordId : option string;
  transactionHash : option string;
  internalTxHash : option string;
  ruleId : option Z;
  source : option TransactionSource;
  recipient : option string;
  usdcAmount : option string;
  usdcAmountFormatted : option float;
  kycStatus : option ComplianceStatus;
  amlStatus : option ComplianceStatus;
  timestamp : option Z;
  timestampISO : option string;
  blockNumber : option Z;
  executor : option string;
  circleGatewayTxId : option string;
  arcTransparencyId : option string;
  reconciled : option bool;
  reconciledAt : option Z;
  reconciledAtISO : option string;
  metadata : option Metadata;
  createdAt : option string;
  updatedAt : option string
}.

(** The object literal [{}]. *)
Definition empty : t :=
  {| recordId := None; transactionHash := None; internalTxHash := None;
     ruleId := None; source := None; recipient := None;
     usdcAmount := None; usdcAmountFormatted := None;
     kycStatus := None; amlStatus := None;
     timestamp := None; timestampISO := None; blockNumber := None;
     executor := None; circleGatewayTxId := None;
     arcTransparencyId := None; reconciled := None;
     reconciledAt := None; reconciledAtISO := None; metadata := None;
     createdAt := None; updatedAt := None |}.
End Partial.

Module ComplianceRecordValidator.
Import JS.

Definition validateAddress (address : string) : bool := test_0x_hex 40 address.
Definition validateHash (hash : string) : bool := test_0x_hex 64 hash.
Definition validateAmount (amount : string) : bool := test_digits amount.
Definition validateJurisdiction (j : string) : bool := test_upper2 j.

(** The fields [validate] looks at, each with its message. *)
Inductive Field : Type :=
| FRecordId | FTransactionHash | FInternalTxHash | FRecipient | FExecutor
| FUsdcAmount | FRuleId | FTimestamp | FBlockNumber | FJurisdiction.

Definition message (f : Field) : string :=
  match f with
  | FRecordId => "recordId must be a valid bytes32 hex string"
  | FTransactionHash => "transactionHash must be a valid bytes32 hex string"
  | FInternalTxHash => "internalTxHash must be a valid bytes32 hex string"
  | FRecipient => "recipient must be a valid Ethereum address"
  | FExecutor => "executor must be a valid Ethereum address"
  | FUsdcAmount => "usdcAmount must be a numeric string"
  | FRuleId => "ruleId must be non-negative"
  | FTimestamp => "timestamp must be non-negative"
  | FBlockNumber => "blockNumber must be non-negative"
  | FJurisdiction => "metadata.jurisdiction must be a valid ISO 3166-1 alpha-2 code"
  end.

(** [if (cond) errors.push(msg)] *)
Definition push_if (cond : bool) (f : Field) (errors : list string) : list string :=
  if cond then errors ++ [message f] else errors.

(** [x !== undefined && x < 0] *)
Definition defined_negative (x : option Z) : bool :=
  match x with
  | Some n => Z.ltb n 0
  | None => false
  end.

(** [record.metadata?.jurisdiction] *)
Definition metadata_jurisdiction (record : Partial.t) : option string :=
  match Partial.metadata record with
  | Some m => jurisdiction m
  | None => None
  end.

Definition validate (record : Partial.t) : list string :=
  let errors := [] in
  let errors := push_if (guard_str (Partial.recordId record) (fun s => negb (validateHash s)))
                        FRecordId errors in
  let errors := push_if (guard_str (Partial.transactionHash record) (fun s => negb (validateHash s)))
                        FTransactionHash errors in
  let errors := push_if (guard_str (Partial.internalTxHash record) (fun s => negb (validateHash s)))
                        FInternalTxHash errors in
  let errors := push_if (guard_str (Partial.recipient record) (fun s => negb (validateAddress s)))
                        FRecipient errors in
  let errors := push_if (guard_str (Partial.executor record) (fun s => negb (validateAddress s)))
                        FExecutor errors in
  let errors := push_if (guard_str (Partial.usdcAmount record) (fun s => negb (validateAmount s)))
                        FUsdcAmount errors in
  let errors := push_if (defined_negative (Partial.ruleId record)) FRuleId errors in
  let errors := push_if (defined_negative (Partial.timestamp record)) FTimestamp errors in
  let errors := push_if (defined_negative (Partial.blockNumber record)) FBlockNumber errors in
  let errors := push_if (guard_str (metadata_jurisdiction record)
                                   (fun s => negb (validateJurisdiction s)))
                        FJurisdiction errors in
  errors.

(** Whether the property behind a field is present in a partial record. *)
Definition present (f : Field) (record : Partial.t) : bool :=
  match f with
  | FRecordId => bool_decide (is_Some (Partial.recordId record))
  | FTransactionHash => bool_decide (is_Some (Partial.transactionHash record))
  | FInternalTxHash => bool_decide (is_Some (Partial.internalTxHash record))
  | FRecipient => bool_decide (is_Some (Partial.recipient record))
  | FExecutor => bool_decide (is_Some (Partial.executor record))
  | FUsdcAmount => bool_decide (is_Some (Partial.usdcAmount record))
  | FRuleId => bool_decide (is_Some (Partial.ruleId record))
  | FTimestamp => bool_decide (is_Some (Partial.timestamp record))
  | FBlockNumber => bool_decide (is_Some (Partial.blockNumber record))
  | FJurisdiction => bool_decide (is_Some (metadata_jurisdiction record))
  end.

End ComplianceRecordValidator.

Module ComplianceRecordUtils.
Import JS.

(** [new Date(timestamp * 1000).toISOString()] *)
Definition timestampToISO (timestamp : Z) : Result string :=
  toISOString (newDate (timestamp * 1000)).

(** [parseInt(amount, 10) / 1e6] *)
Definition formatUSDCAmount (amount : string) : float :=
  PrimFloat.div (parseInt10 amount) 1e6%float.

(** [markReconciled]; [clock] is the value [Date.now()] returns. *)
Definition markReconciled (clock : Z) (record : ComplianceRecord)
  : Result ComplianceRecord :=
  let now := clock / 1000 in
  bind (timestampToISO now) (fun iso =>
  Ok {| recordId := recordId record;
        transactionHash := transactionHash record;
        internalTxHash := internalTxHash record;
        ruleId := ruleId record;
        source := source record;
        recipient := recipient record;
        usdcAmount := usdcAmount record;
        usdcAmountFormatted := usdcAmountFormatted record;
        kycStatus := kycStatus record;
        amlStatus := amlStatus record;
        timestamp := timestamp record;
        timestampISO := timestampISO record;
        blockNumber := blockNumber record;
        executor := executor record;
        circleGatewayTxId := circleGatewayTxId record;
        arcTransparencyId := arcTransparencyId record;
        reconciled := true;
        reconciledAt := now;
        reconciledAtISO := Some iso;
        metadata := metadata record;
        createdAt := createdAt record;
        updatedAt := updatedAt record |}).

Definition updateComplianceStatus (record : ComplianceRecord)
    (kyc aml : ComplianceStatus)
    (gatewayTxId transparencyId : option string) : ComplianceRecord :=
  {| recordId := recordId record;
     transactionHash := transactionHash record;
     internalTxHash := internalTxHash record;
     ruleId := ruleId record;
     source := source record;
     recipient := recipient record;
     usdcAmount := usdcAmount record;
     usdcAmountFormatted := usdcAmountFormatted record;
     kycStatus := kyc;
     amlStatus := aml;
     timestamp := timestamp record;
     timestampISO := timestampISO record;
     blockNumber := blockNumber record;
     executor := executor record;
     circleGatewayTxId := or_str gatewayTxId (circleGatewayTxId record);
     arcTransparencyId := or_str transparencyId (arcTransparencyId record);
     reconciled := reconciled record;
     reconciledAt := reconciledAt record;
     reconciledAtISO := reconciledAtISO record;
     metadata := metadata record;
     createdAt := createdAt record;
     updatedAt := updatedAt record |}.

Definition fromEvent (recordId transactionHash recipient : string)
    (ruleId : Z) (source : TransactionSource) (amount executor : string)
    (blockNumber timestamp : Z) : Result ComplianceRecord :=
  let formatted := formatUSDCAmount amount in
  bind (timestampToISO timestamp) (fun iso =>
  Ok {| recordId := recordId;
        transactionHash := transactionHash;
        internalTxHash := recordId;
        ruleId := ruleId;
        source := source;
        recipient := recipient;
        usdcAmount := amount;
        usdcAmountFormatted := formatted;
        kycStatus := UNKNOWN;
        amlStatus := UNKNOWN;
        timestamp := timestamp;
        timestampISO := iso;
        blockNumber := blockNumber;
        executor := executor;
        circleGatewayTxId := None;
        arcTransparencyId := None;
        reconciled := false;
        reconciledAt := 0;
        reconciledAtISO := None;
        metadata := None;
        createdAt := None;
        updatedAt := None |}).

End ComplianceRecordUtils.

(** ** [src/models/ComplianceRecord.mongoose.js] *)

Module Mongoose.
Import JS.

(** Values stored under the paths of a document, after Mongoose's casts:
    a Number path of whole values holds a [VNum]. *)
Inductive Value : Type :=
| VStr (s : string)
| VNum (n : Z)
| VFloat (f : float)
| VBool (b : bool)
| VDate (d : Date)
| VMeta (m : Metadata).

(** A document: the paths that are set, with their values. *)
Abbreviation Document := (gmap string Value).

Module TransactionSource.
Definition MULTISIG_TRANSACTION : string := "MULTISIG_TRANSACTION".
Definition SCHEDULED_DISTRIBUTION : string := "SCHEDULED_DISTRIBUTION".
Definition ALLOCATION_RULE : string := "ALLOCATION_RULE".
Definition DISTRIBUTION_RULE : string := "DISTRIBUTION_RULE".
End TransactionSource.

Module ComplianceStatus.
Definition PENDING : string := "PENDING".
Definition VERIFIED : string := "VERIFIED".
Definition REJECTED : string := "REJECTED".
Definition EXEMPT : string := "EXEMPT".
Definition UNKNOWN : string := "UNKNOWN".
End ComplianceStatus.

(** Truthiness of [this.path]; an unset path reads [undefined]. *)
Definition truthy_value (v : option Value) : bool :=
  match v with
  | None => false
  | Some (VStr s) => truthy s
  | Some (VNum n) => negb (Z.eqb n 0)
  | Some (VFloat f) => negb (PrimFloat.is_zero f || PrimFloat.is_nan f)
  | Some (VBool b) => b
  | Some (VDate _) => true
  | Some (VMeta _) => true
  end.

(** The [default:] entries of [ComplianceRecordSchema], in schema order;
    [metadata] defaults to the empty sub-document. *)
Definition schemaDefaults : list (string * Value) :=
  [ ("ruleId", VNum 0);
    ("kycStatus", VStr ComplianceStatus.UNKNOWN);
    ("amlStatus", VStr ComplianceStatus.UNKNOWN);
    ("reconciled", VBool false);
    ("reconciledAt", VNum 0);
    ("metadata", VMeta {| jurisdiction := None; regulatoryCategory := None;
                          reportingPeriod := None; notes := None |}) ]%string.

Definition applyDefault (doc : Document) (d : string * Value) : Document :=
  match doc !! fst d with
  | Some _ => doc
  | None => <[fst d := snd d]> doc
  end.

(** [new ComplianceRecord(input)]: the given paths, then the schema
    default for each path left undefined. *)
Definition construct (input : Document) : Document :=
  fold_left applyDefault schemaDefaults input.

(** [this.path = date] on a Date path: Mongoose's cast refuses an Invalid
    Date, and the path keeps what it held. *)
Definition assignDate (path : string) (date : Date) (doc : Document) : Document :=
  match date with
  | TimeValue _ => <[path := VDate date]> doc
  | InvalidDate => doc
  end.

(** The [pre('save')] hook: its two statements, then the hook. *)
Definition ensureTimestampISO (doc : Document) : Document :=
  if truthy_value (doc !! "timestamp") && negb (truthy_value (doc !! "timestampISO"))
  then match doc !! "timestamp" with
       | Some (VNum t) => assignDate "timestampISO" (newDate (t * 1000)) doc
       | _ => doc
       end
  else doc.

Definition ensureReconciledAtISO (doc : Document) : Document :=
  if truthy_value (doc !! "reconciledAt")
     && negb (truthy_value (doc !! "reconciledAtISO"))
     && truthy_value (doc !! "reconciled")
  then match doc !! "reconciledAt" with
       | Some (VNum t) => assignDate "reconciledAtISO" (newDate (t * 1000)) doc
       | _ => doc
       end
  else doc.

Definition preSave (doc : Document) : Document :=
  ensureReconciledAtISO (ensureTimestampISO doc).

(** *** Validation of the required paths

    The validators the schema declares on its [required: true] paths.
    Mongoose runs them on every save, whatever was modified. *)

(** [required] with [match]: a non-empty string the pattern accepts. *)
Definition requiredMatch (test : string -> bool) (v : option Value) : bool :=
  match v with
  | Some (VStr s) => truthy s && test s
  | _ => false
  end.

(** [required] with [enum]: one of the listed strings. *)
Definition requiredEnum (values : list string) (v : option Value) : bool :=
  match v with
  | Some (VStr s) => truthy s && existsb (String.eqb s) values
  | _ => false
  end.

(** [required] on a Number path. *)
Definition requiredNumber (v : option Value) : bool :=
  match v with
  | Some (VNum _) => true
  | Some (VFloat f) => negb (PrimFloat.is_nan f)
  | _ => false
  end.

(** [required] with [min: 0] on a Number path. *)
Definition requiredMin0 (v : option Value) : bool :=
  match v with
  | Some (VNum n) => Z.leb 0 n
  | Some (VFloat f) => PrimFloat.leb 0 f
  | _ => false
  end.

(** [required] on a Date path and on a Boolean path. *)
Definition requiredDate (v : option Value) : bool :=
  match v with
  | Some (VDate _) => true
  | _ => false
  end.

Definition requiredBoolean (v : option Value) : bool :=
  match v with
  | Some (VBool _) => true
  | _ => false
  end.

Definition sources : list string :=
  [ TransactionSource.MULTISIG_TRANSACTION; TransactionSource.SCHEDULED_DISTRIBUTION;
    TransactionSource.ALLOCATION_RULE; TransactionSource.DISTRIBUTION_RULE ].

Definition statuses : list string :=
  [ ComplianceStatus.PENDING; ComplianceStatus.VERIFIED; ComplianceStatus.REJECTED;
    ComplianceStatus.EXEMPT; ComplianceStatus.UNKNOWN ].

(** The fifteen required paths of [ComplianceRecordSchema], in schema
    order, each with its validators. *)
Definition validRequired (doc : Document) : bool :=
  requiredMatch ComplianceRecordValidator.validateHash (doc !! "recordId")
  && requiredMatch ComplianceRecordValidator.validateHash (doc !! "transactionHash")
  && requiredMatch ComplianceRecordValidator.validateHash (doc !! "internalTxHash")
  && requiredMin0 (doc !! "ruleId")
  && requiredEnum sources (doc !! "source")
  && requiredMatch ComplianceRecordValidator.validateAddress (doc !! "recipient")
  && requiredMatch ComplianceRecordValidator.validateAmount (doc !! "usdcAmount")
  && requiredNumber (doc !! "usdcAmountFormatted")
  && requiredEnum statuses (doc !! "kycStatus")
  && requiredEnum statuses (doc !! "amlStatus")
  && requiredMin0 (doc !! "timestamp")
  && requiredDate (doc !! "timestampISO")
  && requiredMin0 (doc !! "blockNumber")
  && requiredMatch ComplianceRecordValidator.validateAddress (doc !! "executor")
  && requiredBoolean (doc !! "reconciled").

(** *** [save]

    What a save depends on besides the document: [validatesRest], whether
    the checks Mongoose makes besides the required paths pass (the [min]
    of [reconciledAt] and the [match] of [metadata.jurisdiction], which it
    runs only for paths it holds modified, and cast errors recorded
    earlier); and [writes], whether the write to the collection succeeds
    (the unique index on [recordId], the connection). *)
Record Store : Type := {
  validatesRest : bool;
  writes : bool
}.

Inductive SaveError : Type :=
| ValidationError
| WriteError.

(** How the promise of a save settles. *)
Inductive Settled : Type :=
| Resolved
| Rejected (error : SaveError).

(** [this.save()]: how the returned promise settles, and the document in
    memory afterwards.  Mongoose validates first and, if validation fails,
    rejects without calling the schema's pre-save hook; otherwise the hook
    runs and the document is written.  The [createdAt] and [updatedAt]
    paths that the [timestamps] option maintains are not part of the
    modelled document. *)
Definition save (store : Store) (doc : Document) : Settled * Document :=
  if validRequired doc && validatesRest store
  then (if writes store then Resolved else Rejected WriteError, preSave doc)
  else (Rejected ValidationError, doc).

(** [methods.markReconciled]; [clock1] is what [Date.now()] returns and
    [clock2] the instant [new Date()] captures just after. *)
Definition markReconciled (store : Store) (clock1 clock2 : Z) (this : Document)
  : Settled * Document :=
  let this := <["reconciled" := VBool true]> this in
  let this := <["reconciledAt" := VNum (clock1 / 1000)]> this in
  let this := <["reconciledAtISO" := VDate (TimeValue clock2)]> this in
  save store this.

(** [if (id) this.path = id] *)
Definition assign_if_truthy (path : string) (id : option string) (this : Document)
  : Document :=
  match id with
  | Some s => if truthy s then <[path := VStr s]> this else this
  | None => this
  end.

(** [methods.updateComplianceStatus] *)
Definition updateComplianceStatus (store : Store) (this : Document)
    (kycStatus amlStatus : string)
    (circleGatewayTxId arcTransparencyId : option string) : Settled * Document :=
  let this := <["kycStatus" := VStr kycStatus]> this in
  let this := <["amlStatus" := VStr amlStatus]> this in
  let this := assign_if_truthy "circleGatewayTxId" circleGatewayTxId this in
  let this := assign_if_truthy "arcTransparencyId" arcTransparencyId this in
  save store this.

End Mongoose.

(** ** Sample records

    The example record of the compliance documentation, as a TypeScript
    record and as the input of the Mongoose constructor. *)
Module Samples.

Definition record : ComplianceRecord :=
  {| recordId := "0x1234567890abcdef1234567890abcdef1234567890abcdef1234567890abcdef";
     transactionHash := "0xabcdef1234567890abcdef1234567890abcdef1234567890abcdef1234567890";
     internalTxHash := "0x9876543210fedcba9876543210fedcba9876543210fedcba9876543210fedcba";
     ruleId := 42;
     source := ALLOCATION_RULE;
     recipient := "0x742d35Cc6634C0532925a3b844Bc9e7595f0bEb0";
     usdcAmount := "1000000000";
     usdcAmountFormatted := 1000%float;
     kycStatus := VERIFIED;
     amlStatus := VERIFIED;
     timestamp := 1704067200;
     timestampISO := "2024-01-01T00:00:00.000Z";
     blockNumber := 12345678;
     executor := "0x742d35Cc6634C0532925a3b844Bc9e7595f0bEb0";
     circleGatewayTxId := Some "cg_tx_1234567890abcdef"%string;
     arcTransparencyId := Some "arc_tx_abcdef1234567890"%string;
     reconciled := false;
     reconciledAt := 0;
     reconciledAtISO := None;
     metadata := Some {| jurisdiction := Some "US"%string;
                         regulatoryCategory := Some "PAYROLL"%string;
                         reportingPeriod := Some "2024-Q1"%string;
                         notes := Some "Monthly payroll distribution"%string |};
     createdAt := None;
     updatedAt := None |}.

(** The paths an event listener passes to [new ComplianceRecord(...)]. *)
Definition input : Mongoose.Document :=
  list_to_map
    [ ("recordId", Mongoose.VStr (recordId record));
      ("transactionHash", Mongoose.VStr (transactionHash record));
      ("internalTxHash", Mongoose.VStr (internalTxHash record));
      ("ruleId", Mongoose.VNum 42);
      ("source", Mongoose.VStr Mongoose.TransactionSource.ALLOCATION_RULE);
      ("recipient", Mongoose.VStr (recipient record));
      ("usdcAmount", Mongoose.VStr "1000000000");
      ("usdcAmountFormatted", Mongoose.VFloat 1000%float);
      ("timestamp", Mongoose.VNum 1704067200);
      ("timestampISO", Mongoose.VDate (JS.newDate 1704067200000));
      ("blockNumber", Mongoose.VNum 12345678);
      ("executor", Mongoose.VStr (executor record)) ]%string.

Definition document : Mongoose.Document := Mongoose.construct input.

End Samples.

(** ** The payroll automation service *)

(** The two [ethers] conversions the service applies to chain integers. *)
Module Ethers.

(** [BigNumber.prototype.toString()] *)
Definition toString (n : N) : string :=
  DecimalString.NilZero.string_of_uint (N.to_uint n).

(** Trailing zeros removed. *)
Fixpoint strip_zeros (s : string) : string :=
  match s with
  | EmptyString => EmptyString
  | String c rest =>
      match strip_zeros rest with
      | EmptyString => if Ascii.eqb c "0" then EmptyString else String c EmptyString
      | kept => String c kept
      end
  end.

(** [ethers.utils.formatUnits(value, 6)]: whole part, a dot, and the six
    fraction digits without trailing zeros (one digit at least). *)
Definition formatUnits6 (value : N) : string :=
  let whole := toString (value / 1000000) in
  let fraction := strip_zeros (JS.pad 6 (Z.of_N (value mod 1000000)) "") in
  (whole ++ "." ++ (if JS.truthy fraction then fraction else "0"))%string.

End Ethers.

Module PayrollAutomationService.
Import JS.

(** [this.config], as far as the distribution path reads it. *)
Record Config : Type := {
  requireKYC : bool;
  requireAML : bool
}.

(** The tuple [getScheduledDistribution] returns. *)
Module Schedule.
Record t : Type := {
  recipient : string;
  amount : N;
  interval : N;
  nextDistribution : N;
  active : bool;
  totalDistributed : N
}.
End Schedule.

(** The argument and the result of [circleGateway.performComplianceCheck]. *)
Module ComplianceRequest.
Record t : Type := {
  recipient : string;
  amount : string;
  source : string
}.
End ComplianceRequest.

Module ComplianceCheck.
Record t : Type := {
  transactionId : string;
  kycStatus : string;
  amlStatus : string;
  riskScore : Z
}.
End ComplianceCheck.

Module TransactionResponse.
Record t : Type := { hash : string }.
End TransactionResponse.

Module Receipt.
Record t : Type := {
  blockNumber : Z;
  gasUsed : N
}.
End Receipt.

(** The object [executeScheduledDistribution] returns on success. *)
Module Execution.
Record t : Type := {
  scheduleId : string;
  recipient : string;
  amount : string;
  txHash : string;
  blockNumber : Z;
  circleGatewayTxId : string;
  gasUsed : string
}.
End Execution.

(** What [checkScheduledDistributions] returns: [{ count }],
    [{ count, results }] or [{ count, error }]. *)
Module Batch.
Record t : Type := {
  count : nat;
  results : option (list Execution.t);
  error : option string
}.
End Batch.

(** The awaited calls that leave the process. *)
Inductive Call : Type :=
| GetDueScheduledDistributions
| GetScheduledDistribution (scheduleId : N)
| PerformComplianceCheck (request : ComplianceRequest.t)
| ExecuteScheduledDistributions (scheduleIds : list N) (gasLimit : N)
| Wait (tx : TransactionResponse.t).

(** The collaborators behind those calls — the treasury contract reached
    through the provider, and the compliance provider.  Each answers from
    the current state of the outside world and may change it or throw. *)
Record Collaborators (World : Type) : Type := {
  getDueScheduledDistributions : World -> Result (list N) * World;
  getScheduledDistribution : N -> World -> Result Schedule.t * World;
  performComplianceCheck : ComplianceRequest.t -> World -> Result ComplianceCheck.t * World;
  executeScheduledDistributions : list N -> N -> World -> Result TransactionResponse.t * World;
  wait : TransactionResponse.t -> World -> Result Receipt.t * World
}.
Arguments getDueScheduledDistributions {World} _ _.
Arguments getScheduledDistribution {World} _ _ _.
Arguments performComplianceCheck {World} _ _ _.
Arguments executeScheduledDistributions {World} _ _ _ _.
Arguments wait {World} _ _ _.

Definition message_of (e : Exn) : string :=
  match e with
  | RangeError msg => msg
  | Error msg => msg
  end.

Section Service.
Context {World : Type}.
Variable env : Collaborators World.
Variable config : Config.

(** An async computation: from the world and the log of calls made so far
    to a value or a thrown error, with the world and the log afterwards. *)
Definition M (A : Type) : Type :=
  World * list Call -> Result A * (World * list Call).

Definition ret {A} (a : A) : M A := fun st => (Ok a, st).

Definition throw {A} (e : Exn) : M A := fun st => (Throw e, st).

Definition mbind {A B} (m : M A) (k : A -> M B) : M B :=
  fun st =>
    match m st with
    | (Ok a, st') => k a st'
    | (Throw e, st') => (Throw e, st')
    end.

(** [try { m } catch (error) { handler }] *)
Definition tryCatch {A} (m : M A) (handler : Exn -> M A) : M A :=
  fun st =>
    match m st with
    | (Ok a, st') => (Ok a, st')
    | (Throw e, st') => handler e st'
    end.

(** [await] of one outside call, recorded in the log. *)
Definition await {A} (c : Call) (f : World -> Result A * World) : M A :=
  fun st =>
    let '(r, w') := f (fst st) in (r, (w', snd st ++ [c])).

Notation "'let*' x ':=' m 'in' k" := (mbind m (fun x => k))
  (at level 10, x name, m at level 100, k at level 200).

(** The request literal built from a schedule. *)
Definition complianceRequest (schedule : Schedule.t) : ComplianceRequest.t :=
  {| ComplianceRequest.recipient := Schedule.recipient schedule;
     ComplianceRequest.amount := Ethers.formatUnits6 (Schedule.amount schedule);
     ComplianceRequest.source := "SCHEDULED_DISTRIBUTION" |}.

(** [status !== 'VERIFIED' && status !== 'EXEMPT'] *)
Definition notCleared (status : string) : bool :=
  negb (String.eqb status "VERIFIED") && negb (String.eqb status "EXEMPT").

(** [executeScheduledDistribution(scheduleId)]; console output is left
    out.  The [catch] clause logs and rethrows. *)
Definition executeScheduledDistribution (scheduleId : N) : M (option Execution.t) :=
  tryCatch
    (let* schedule := await (GetScheduledDistribution scheduleId)
                            (getScheduledDistribution env scheduleId) in
     let amountFormatted := Ethers.formatUnits6 (Schedule.amount schedule) in
     let* complianceCheck := await (PerformComplianceCheck (complianceRequest schedule))
                                   (performComplianceCheck env (complianceRequest schedule)) in
     if requireKYC config && notCleared (ComplianceCheck.kycStatus complianceCheck)
     then ret None
     else if requireAML config && notCleared (ComplianceCheck.amlStatus complianceCheck)
     then ret None
     else
       let* tx := await (ExecuteScheduledDistributions [scheduleId] 500000)
                        (executeScheduledDistributions env [scheduleId] 500000) in
       let* receipt := await (Wait tx) (wait env tx) in
       ret (Some {| Execution.scheduleId := Ethers.toString scheduleId;
                    Execution.recipient := Schedule.recipient schedule;
                    Execution.amount := amountFormatted;
                    Execution.txHash := TransactionResponse.hash tx;
                    Execution.blockNumber := Receipt.blockNumber receipt;
                    Execution.circleGatewayTxId :=
                      ComplianceCheck.transactionId complianceCheck;
                    Execution.gasUsed := Ethers.toString (Receipt.gasUsed receipt) |}))
    (fun error => throw error).

(** The [for ... of] loop of [checkScheduledDistributions], with its inner
    [try]/[catch]; [results] is the array filled so far. *)
Fixpoint executeEach (dueSchedules : list N) (results : list Execution.t)
  : M (list Execution.t) :=
  match dueSchedules with
  | [] => ret results
  | scheduleId :: rest =>
      let* results :=
        tryCatch
          (let* result := executeScheduledDistribution scheduleId in
           match result with
           | Some r => ret (results ++ [r])
           | None => ret results
           end)
          (fun _ => ret results) in
      executeEach rest results
  end.

(** [checkScheduledDistributions()] *)
Definition checkScheduledDistributions : M Batch.t :=
  tryCatch
    (let* dueSchedules := await GetDueScheduledDistributions
                                (getDueScheduledDistributions env) in
     match dueSchedules with
     | [] => ret {| Batch.count := 0; Batch.results := None; Batch.error := None |}
     | _ =>
         let* results := executeEach dueSchedules [] in
         ret {| Batch.count := length results;
                Batch.results := Some results;
                Batch.error := None |}
     end)
    (fun error =>
       ret {| Batch.count := 0; Batch.results := None;
              Batch.error := Some (message_of error) |}).

(** *** Reference reading of a batch, for the statements of Part II *)

(** Each id attempted once, in order, whatever the earlier attempts gave. *)
Fixpoint attemptEach (ids : list N) (st : World * list Call)
  : list (Result (option Execution.t)) * (World * list Call) :=
  match ids with
  | [] => ([], st)
  | id :: rest =>
      let '(outcome, st1) := executeScheduledDistribution id st in
      let '(outcomes, st2) := attemptEach rest st1 in
      (outcome :: outcomes, st2)
  end.

End Service.

(** An attempt that executed: it returned an execution object. *)
Definition executed (outcome : Result (option Execution.t)) : option Execution.t :=
  match outcome with
  | Ok (Some r) => Some r
  | _ => None
  end.

Definition failed (outcome : Result (option Execution.t)) : Prop :=
  exists e, outcome = Throw e.

(** The on-chain submissions and the schedule look-ups in a log. *)
Definition submissions (log : list Call) : list (list N) :=
  omap (fun c => match c with
                 | ExecuteScheduledDistributions ids _ => Some ids
                 | _ => None
                 end) log.

Definition lookups (log : list Call) : list N :=
  omap (fun c => match c with
                 | GetScheduledDistribution id => Some id
                 | _ => None
                 end) log.

End PayrollAutomationService.

(** A scripted outside world for running the service: the world is the
    list of batches submitted on chain so far.  Schedule 2 cannot be read,
    the recipient of schedule 3 is still pending verification, every other
    schedule is cleared. *)
Module ScriptedWorld.
Import JS PayrollAutomationService.

Definition schedule_of (id : N) : Schedule.t :=
  {| Schedule.recipient := if N.eqb id 3 then "0xpending" else "0xcleared";
     Schedule.amount := 2500000 * id;
     Schedule.interval := 2592000;
     Schedule.nextDistribution := 1704067200;
     Schedule.active := true;
     Schedule.totalDistributed := 0 |}.

Definition env : Collaborators (list (list N)) :=
  {| getDueScheduledDistributions := fun w => (Ok [1; 2; 3]%N, w);
     getScheduledDistribution := fun id w =>
       if N.eqb id 2 then (Throw (Error "call revert exception"), w)
       else (Ok (schedule_of id), w);
     performComplianceCheck := fun request w =>
       (Ok {| ComplianceCheck.transactionId := "cg_tx_1";
              ComplianceCheck.kycStatus :=
                if String.eqb (ComplianceRequest.recipient request) "0xpending"
                then "PENDING" else "VERIFIED";
              ComplianceCheck.amlStatus := "EXEMPT";
              ComplianceCheck.riskScore := 3 |}, w);
     executeScheduledDistributions := fun ids _ w =>
       (Ok {| TransactionResponse.hash := "0xfeed" |}, w ++ [ids]);
     wait := fun _ w =>
       (Ok {| Receipt.blockNumber := 100; Receipt.gasUsed := 84000 |}, w) |}.

Definition config : Config := {| requireKYC := true; requireAML := true |}.

End ScriptedWorld.

(** ** The on-chain treasury engines

    The treasury contract itself is not among the sources; its
    authorization ledger and allocation-rule engine are written down here
    from the specification (sections 3, 4.1, 4.2, 4.5 and 7). *)

Module Treasury.

(** Modelled from the spec: the contract's error taxonomy (section 7); the
    contract source is missing. *)
Inductive Error : Type :=
| AuthorizationError
| NotFoundError
| StateError
| InsufficientFundsError
| ValidationError
| CooldownError
| BudgetExceededError.

(** Modelled from the spec: the result of an entry point of the missing
    contract — its new state and return value, or the error that aborted
    the call with no effect. *)
Inductive Outcome (A : Type) : Type :=
| Done (a : A)
| Fail (e : Error).
Arguments Done {A} a.
Arguments Fail {A} e.

(** Modelled from the spec: an identity (signer, recipient, caller) of the
    missing contract; [0] is the invalid recipient. *)
Definition Identity : Type := N.

(** Modelled from the spec: [PendingTransaction] of the missing contract
    (section 3). *)
Record PendingTransaction : Type := {
  tx_recipient : Identity;
  tx_amount : N;
  tx_payload : string;
  tx_confirmations : gset N;
  tx_executed : bool
}.

(** Modelled from the spec: the three allocation rule kinds of the missing
    contract. *)
Inductive AllocationKind : Type :=
| PERCENTAGE
| FIXED_AMOUNT
| BALANCE_THRESHOLD.

(** Modelled from the spec: [AllocationRule] of the missing contract
    (section 3); [budgetLimit = 0] means unlimited. *)
Record AllocationRule : Type := {
  rule_recipient : Identity;
  rule_kind : AllocationKind;
  rule_value : N;
  rule_budgetLimit : N;
  rule_spent : N;
  rule_priority : N;
  rule_cooldown : N;
  rule_lastExecuted : N;
  rule_active : bool
}.

(** Modelled from the spec: one entry of the compliance ledger of the
    missing contract (section 3); the record id is the sequence number. *)
Record Movement : Type := {
  mv_sequence : N;
  mv_internalTxRef : N;
  mv_ruleId : N;
  mv_source : TransactionSource;
  mv_recipient : Identity;
  mv_amount : N;
  mv_kycStatus : ComplianceStatus;
  mv_amlStatus : ComplianceStatus;
  mv_timestamp : N;
  mv_executor : Identity;
  mv_reconciled : bool
}.

(** Modelled from the spec: the state of one treasury instance of the
    missing contract — the shared balance, the signer set with its
    threshold, the transaction and rule tables, the append-only ledger and
    the current time. *)
Record State : Type := {
  balance : N;
  authority : Identity;
  signers : gset N;
  threshold : nat;
  transactions : gmap N PendingTransaction;
  nextTxId : N;
  allocationRules : gmap N AllocationRule;
  nextRuleId : N;
  ledger : list Movement;
  now : N
}.

(** Modelled from the spec: a freshly configured treasury of the missing
    contract. *)
Definition init (owner : Identity) (members : gset N) (required : nat)
    (funds time : N) : State :=
  {| balance := funds; authority := owner; signers := members;
     threshold := required; transactions := ∅; nextTxId := 1;
     allocationRules := ∅; nextRuleId := 1; ledger := []; now := time |}.

(** Modelled from the spec: in-place updates of parts of the state of the
    missing contract. *)
Definition withTransactions (s : State) (txs : gmap N PendingTransaction)
    (next : N) : State :=
  {| balance := balance s; authority := authority s; signers := signers s;
     threshold := threshold s; transactions := txs; nextTxId := next;
     allocationRules := allocationRules s; nextRuleId := nextRuleId s;
     ledger := ledger s; now := now s |}.

(** Modelled from the spec: replacing the rule table of the missing
    contract. *)
Definition withRules (s : State) (rules : gmap N AllocationRule) (next : N) : State :=
  {| balance := balance s; authority := authority s; signers := signers s;
     threshold := threshold s; transactions := transactions s;
     nextTxId := nextTxId s; allocationRules := rules; nextRuleId := next;
     ledger := ledger s; now := now s |}.

(** Modelled from the spec: replacing the signer set and threshold of the
    missing contract. *)
Definition withSigners (s : State) (members : gset N) (required : nat) : State :=
  {| balance := balance s; authority := authority s; signers := members;
     threshold := required; transactions := transactions s;
     nextTxId := nextTxId s; allocationRules := allocationRules s;
     nextRuleId := nextRuleId s; ledger := ledger s; now := now s |}.

(** Modelled from the spec: funds arriving and time passing, the two ways
    the environment changes the state of the missing contract. *)
Definition withFundsAndTime (s : State) (funds time : N) : State :=
  {| balance := funds; authority := authority s; signers := signers s;
     threshold := threshold s; transactions := transactions s;
     nextTxId := nextTxId s; allocationRules := allocationRules s;
     nextRuleId := nextRuleId s; ledger := ledger s; now := time |}.

(** Modelled from the spec: the ledger entry [recordMovement] of the
    missing contract writes (section 4.5): statuses start UNKNOWN and the
    id comes from a monotonic sequence counter. *)
Definition movement (s : State) (internalTxRef ruleId : N)
    (source : TransactionSource) (recipient : Identity) (amount : N)
    (executor : Identity) : Movement :=
  {| mv_sequence := N.of_nat (length (ledger s));
     mv_internalTxRef := internalTxRef; mv_ruleId := ruleId;
     mv_source := source; mv_recipient := recipient; mv_amount := amount;
     mv_kycStatus := UNKNOWN; mv_amlStatus := UNKNOWN;
     mv_timestamp := now s; mv_executor := executor;
     mv_reconciled := false |}.

(** Modelled from the spec: one movement in the missing contract — the
    balance authority is debited and the compliance ledger gains exactly
    one record (sections 2 and 3). *)
Definition move (s : State) (internalTxRef ruleId : N)
    (source : TransactionSource) (recipient : Identity) (amount : N)
    (executor : Identity) : State :=
  {| balance := balance s - amount; authority := authority s;
     signers := signers s; threshold := threshold s;
     transactions := transactions s; nextTxId := nextTxId s;
     allocationRules := allocationRules s; nextRuleId := nextRuleId s;
     ledger := ledger s ++ [movement s internalTxRef ruleId source recipient amount executor];
     now := now s |}%N.

(** *** AuthorizationLedger (section 4.1) *)

(** Modelled from the spec: [propose] of the missing contract — fails
    with ValidationError on a zero amount or an invalid recipient. *)
Definition propose (caller recipient : Identity) (amount : N) (payload : string)
    (s : State) : Outcome (State * N) :=
  if (amount =? 0)%N || (recipient =? 0)%N then Fail ValidationError
  else
    let tx := {| tx_recipient := recipient; tx_amount := amount;
                 tx_payload := payload; tx_confirmations := ∅;
                 tx_executed := false |} in
    Done (withTransactions s (<[nextTxId s := tx]> (transactions s)) (nextTxId s + 1)%N,
          nextTxId s).

(** Modelled from the spec: the execution step of the missing contract —
    debit the balance, write the ComplianceRecord with source MULTISIG,
    mark the transaction executed. *)
Definition settle (caller : Identity) (txId : N) (tx : PendingTransaction)
    (confirmations : gset N) (s : State) : Outcome State :=
  if (balance s <? tx_amount tx)%N then Fail InsufficientFundsError
  else
    let done := {| tx_recipient := tx_recipient tx; tx_amount := tx_amount tx;
                   tx_payload := tx_payload tx; tx_confirmations := confirmations;
                   tx_executed := true |} in
    let s := withTransactions s (<[txId := done]> (transactions s)) (nextTxId s) in
    Done (move s txId 0 MULTISIG_TRANSACTION (tx_recipient tx) (tx_amount tx) caller).

(** Modelled from the spec: [confirm] of the missing contract — StateError
    on an executed transaction (EXECUTED is terminal: any further confirm
    fails so, section 8), AuthorizationError if the caller is not a current
    signer, StateError if that signer already confirmed; when the
    confirmations reach the threshold the execution happens inside the same
    call, and any error aborts the whole call. *)
Definition confirm (caller : Identity) (txId : N) (s : State) : Outcome State :=
  match transactions s !! txId with
  | None => Fail NotFoundError
  | Some tx =>
      if tx_executed tx then Fail StateError
      else if negb (bool_decide (caller ∈ signers s)) then Fail AuthorizationError
      else if bool_decide (caller ∈ tx_confirmations tx) then Fail StateError
      else
        let confirmations := tx_confirmations tx ∪ {[caller]} in
        if bool_decide (threshold s ≤ size confirmations)%nat
        then settle caller txId tx confirmations s
        else
          let tx' := {| tx_recipient := tx_recipient tx; tx_amount := tx_amount tx;
                        tx_payload := tx_payload tx;
                        tx_confirmations := confirmations;
                        tx_executed := false |} in
          Done (withTransactions s (<[txId := tx']> (transactions s)) (nextTxId s))
  end.

(** Modelled from the spec: [revoke] of the missing contract — removes the
    caller's confirmation, fails if the transaction is already executed. *)
Definition revoke (caller : Identity) (txId : N) (s : State) : Outcome State :=
  match transactions s !! txId with
  | None => Fail NotFoundError
  | Some tx =>
      if tx_executed tx then Fail StateError
      else
        let tx' := {| tx_recipient := tx_recipient tx; tx_amount := tx_amount tx;
                      tx_payload := tx_payload tx;
                      tx_confirmations := tx_confirmations tx ∖ {[caller]};
                      tx_executed := false |} in
        Done (withTransactions s (<[txId := tx']> (transactions s)) (nextTxId s))
  end.

(** Modelled from the spec: [execute] of the missing contract — the
    explicit execute step; StateError if already executed or the threshold
    is unmet. *)
Definition execute (caller : Identity) (txId : N) (s : State) : Outcome State :=
  match transactions s !! txId with
  | None => Fail NotFoundError
  | Some tx =>
      if tx_executed tx then Fail StateError
      else if negb (bool_decide (threshold s ≤ size (tx_confirmations tx))%nat)
      then Fail StateError
      else settle caller txId tx (tx_confirmations tx) s
  end.

(** Modelled from the spec: signer management of the missing contract —
    restricted to the configuring authority, keeping threshold ≤ |signers|,
    and leaving in-flight transactions as they are. *)
Definition addSigner (caller id : Identity) (s : State) : Outcome State :=
  if negb (caller =? authority s)%N then Fail AuthorizationError
  else if (id =? 0)%N || bool_decide (id ∈ signers s) then Fail ValidationError
  else Done (withSigners s (signers s ∪ {[id]}) (threshold s)).

(** Modelled from the spec: [removeSigner] of the missing contract. *)
Definition removeSigner (caller id : Identity) (s : State) : Outcome State :=
  if negb (caller =? authority s)%N then Fail AuthorizationError
  else if negb (bool_decide (id ∈ signers s)) then Fail ValidationError
  else if bool_decide (threshold s ≤ size (signers s ∖ {[id]}))%nat
  then Done (withSigners s (signers s ∖ {[id]}) (threshold s))
  else Fail ValidationError.

(** Modelled from the spec: [setThreshold] of the missing contract. *)
Definition setThreshold (caller : Identity) (n : nat) (s : State) : Outcome State :=
  if negb (caller =? authority s)%N then Fail AuthorizationError
  else if bool_decide (0 < n ≤ size (signers s))%nat
  then Done (withSigners s (signers s) n)
  else Fail ValidationError.

(** *** AllocationRuleEngine (section 4.2) *)

(** Modelled from the spec: [createAllocationRule] of the missing contract;
    a new rule has spent nothing and is active. *)
Definition createAllocationRule (caller recipient : Identity) (kind : AllocationKind)
    (value budgetLimit priority cooldown : N) (s : State) : Outcome (State * N) :=
  if (recipient =? 0)%N || (value =? 0)%N
     || match kind with PERCENTAGE => (10000 <? value)%N | _ => false end
  then Fail ValidationError
  else
    let rule := {| rule_recipient := recipient; rule_kind := kind;
                   rule_value := value; rule_budgetLimit := budgetLimit;
                   rule_spent := 0; rule_priority := priority;
                   rule_cooldown := cooldown; rule_lastExecuted := 0;
                   rule_active := true |} in
    Done (withRules s (<[nextRuleId s := rule]> (allocationRules s)) (nextRuleId s + 1)%N,
          nextRuleId s).

(** Modelled from the spec: eligibility and amount by kind in the missing
    contract — PERCENTAGE: balance > 0, basis points of the balance;
    FIXED_AMOUNT: balance ≥ value; BALANCE_THRESHOLD: balance > value,
    amount = balance − value.  [None] is "not eligible". *)
Definition computedAmount (rule : AllocationRule) (funds : N) : option N :=
  match rule_kind rule with
  | PERCENTAGE =>
      if (0 <? funds)%N then Some (funds * rule_value rule / 10000)%N else None
  | FIXED_AMOUNT =>
      if (rule_value rule <=? funds)%N then Some (rule_value rule) else None
  | BALANCE_THRESHOLD =>
      if (rule_value rule <? funds)%N then Some (funds - rule_value rule)%N else None
  end.

(** Modelled from the spec: the clamp of the missing contract — to the
    remaining budget [budgetLimit − spent], unlimited if [budgetLimit = 0]. *)
Definition clamp (rule : AllocationRule) (amount : N) : N :=
  if (rule_budgetLimit rule =? 0)%N then amount
  else N.min amount (rule_budgetLimit rule - rule_spent rule).

(** Modelled from the spec: the cooldown test of the missing contract. *)
Definition cooledDown (rule : AllocationRule) (time : N) : bool :=
  (rule_lastExecuted rule + rule_cooldown rule <=? time)%N.

(** Modelled from the spec: the amount one execution of a rule of the
    missing contract would move now; [None] when the item is skipped
    (inactive, cooling down, not eligible, clamped to zero, or balance
    insufficient). *)
Definition allocationAmount (rule : AllocationRule) (s : State) : option N :=
  if negb (rule_active rule) then None
  else if negb (cooledDown rule (now s)) then None
  else match computedAmount rule (balance s) with
       | None => None
       | Some amount =>
           let clamped := clamp rule amount in
           if (clamped =? 0)%N || (balance s <? clamped)%N then None
           else Some clamped
       end.

(** Modelled from the spec: execution of one rule id within a batch of the
    missing contract, soft-skip: on success debit the balance, increment
    spent, set lastExecuted and write the record with source
    ALLOCATION_RULE; otherwise leave the state alone.  The flag tells
    whether the rule executed. *)
Definition allocate (caller : Identity) (ruleId : N) (s : State) : State * bool :=
  match allocationRules s !! ruleId with
  | None => (s, false)
  | Some rule =>
      match allocationAmount rule s with
      | None => (s, false)
      | Some amount =>
          let rule' := {| rule_recipient := rule_recipient rule;
                          rule_kind := rule_kind rule;
                          rule_value := rule_value rule;
                          rule_budgetLimit := rule_budgetLimit rule;
                          rule_spent := rule_spent rule + amount;
                          rule_priority := rule_priority rule;
                          rule_cooldown := rule_cooldown rule;
                          rule_lastExecuted := now s;
                          rule_active := true |}%N in
          let s := withRules s (<[ruleId := rule']> (allocationRules s)) (nextRuleId s) in
          (move s 0 ruleId ALLOCATION_RULE (rule_recipient rule) amount caller, true)
      end
  end.

(** Modelled from the spec: [executeAllocations(ids)] of the missing
    contract — the given ids in the given order, each step reading the
    balance left by the steps before; returns the executed count. *)
Fixpoint executeAllocations (caller : Identity) (ruleIds : list N) (s : State)
  : State * nat :=
  match ruleIds with
  | [] => (s, O)
  | ruleId :: rest =>
      let '(s1, ran) := allocate caller ruleId s in
      let '(s2, count) := executeAllocations caller rest s1 in
      (s2, if ran then S count else count)
  end.

(** Modelled from the spec: the order of [executeAllEligibleAllocations]
    in the missing contract — priority descending, then id ascending. *)
Definition runsBefore (a b : N * AllocationRule) : Prop :=
  (rule_priority (snd b) < rule_priority (snd a))%N \/
  (rule_priority (snd a) = rule_priority (snd b) /\ (fst a <= fst b)%N).

#[global] Instance runsBefore_dec : RelDecision runsBefore.
Proof. intros a b. unfold runsBefore. apply _. Defined.

(** Modelled from the spec: [getEligibleAllocationRules] of the missing
    contract, in execution order. *)
Definition eligibleAllocationRules (s : State) : list N :=
  fst <$> merge_sort runsBefore
            (filter (fun entry => is_Some (allocationAmount (snd entry) s))
                    (map_to_list (allocationRules s))).

(** Modelled from the spec: [executeAllEligibleAllocations] of the missing
    contract. *)
Definition executeAllEligibleAllocations (caller : Identity) (s : State)
  : State * nat :=
  executeAllocations caller (eligibleAllocationRules s) s.

(** Modelled from the spec: [updateAllocationRule(id, active)] of the
    missing contract — deactivation is the only removal. *)
Definition updateAllocationRule (caller : Identity) (ruleId : N) (active : bool)
    (s : State) : Outcome State :=
  match allocationRules s !! ruleId with
  | None => Fail NotFoundError
  | Some rule =>
      let rule' := {| rule_recipient := rule_recipient rule;
                      rule_kind := rule_kind rule; rule_value := rule_value rule;
                      rule_budgetLimit := rule_budgetLimit rule;
                      rule_spent := rule_spent rule;
                      rule_priority := rule_priority rule;
                      rule_cooldown := rule_cooldown rule;
                      rule_lastExecuted := rule_lastExecuted rule;
                      rule_active := active |} in
      Done (withRules s (<[ruleId := rule']> (allocationRules s)) (nextRuleId s))
  end.

(** *** Call sequences *)

(** Modelled from the spec: the state-changing calls of the missing
    contract (section 6), with the deposits and the passing of time that
    reach it from outside. *)
Inductive Call : Type :=
| Propose (caller recipient : Identity) (amount : N) (payload : string)
| Confirm (caller : Identity) (txId : N)
| Revoke (caller : Identity) (txId : N)
| Execute (caller : Identity) (txId : N)
| AddSigner (caller id : Identity)
| RemoveSigner (caller id : Identity)
| SetThreshold (caller : Identity) (n : nat)
| CreateAllocationRule (caller recipient : Identity) (kind : AllocationKind)
    (value budgetLimit priority cooldown : N)
| ExecuteAllocations (caller : Identity) (ruleIds : list N)
| ExecuteAllEligibleAllocations (caller : Identity)
| UpdateAllocationRule (caller : Identity) (ruleId : N) (active : bool)
| Deposit (amount : N)
| Elapse (seconds : N).

(** Modelled from the spec: the state after an outcome of the missing
    contract — a failed call has no effect (all-or-nothing, section 7). *)
Definition settled {A} (s : State) (pick : A -> State) (o : Outcome A) : State :=
  match o with
  | Done a => pick a
  | Fail _ => s
  end.

(** Modelled from the spec: one call against the missing contract, under
    the single-writer model of section 5. *)
Definition step (s : State) (c : Call) : State :=
  match c with
  | Propose caller recipient amount payload =>
      settled s fst (propose caller recipient amount payload s)
  | Confirm caller txId => settled s id (confirm caller txId s)
  | Revoke caller txId => settled s id (revoke caller txId s)
  | Execute caller txId => settled s id (execute caller txId s)
  | AddSigner caller i => settled s id (addSigner caller i s)
  | RemoveSigner caller i => settled s id (removeSigner caller i s)
  | SetThreshold caller n => settled s id (setThreshold caller n s)
  | CreateAllocationRule caller recipient kind value budgetLimit priority cooldown =>
      settled s fst
        (createAllocationRule caller recipient kind value budgetLimit priority cooldown s)
  | ExecuteAllocations caller ruleIds => fst (executeAllocations caller ruleIds s)
  | ExecuteAllEligibleAllocations caller => fst (executeAllEligibleAllocations caller s)
  | UpdateAllocationRule caller ruleId active =>
      settled s id (updateAllocationRule caller ruleId active s)
  | Deposit amount => withFundsAndTime s (balance s + amount)%N (now s)
  | Elapse seconds => withFundsAndTime s (balance s) (now s + seconds)%N
  end.

(** Modelled from the spec: a sequence of calls against the missing
    contract, one completed before the next starts. *)
Definition run (s : State) (calls : list Call) : State := fold_left step calls s.

(** Modelled from the spec: how many times a transaction id of the missing
    contract was executed, read off the ledger — its records with source
    MULTISIG. *)
Definition executions (txId : N) (entries : list Movement) : nat :=
  length (filter (fun m => mv_source m = MULTISIG_TRANSACTION /\ mv_internalTxRef m = txId)
                 entries).

(** Modelled from the spec: whether a transaction id of the missing
    contract is marked executed. *)
Definition isExecuted (s : State) (txId : N) : bool :=
  match transactions s !! txId with
  | Some tx => tx_executed tx
  | None => false
  end.

(** The bookkeeping that ties the ledger to the transaction table: ids
    from [nextTxId] on are unused, and the ledger holds one MULTISIG record
    for each executed transaction and none for any other id. *)
Definition consistent (s : State) : Prop :=
  (forall txId, (nextTxId s <= txId)%N -> transactions s !! txId = None) /\
  (forall txId, executions txId (ledger s) = if isExecuted s txId then 1%nat else 0%nat).

(** Modelled from the spec: the budget property of the rule table of the
    missing contract — a limited rule has not spent beyond its limit. *)
Definition within_budget (s : State) : Prop :=
  forall ruleId rule,
    allocationRules s !! ruleId = Some rule ->
    (0 < rule_budgetLimit rule)%N ->
    (rule_spent rule <= rule_budgetLimit rule)%N.

End Treasury.

(** The scenarios of section 8, as call sequences: signers 1, 2 and 3
    with threshold 2 and a balance of 1000. *)
Module TreasuryScenario.
Import Treasury.

Definition start : State := init 9%N {[1; 2; 3]}%N 2 1000%N 1700000000%N.

(** Signer 1 proposes 400 to recipient 77 and confirms. *)
Definition history : list Call :=
  [Propose 1 77 400 ""; Confirm 1 1]%N.

(** What follows the executing confirmation of signer 2. *)
Definition later : list Call :=
  [Confirm 3 1; Execute 1 1; Deposit 50; Revoke 2 1; Confirm 8 1; Elapse 60]%N.

(** A fixed-amount rule of 40 with a budget of 100, run three times. *)
Definition budgeted : list Call :=
  [CreateAllocationRule 1 55 FIXED_AMOUNT 40 100 1 0;
   ExecuteAllEligibleAllocations 1;
   ExecuteAllocations 1 [1];
   ExecuteAllEligibleAllocations 1]%N.

End TreasuryScenario.

(** ** Specification predicates used by the statements of Part II *)

(** An external id is written only if a non-empty value is supplied;
    otherwise the existing value stays.  [inj] embeds the supplied string
    in the type of the stored value. *)
Definition external_id_rule {A : Type} (inj : string -> A)
    (supplied : option string) (old new : option A) : Prop :=
  (forall s, supplied = Some s -> s <> ""%string -> new = Some (inj s)) /\
  (supplied = None \/ supplied = Some ""%string -> new = old).

(** The fields fixed when a record is created. *)
Definition creation_fields_equal (r r' : ComplianceRecord) : Prop :=
  recordId r' = recordId r /\
  transactionHash r' = transactionHash r /\
  internalTxHash r' = internalTxHash r /\
  ruleId r' = ruleId r /\
  source r' = source r /\
  recipient r' = recipient r /\
  usdcAmount r' = usdcAmount r /\
  usdcAmountFormatted r' = usdcAmountFormatted r /\
  timestamp r' = timestamp r /\
  timestampISO r' = timestampISO r /\
  blockNumber r' = blockNumber r /\
  executor r' = executor r /\
  metadata r' = metadata r.

(** The reconciliation outcome in the shape the Mongoose method would have
    if its [reconciledAtISO] were the rendering of its [reconciledAt]. *)
Definition mongoose_iso_renders_reconciledAt (store : Mongoose.Store) (clock : Z)
    (doc : Mongoose.Document) : Prop :=
  let d' := snd (Mongoose.markReconciled store clock clock doc) in
  d' !! "reconciled"%string = Some (Mongoose.VBool true) /\
  d' !! "reconciledAt"%string = Some (Mongoose.VNum (clock / 1000)) /\
  exists d, d' !! "reconciledAtISO"%string = Some (Mongoose.VDate d) /\
            JS.toISOString d = ComplianceRecordUtils.timestampToISO (clock / 1000).

(** ** Reading [validate] field by field *)

Module ValidationReading.
Import JS ComplianceRecordValidator.

(** A full record passed where a [Partial<ComplianceRecord>] is expected:
    the same object, every required property present. *)
Definition asPartial (r : ComplianceRecord) : Partial.t :=
  {| Partial.recordId := Some (recordId r);
     Partial.transactionHash := Some (transactionHash r);
     Partial.internalTxHash := Some (internalTxHash r);
     Partial.ruleId := Some (ruleId r);
     Partial.source := Some (source r);
     Partial.recipient := Some (recipient r);
     Partial.usdcAmount := Some (usdcAmount r);
     Partial.usdcAmountFormatted := Some (usdcAmountFormatted r);
     Partial.kycStatus := Some (kycStatus r);
     Partial.amlStatus := Some (amlStatus r);
     Partial.timestamp := Some (timestamp r);
     Partial.timestampISO := Some (timestampISO r);
     Partial.blockNumber := Some (blockNumber r);
     Partial.executor := Some (executor r);
     Partial.circleGatewayTxId := circleGatewayTxId r;
     Partial.arcTransparencyId := arcTransparencyId r;
     Partial.reconciled := Some (reconciled r);
     Partial.reconciledAt := Some (reconciledAt r);
     Partial.reconciledAtISO := reconciledAtISO r;
     Partial.metadata := metadata r;
     Partial.createdAt := createdAt r;
     Partial.updatedAt := updatedAt r |}.

(** The string property a field's format check reads, if it is one. *)
Definition checkedString (f : Field) (record : Partial.t) : option string :=
  match f with
  | FRecordId => Partial.recordId record
  | FTransactionHash => Partial.transactionHash record
  | FInternalTxHash => Partial.internalTxHash record
  | FRecipient => Partial.recipient record
  | FExecutor => Partial.executor record
  | FUsdcAmount => Partial.usdcAmount record
  | FJurisdiction => metadata_jurisdiction record
  | FRuleId | FTimestamp | FBlockNumber => None
  end.

(** The number property a field's sign check reads, if it is one. *)
Definition checkedNumber (f : Field) (record : Partial.t) : option Z :=
  match f with
  | FRuleId => Partial.ruleId record
  | FTimestamp => Partial.timestamp record
  | FBlockNumber => Partial.blockNumber record
  | _ => None
  end.

(** The regular expression test that belongs to a string field. *)
Definition formatCheck (f : Field) : string -> bool :=
  match f with
  | FRecordId | FTransactionHash | FInternalTxHash => validateHash
  | FRecipient | FExecutor => validateAddress
  | FUsdcAmount => validateAmount
  | FJurisdiction => validateJurisdiction
  | FRuleId | FTimestamp | FBlockNumber => fun _ => true
  end.

(** A field is rejected when it holds a non-empty string that fails its
    test, or a negative number. *)
Definition rejected (f : Field) (record : Partial.t) : Prop :=
  (exists s, checkedString f record = Some s /\ s <> ""%string /\ formatCheck f s = false) \/
  (exists n, checkedNumber f record = Some n /\ n < 0).

(** All messages, in the order [validate] can push them. *)
Definition allMessages : list string :=
  message <$> [FRecordId; FTransactionHash; FInternalTxHash; FRecipient; FExecutor;
               FUsdcAmount; FRuleId; FTimestamp; FBlockNumber; FJurisdiction].

End ValidationReading.

(** ** The static query helpers of [ComplianceRecord.mongoose.js] *)

Module MongooseStatics.
Import JS.

(** What a query condition compares a path with. *)
Inductive Condition : Type :=
| Equals (v : Mongoose.Value)
| Between (gte lte : Z).

(** A sort argument: an object such as [{ timestamp: -1 }] or a string. *)
Inductive SortSpec : Type :=
| SortObject (fields : list (string * Z))
| SortString (s : string).

(** The [options] argument, as far as the helpers read it. *)
Record Options : Type := {
  limit : option Z;
  sort : option SortSpec
}.

(** The query under construction: the filter given to [find] and the
    arguments of the [limit] and [sort] calls made on it, if any. *)
Record Query : Type := {
  filter : list (string * Condition);
  limited : option Z;
  sorted : option SortSpec
}.

Definition find (conditions : list (string * Condition)) : Query :=
  {| filter := conditions; limited := None; sorted := None |}.

(** [query.limit(n)] and [query.sort(s)] *)
Definition withLimit (n : Z) (q : Query) : Query :=
  {| filter := filter q; limited := Some n; sorted := sorted q |}.

Definition withSort (s : SortSpec) (q : Query) : Query :=
  {| filter := filter q; limited := limited q; sorted := Some s |}.

Definition truthy_limit (o : option Z) : bool :=
  match o with
  | Some n => negb (Z.eqb n 0)
  | None => false
  end.

Definition truthy_sort (o : option SortSpec) : bool :=
  match o with
  | Some (SortObject _) => true
  | Some (SortString s) => truthy s
  | None => false
  end.

(** [if (options.limit) query.limit(options.limit)] *)
Definition applyLimit (options : Options) (q : Query) : Query :=
  if truthy_limit (limit options)
  then match limit options with Some n => withLimit n q | None => q end
  else q.

(** [if (options.sort) query.sort(options.sort)] *)
Definition applySort (options : Options) (q : Query) : Query :=
  if truthy_sort (sort options)
  then match sort options with Some s => withSort s q | None => q end
  else q.

(** [options.sort || { timestamp: -1 }] *)
Definition sortOrNewestFirst (options : Options) : SortSpec :=
  if truthy_sort (sort options)
  then match sort options with
       | Some s => s
       | None => SortObject [("timestamp"%string, -1)]
       end
  else SortObject [("timestamp"%string, -1)].

(** [if (options.sort) query.sort(options.sort || { timestamp: -1 })] *)
Definition applySortOrNewestFirst (options : Options) (q : Query) : Query :=
  if truthy_sort (sort options) then withSort (sortOrNewestFirst options) q else q.

Definition findByRecipient (recipient : string) (options : Options) : Query :=
  let query := find [("recipient"%string, Equals (Mongoose.VStr recipient))] in
  let query := applyLimit options query in
  applySort options query.

Definition findByRuleId (ruleId : Z) (options : Options) : Query :=
  let query := find [("ruleId"%string, Equals (Mongoose.VNum ruleId))] in
  let query := applyLimit options query in
  applySort options query.

Definition findUnreconciled (options : Options) : Query :=
  let query := find [("reconciled"%string, Equals (Mongoose.VBool false))] in
  let query := applyLimit options query in
  applySortOrNewestFirst options query.

Definition findByDateRange (startTimestamp endTimestamp : Z) (options : Options) : Query :=
  let query := find [("timestamp"%string, Between startTimestamp endTimestamp)] in
  let query := applyLimit options query in
  applySortOrNewestFirst options query.

Definition findByComplianceStatus (kycStatus amlStatus : string) (options : Options)
  : Query :=
  let query := find [("kycStatus"%string, Equals (Mongoose.VStr kycStatus));
                     ("amlStatus"%string, Equals (Mongoose.VStr amlStatus))] in
  let query := applyLimit options query in
  applySortOrNewestFirst options query.

(** The sort a helper was asked for, if it counts as one. *)
Definition requestedSort (options : Options) : option SortSpec :=
  if truthy_sort (sort options) then sort options else None.

End MongooseStatics.

(** ** The rest of the payroll automation service *)

Module PayrollCycle.
Import JS PayrollAutomationService.

(** The awaited calls of a whole check cycle: those of the scheduled
    path, and the contract calls of the two rule paths. *)
Inductive Event : Type :=
| Scheduled (c : Call)
| GetBalance
| GetEligibleDistributionRules
| ExecuteAllEligibleDistributionRules (gasLimit : N)
| GetEligibleAllocationRules
| ExecuteAllEligibleAllocations (gasLimit : N).

(** The treasury contract as the cycle uses it. *)
Record Contract (World : Type) : Type := {
  scheduled : Collaborators World;
  getBalance : World -> Result N * World;
  getEligibleDistributionRules : World -> Result (list N) * World;
  executeAllEligibleDistributionRules :
    N -> World -> Result TransactionResponse.t * World;
  getEligibleAllocationRules : World -> Result (list N) * World;
  executeAllEligibleAllocations : N -> World -> Result TransactionResponse.t * World
}.
Arguments scheduled {World} _.
Arguments getBalance {World} _ _.
Arguments getEligibleDistributionRules {World} _ _.
Arguments executeAllEligibleDistributionRules {World} _ _ _.
Arguments getEligibleAllocationRules {World} _ _.
Arguments executeAllEligibleAllocations {World} _ _ _.

(** What the two rule checks return: [{ rulesExecuted: 0 }],
    [{ txHash, blockNumber, rulesExecuted, gasUsed }] or
    [{ rulesExecuted: 0, error }]. *)
Module RuleBatch.
Record t : Type := {
  txHash : option string;
  blockNumber : option Z;
  rulesExecuted : nat;
  gasUsed : option string;
  error : option string
}.

Definition nothing : t :=
  {| txHash := None; blockNumber := None; rulesExecuted := 0;
     gasUsed := None; error := None |}.

Definition failure (message : string) : t :=
  {| txHash := None; blockNumber := None; rulesExecuted := 0;
     gasUsed := None; error := Some message |}.
End RuleBatch.

(** [hay.includes(needle)] *)
Fixpoint includes (needle hay : string) : bool :=
  String.prefix needle hay
  || match hay with
     | String _ rest => includes needle rest
     | EmptyString => false
     end.

(** The test of the [catch] clauses: a message that only says there was
    nothing to execute. *)
Definition nothingToExecute (message : string) : bool :=
  truthy message
  && (includes "No eligible" message
      || includes "no eligible" message
      || includes "insufficient balance" message).

Section Cycle.
Context {World : Type}.
Variable contract : Contract World.
Variable config : Config.

Definition P (A : Type) : Type :=
  World * list Event -> Result A * (World * list Event).

Definition pure {A} (a : A) : P A := fun st => (Ok a, st).

Definition pbind {A B} (m : P A) (k : A -> P B) : P B :=
  fun st =>
    match m st with
    | (Ok a, st') => k a st'
    | (Throw e, st') => (Throw e, st')
    end.

Definition pcatch {A} (m : P A) (handler : Exn -> P A) : P A :=
  fun st =>
    match m st with
    | (Ok a, st') => (Ok a, st')
    | (Throw e, st') => handler e st'
    end.

Definition call {A} (e : Event) (f : World -> Result A * World) : P A :=
  fun st =>
    let '(r, w') := f (fst st) in (r, (w', snd st ++ [e])).

(** A computation of the scheduled path run inside the cycle: its calls
    join the cycle's log. *)
Definition viaScheduled {A} (m : M A) : P A :=
  fun st =>
    let '(r, (w', calls)) := m (fst st, []) in
    (r, (w', snd st ++ (Scheduled <$> calls))).

Notation "'let*' x ':=' m 'in' k" := (pbind m (fun x => k))
  (at level 10, x name, m at level 100, k at level 200).

(** The [catch] clause shared by the two rule checks. *)
Definition ruleCheckFailed (error : Exn) : P RuleBatch.t :=
  if nothingToExecute (message_of error)
  then pure RuleBatch.nothing
  else pure (RuleBatch.failure (message_of error)).

(** [checkRuleBasedDistributions()] *)
Definition checkRuleBasedDistributions : P RuleBatch.t :=
  pcatch
    (let* eligibleRules := call GetEligibleDistributionRules
                                (getEligibleDistributionRules contract) in
     match eligibleRules with
     | [] => pure RuleBatch.nothing
     | _ =>
         let* tx := call (ExecuteAllEligibleDistributionRules 1000000)
                         (executeAllEligibleDistributionRules contract 1000000) in
         let* receipt := call (Scheduled (Wait tx)) (wait (scheduled contract) tx) in
         pure {| RuleBatch.txHash := Some (TransactionResponse.hash tx);
                 RuleBatch.blockNumber := Some (Receipt.blockNumber receipt);
                 RuleBatch.rulesExecuted := length eligibleRules;
                 RuleBatch.gasUsed := Some (Ethers.toString (Receipt.gasUsed receipt));
                 RuleBatch.error := None |}
     end)
    ruleCheckFailed.

(** [checkAllocationRules()] *)
Definition checkAllocationRules : P RuleBatch.t :=
  pcatch
    (let* eligibleRules := call GetEligibleAllocationRules
                                (getEligibleAllocationRules contract) in
     match eligibleRules with
     | [] => pure RuleBatch.nothing
     | _ =>
         let* tx := call (ExecuteAllEligibleAllocations 1000000)
                         (executeAllEligibleAllocations contract 1000000) in
         let* receipt := call (Scheduled (Wait tx)) (wait (scheduled contract) tx) in
         pure {| RuleBatch.txHash := Some (TransactionResponse.hash tx);
                 RuleBatch.blockNumber := Some (Receipt.blockNumber receipt);
                 RuleBatch.rulesExecuted := length eligibleRules;
                 RuleBatch.gasUsed := Some (Ethers.toString (Receipt.gasUsed receipt));
                 RuleBatch.error := None |}
     end)
    ruleCheckFailed.

(** [checkAndExecuteDistributions()]: the balance is read (for the
    console), then the three checks run in turn; their counts are added up
    for the closing console line only.  The [catch] clause swallows
    whatever is thrown, and nothing is returned. *)
Definition checkAndExecuteDistributions : P unit :=
  pcatch
    (let* balance := call GetBalance (getBalance contract) in
     let* scheduledResult :=
       viaScheduled (checkScheduledDistributions (scheduled contract) config) in
     let* distributionResult := checkRuleBasedDistributions in
     let* allocationResult := checkAllocationRules in
     pure tt)
    (fun _ => pure tt).

End Cycle.

(** The eligibility queries in a log, in order. *)
Inductive Query : Type := DueSchedules | EligibleDistributions | EligibleAllocations.

Definition queries (log : list Event) : list Query :=
  omap (fun e => match e with
                 | Scheduled GetDueScheduledDistributions => Some DueSchedules
                 | GetEligibleDistributionRules => Some EligibleDistributions
                 | GetEligibleAllocationRules => Some EligibleAllocations
                 | _ => None
                 end) log.

(** The transactions a log submits to the chain. *)
Definition submitted (log : list Event) : list Event :=
  List.filter (fun e => match e with
                        | Scheduled (ExecuteScheduledDistributions _ _)
                        | ExecuteAllEligibleDistributionRules _
                        | ExecuteAllEligibleAllocations _ => true
                        | _ => false
                        end) log.

End PayrollCycle.

(** ** Starting and stopping the services *)

Module Lifecycle.
Import JS.

(** How a call ended: it returned, or it threw. *)
Inductive Completion : Type := Returned | Threw.

(** The host's timers: the tasks [cron.schedule] has created, each with
    its expression and whether it is running, the delays of the pending
    [setTimeout] calls and the periods of the [setInterval] calls in
    force. *)
Record Timers : Type := {
  tasks : list (string * bool);
  timeouts : list N;
  intervals : list N
}.

(** The fields of a [PayrollAutomationService] that [start] and [stop]
    use; a job is known by its position among the tasks. *)
Record Automation : Type := {
  cronExpression : option string;
  isRunning : bool;
  jobs : gmap string nat
}.

(** The state the constructor leaves. *)
Definition constructed (expression : option string) : Automation :=
  {| cronExpression := expression; isRunning := false; jobs := ∅ |}.

(** [job.stop()] *)
Definition stopTask (job : nat) (timers : Timers) : Timers :=
  {| tasks := alter (fun task => (fst task, false)) job (tasks timers);
     timeouts := timeouts timers;
     intervals := intervals timers |}.

Section Automation.

(** The cron library's check of an expression: [cron.schedule] throws on
    one it does not accept. *)
Variable accepts : string -> bool.

(** [this.config.cronExpression || '*/1 * * * *'] *)
Definition expressionOf (this : Automation) : string :=
  match cronExpression this with
  | Some e => if truthy e then e else "*/1 * * * *"%string
  | None => "*/1 * * * *"%string
  end.

(** [PayrollAutomationService.start()] *)
Definition start (st : Automation * Timers) : Completion * (Automation * Timers) :=
  let '(this, timers) := st in
  if isRunning this then (Returned, (this, timers))
  else if negb (accepts (expressionOf this)) then (Threw, (this, timers))
  else
    let job := length (tasks timers) in
    (Returned,
     ({| cronExpression := cronExpression this; isRunning := true;
         jobs := <["main"%string := job]> (jobs this) |},
      {| tasks := tasks timers ++ [(expressionOf this, true)];
         timeouts := timeouts timers ++ [2000%N];
         intervals := intervals timers |})).

(** [PayrollAutomationService.stop()] *)
Definition stop (st : Automation * Timers) : Completion * (Automation * Timers) :=
  let '(this, timers) := st in
  if negb (isRunning this) then (Returned, (this, timers))
  else
    (Returned,
     ({| cronExpression := cronExpression this; isRunning := false; jobs := ∅ |},
      map_fold (fun _ job acc => stopTask job acc) timers (jobs this))).

Inductive Command : Type := Start | Stop.

(** The state after a command, whether it returned or threw. *)
Definition perform (st : Automation * Timers) (c : Command) : Automation * Timers :=
  match c with
  | Start => snd (start st)
  | Stop => snd (stop st)
  end.

End Automation.

(** How many cron tasks are running. *)
Definition running (timers : Timers) : nat :=
  length (List.filter snd (tasks timers)).

(** What ties the service to the timers: when it runs, its only job is the
    last task created and no other task runs; when it does not, it holds
    no job and no task runs. *)
Definition in_step (st : Automation * Timers) : Prop :=
  let '(this, timers) := st in
  if isRunning this
  then exists before expression,
         tasks timers = before ++ [(expression, true)] /\
         List.filter snd before = [] /\
         jobs this = {[ "main"%string := length before ]}
  else jobs this = ∅ /\ List.filter snd (tasks timers) = [].

(** *** The event listener *)

(** The fields of a [TreasuryEventListener] that [start] and [stop] use.
    [treasuryContract] is [null] until [initialize] has run; afterwards it
    is the contract object, here the listeners registered on it, each an
    event name and a handler.  Handlers are closures: [nextHandler] is the
    identity of the next one created. *)
Record Listener : Type := {
  treasuryContract : option (list (string * nat));
  isListening : bool;
  eventHandlers : gmap string nat;
  nextHandler : nat
}.

(** The five events [_setupEventListeners] subscribes to, in its order. *)
Definition eventNames : list string :=
  [ "ScheduledDistributionExecuted"; "DistributionRuleExecuted"; "AllocationExecuted";
    "ComplianceRecordCreated"; "TransactionExecuted" ]%string.

(** [contract.on(name, handler)] and [contract.off(name, handler)] on the
    list of registered listeners. *)
Definition on (name : string) (handler : nat) (registered : list (string * nat))
  : list (string * nat) :=
  registered ++ [(name, handler)].

Fixpoint off (name : string) (handler : nat) (registered : list (string * nat))
  : list (string * nat) :=
  match registered with
  | [] => []
  | entry :: rest =>
      if bool_decide (entry = (name, handler)) then rest
      else entry :: off name handler rest
  end.

(** One block of [_setupEventListeners]: a new handler, registered on the
    contract and remembered under the event's name.  On a [null] contract
    the call of [on] throws. *)
Definition subscribe (name : string) (this : Listener) : Completion * Listener :=
  match treasuryContract this with
  | None =>
      (Threw,
       {| treasuryContract := None; isListening := isListening this;
          eventHandlers := eventHandlers this;
          nextHandler := S (nextHandler this) |})
  | Some registered =>
      (Returned,
       {| treasuryContract := Some (on name (nextHandler this) registered);
          isListening := isListening this;
          eventHandlers := <[name := nextHandler this]> (eventHandlers this);
          nextHandler := S (nextHandler this) |})
  end.

Fixpoint subscribeEach (names : list string) (this : Listener) : Completion * Listener :=
  match names with
  | [] => (Returned, this)
  | name :: rest =>
      match subscribe name this with
      | (Returned, this') => subscribeEach rest this'
      | (Threw, this') => (Threw, this')
      end
  end.

(** [_setupEventListeners()] *)
Definition setupEventListeners (this : Listener) : Completion * Listener :=
  subscribeEach eventNames this.

(** [TreasuryEventListener.start()] *)
Definition listen (this : Listener) : Completion * Listener :=
  if isListening this then (Returned, this)
  else
    match setupEventListeners this with
    | (Returned, this') =>
        (Returned,
         {| treasuryContract := treasuryContract this'; isListening := true;
            eventHandlers := eventHandlers this'; nextHandler := nextHandler this' |})
    | (Threw, this') => (Threw, this')
    end.

(** [TreasuryEventListener.stop()]; with a [null] contract the first call
    of [off] throws, if there is a handler to remove. *)
Definition unlisten (this : Listener) : Completion * Listener :=
  if negb (isListening this) then (Returned, this)
  else
    match treasuryContract this with
    | Some registered =>
        (Returned,
         {| treasuryContract :=
              Some (map_fold (fun name handler acc => off name handler acc)
                             registered (eventHandlers this));
            isListening := false; eventHandlers := ∅;
            nextHandler := nextHandler this |})
    | None =>
        if bool_decide (eventHandlers this = ∅)
        then (Returned,
              {| treasuryContract := None; isListening := false;
                 eventHandlers := ∅; nextHandler := nextHandler this |})
        else (Threw, this)
    end.

End Lifecycle.

(** ** The event listener's handlers *)

Module TreasuryEventListener.
Import JS PayrollAutomationService.

Section Handlers.
Context {World : Type}.

(** [this.circleGateway], of which the handlers call
    [performComplianceCheck] only. *)
Variable circleGateway : Collaborators World.

Notation "'let*' x ':=' m 'in' k" := (mbind m (fun x => k))
  (at level 10, x name, m at level 100, k at level 200).

(** The request literal a handler builds for one recipient. *)
Definition requestFrom (source recipient : string) (amount : N) : ComplianceRequest.t :=
  {| ComplianceRequest.recipient := recipient;
     ComplianceRequest.amount := Ethers.formatUnits6 amount;
     ComplianceRequest.source := source |}.

(** [_handleScheduledDistribution(scheduleId, recipient, amount, event)];
    console output is left out.  The [catch] clause only logs. *)
Definition handleScheduledDistribution (recipient : string) (amount : N) : M unit :=
  tryCatch
    (let request := requestFrom "SCHEDULED_DISTRIBUTION" recipient amount in
     let* complianceCheck := await (PerformComplianceCheck request)
                                   (performComplianceCheck circleGateway request) in
     ret tt)
    (fun _ => ret tt).



(** [_handleAllocation(ruleId, recipient, amount, event)] *)
Definition handleAllocation (recipient : string) (amount : N) : M unit :=
  tryCatch
    (let request := requestFrom "ALLOCATION_RULE" recipient amount in
     let* complianceCheck := await (PerformComplianceCheck request)
                                   (performComplianceCheck circleGateway request) in
     ret tt)
    (fun _ => ret tt).

End Handlers.


End TreasuryEventListener.

(** ** The monitoring service *)

Module MonitoringService.
Import JS.

(** The fields of a [MonitoringService] that [start], [stop] and
    [printStats] use: the two services, [null] until [initialize] has run,
    and [stats.startTime], the time value of the [Date] stored there. *)
Record t : Type := {
  automation : option Lifecycle.Automation;
  eventListener : option Lifecycle.Listener;
  startTime : option Z
}.

Section Service.

(** The cron library's check of an expression. *)
Variable accepts : string -> bool.

(** [MonitoringService.start()]; [clock] is the instant [new Date()]
    captures.  An error thrown by one of the two [start] calls leaves at
    once. *)
Definition start (clock : Z) (st : t * Lifecycle.Timers)
  : Lifecycle.Completion * (t * Lifecycle.Timers) :=
  let '(this, timers) := st in
  match automation this, eventListener this with
  | Some a, Some l =>
      match Lifecycle.start accepts (a, timers) with
      | (Lifecycle.Threw, (a', timers')) =>
          (Lifecycle.Threw,
           ({| automation := Some a'; eventListener := Some l;
               startTime := startTime this |}, timers'))
      | (Lifecycle.Returned, (a', timers')) =>
          match Lifecycle.listen l with
          | (Lifecycle.Threw, l') =>
              (Lifecycle.Threw,
               ({| automation := Some a'; eventListener := Some l';
                   startTime := startTime this |}, timers'))
          | (Lifecycle.Returned, l') =>
              (Lifecycle.Returned,
               ({| automation := Some a'; eventListener := Some l';
                   startTime := Some clock |},
                {| Lifecycle.tasks := Lifecycle.tasks timers';
                   Lifecycle.timeouts := Lifecycle.timeouts timers';
                   Lifecycle.intervals :=
                     Lifecycle.intervals timers' ++ [3600000%N] |}))
          end
      end
  | _, _ => (Lifecycle.Threw, (this, timers))
  end.

(** [MonitoringService.stop()]; console output is left out. *)
Definition stop (st : t * Lifecycle.Timers)
  : Lifecycle.Completion * (t * Lifecycle.Timers) :=
  let '(this, timers) := st in
  let '(completion, (stopped, timers')) :=
    match automation this with
    | Some a =>
        let '(completion, (a', timers')) := Lifecycle.stop (a, timers) in
        (completion, (Some a', timers'))
    | None => (Lifecycle.Returned, (None, timers))
    end in
  match completion with
  | Lifecycle.Threw =>
      (Lifecycle.Threw,
       ({| automation := stopped; eventListener := eventListener this;
           startTime := startTime this |}, timers'))
  | Lifecycle.Returned =>
      match eventListener this with
      | Some l =>
          let '(completion, l') := Lifecycle.unlisten l in
          (completion,
           ({| automation := stopped; eventListener := Some l';
               startTime := startTime this |}, timers'))
      | None =>
          (Lifecycle.Returned,
           ({| automation := stopped; eventListener := None;
               startTime := startTime this |}, timers'))
      end
  end.

End Service.

(** The uptime [printStats] prints: whole seconds since [startTime], then
    split into hours, minutes and seconds.  [Math.floor] of a quotient is
    [/], and the remainder [%] takes the sign of the dividend, as
    [Z.rem]. *)
Definition uptime (clock : Z) (this : t) : Z :=
  match startTime this with
  | Some started => (clock - started) / 1000
  | None => 0
  end.

Definition hours (clock : Z) (this : t) : Z := uptime clock this / 3600.

Definition minutes (clock : Z) (this : t) : Z := Z.rem (uptime clock this) 3600 / 60.

Definition seconds (clock : Z) (this : t) : Z := Z.rem (uptime clock this) 60.

End MonitoringService.

(* ===================================================================== *)
(** * Part II — properties                                                *)
(* ===================================================================== *)

(** ** Sanity checks of the runtime model *)

Module RuntimeExamples.
Import JS ComplianceRecordUtils ComplianceRecordValidator.

Example iso_2024 : timestampToISO 1704067200 = Ok "2024-01-01T00:00:00.000Z"%string.
Proof. vm_compute. reflexivity. Qed.

Example iso_before_epoch :
  toISOString (newDate (-1)) = Ok "1969-12-31T23:59:59.999Z"%string.
Proof. vm_compute. reflexivity. Qed.

Example iso_leap_day :
  toISOString (newDate 951827696789) = Ok "2000-02-29T12:34:56.789Z"%string.
Proof. vm_compute. reflexivity. Qed.

Example iso_latest :
  toISOString (newDate 8640000000000000) = Ok "+275760-09-13T00:00:00.000Z"%string.
Proof. vm_compute. reflexivity. Qed.

Example iso_out_of_range :
  timestampToISO 10000000000000 = Throw (RangeError "Invalid time value").
Proof. vm_compute. reflexivity. Qed.

Example format_1000 : formatUSDCAmount "1000000000" = 1000%float.
Proof. vm_compute. reflexivity. Qed.

Example format_prefix : formatUSDCAmount "  -1500000abc" = (-1.5)%float.
Proof. vm_compute. reflexivity. Qed.

(** A no-break space (U+00A0, bytes C2 A0) before the digits is skipped. *)
Example format_after_no_break_space :
  formatUSDCAmount (String (ascii_of_N 194) (String (ascii_of_N 160) "2500000"))
  = 2.5%float.
Proof. vm_compute. reflexivity. Qed.

Example address_ok :
  validateAddress "0x742d35Cc6634C0532925a3b844Bc9e7595f0bEb0" = true.
Proof. reflexivity. Qed.

Example address_short :
  validateAddress "0x742d35Cc6634C0532925a3b844Bc9e7595f0bEb" = false.
Proof. reflexivity. Qed.

End RuntimeExamples.

(** ** Facts about dates, the pre-save hook and the schema defaults *)

Module ComplianceRecordFacts.
Import JS ComplianceRecordUtils.

Lemma validTime_whole_seconds (clock : Z) :
  validTime clock = true -> validTime (clock / 1000 * 1000) = true.
Proof.
  unfold validTime, maxTime.
  rewrite !andb_true_iff, !Z.leb_le.
  intros [Hlo Hhi]. Z.to_euclidean_division_equations. lia.
Qed.

Lemma timestampToISO_valid (t : Z) :
  validTime (t * 1000) = true -> timestampToISO t = Ok (iso_of_ms (t * 1000)).
Proof.
  intros Hv. unfold timestampToISO, newDate. rewrite Hv. reflexivity.
Qed.

Lemma timestampToISO_throws (t : Z) (e : Exn) :
  timestampToISO t = Throw e -> validTime (t * 1000) = false.
Proof.
  unfold timestampToISO, newDate.
  destruct (validTime (t * 1000)); simpl; [discriminate | reflexivity].
Qed.

Lemma or_str_rule (supplied old : option string) :
  external_id_rule (fun s => s) supplied old (or_str supplied old).
Proof.
  split.
  - intros s -> Hne. destruct s; [congruence | reflexivity].
  - intros [-> | ->]; reflexivity.
Qed.

End ComplianceRecordFacts.

Module MongooseFacts.
Import JS Mongoose.

Lemma assignDate_lookup_ne (path k : string) (date : Date) (doc : Document) :
  path <> k -> assignDate path date doc !! k = doc !! k.
Proof.
  intros Hne. destruct date; simpl; [apply lookup_insert_ne; assumption | reflexivity].
Qed.

Lemma ensureTimestampISO_lookup_ne (doc : Document) (k : string) :
  k <> "timestampISO"%string -> ensureTimestampISO doc !! k = doc !! k.
Proof.
  intros Hk. unfold ensureTimestampISO.
  repeat case_match; rewrite ?assignDate_lookup_ne by congruence; reflexivity.
Qed.

Lemma ensureReconciledAtISO_lookup_ne (doc : Document) (k : string) :
  k <> "reconciledAtISO"%string -> ensureReconciledAtISO doc !! k = doc !! k.
Proof.
  intros Hk. unfold ensureReconciledAtISO.
  repeat case_match; rewrite ?assignDate_lookup_ne by congruence; reflexivity.
Qed.

Lemma ensureTimestampISO_set (doc : Document) (d : Date) :
  doc !! "timestampISO"%string = Some (VDate d) -> ensureTimestampISO doc = doc.
Proof.
  intros Hk. unfold ensureTimestampISO. rewrite Hk. simpl.
  rewrite andb_false_r. reflexivity.
Qed.

Lemma ensureReconciledAtISO_set (doc : Document) (d : Date) :
  doc !! "reconciledAtISO"%string = Some (VDate d) -> ensureReconciledAtISO doc = doc.
Proof.
  intros Hk. unfold ensureReconciledAtISO. rewrite Hk. simpl.
  rewrite andb_false_r. reflexivity.
Qed.

Lemma ensureTimestampISO_idempotent (doc : Document) :
  ensureTimestampISO (ensureTimestampISO doc) = ensureTimestampISO doc.
Proof.
  unfold ensureTimestampISO at 2 3.
  destruct (truthy_value (doc !! "timestamp"%string)
            && negb (truthy_value (doc !! "timestampISO"%string))) eqn:Hc.
  - destruct (doc !! "timestamp"%string) as [[s | t | f | b | d | m] |] eqn:Hts;
      try (unfold ensureTimestampISO; rewrite Hts, Hc; reflexivity).
    destruct (newDate (t * 1000)) as [ms |] eqn:Hdate; simpl.
    + eapply ensureTimestampISO_set. apply lookup_insert_eq.
    + unfold ensureTimestampISO. rewrite Hts, Hc, Hdate. reflexivity.
  - unfold ensureTimestampISO. rewrite Hc. reflexivity.
Qed.

Lemma preSave_lookup_ne (doc : Document) (k : string) :
  k <> "timestampISO"%string -> k <> "reconciledAtISO"%string ->
  preSave doc !! k = doc !! k.
Proof.
  intros H1 H2. unfold preSave.
  rewrite ensureReconciledAtISO_lookup_ne by assumption.
  apply ensureTimestampISO_lookup_ne; assumption.
Qed.

Lemma preSave_keeps_date (doc : Document) (k : string) (d : Date) :
  doc !! k = Some (VDate d) -> preSave doc !! k = Some (VDate d).
Proof.
  intros Hk. unfold preSave.
  assert (ensureTimestampISO doc !! k = Some (VDate d)) as Hk'.
  { destruct (decide (k = "timestampISO"%string)) as [-> | Hts].
    - erewrite ensureTimestampISO_set; eassumption.
    - rewrite ensureTimestampISO_lookup_ne; assumption. }
  destruct (decide (k = "reconciledAtISO"%string)) as [-> | Hra].
  - erewrite ensureReconciledAtISO_set; eassumption.
  - rewrite ensureReconciledAtISO_lookup_ne; assumption.
Qed.

Lemma assign_if_truthy_lookup_ne (path k : string) (id : option string) (doc : Document) :
  path <> k -> assign_if_truthy path id doc !! k = doc !! k.
Proof.
  intros Hne. unfold assign_if_truthy.
  repeat case_match; rewrite ?lookup_insert_ne by assumption; reflexivity.
Qed.

Lemma assign_if_truthy_rule (path : string) (id : option string) (doc : Document) :
  external_id_rule VStr id (doc !! path) (assign_if_truthy path id doc !! path).
Proof.
  split.
  - intros s -> Hne. destruct s; [congruence |]. simpl. apply lookup_insert_eq.
  - intros [-> | ->]; reflexivity.
Qed.

Lemma applyDefault_lookup_ne (doc : Document) (d : string * Value) (k : string) :
  fst d <> k -> applyDefault doc d !! k = doc !! k.
Proof.
  intros Hne. unfold applyDefault.
  case_match; [reflexivity | apply lookup_insert_ne; assumption].
Qed.

Lemma applyDefault_lookup_unset (doc : Document) (d : string * Value) :
  doc !! fst d = None -> applyDefault doc d !! fst d = Some (snd d).
Proof.
  intros Hnone. unfold applyDefault. rewrite Hnone. apply lookup_insert_eq.
Qed.

(** With the reconciliation date already present the hook is its first
    statement alone, and running it again changes nothing. *)
Lemma preSave_reconciled (doc : Document) (d : Date) :
  doc !! "reconciledAtISO"%string = Some (VDate d) ->
  preSave doc = ensureTimestampISO doc.
Proof.
  intros Hk. unfold preSave. eapply ensureReconciledAtISO_set.
  rewrite ensureTimestampISO_lookup_ne by congruence. eassumption.
Qed.

Lemma preSave_reconciled_idempotent (doc : Document) (d : Date) :
  doc !! "reconciledAtISO"%string = Some (VDate d) ->
  preSave (preSave doc) = preSave doc.
Proof.
  intros Hk.
  rewrite (preSave_reconciled (preSave doc) d) by (apply preSave_keeps_date; assumption).
  rewrite (preSave_reconciled doc d) by assumption.
  apply ensureTimestampISO_idempotent.
Qed.

(** A document whose required paths validate holds a date under
    [timestampISO], so the first statement of the hook finds nothing to
    do. *)
Lemma validRequired_timestampISO (doc : Document) :
  validRequired doc = true -> exists d, doc !! "timestampISO"%string = Some (VDate d).
Proof.
  unfold validRequired. rewrite !andb_true_iff.
  intros ((((_ & Hdate) & _) & _) & _).
  destruct (doc !! "timestampISO"%string) as [[s | t | f | b | d | m] |];
    try discriminate Hdate.
  exists d. reflexivity.
Qed.

Lemma validRequired_preSave (doc : Document) :
  validRequired doc = true -> preSave doc = ensureReconciledAtISO doc.
Proof.
  intros Hvalid. destruct (validRequired_timestampISO doc Hvalid) as [d Hd].
  unfold preSave. rewrite (ensureTimestampISO_set doc d Hd). reflexivity.
Qed.

(** The document in memory after a save: as it was, or with the
    reconciliation date the hook derived. *)
Lemma save_in_memory (store : Store) (doc : Document) :
  snd (save store doc) = doc \/ snd (save store doc) = ensureReconciledAtISO doc.
Proof.
  unfold save. destruct (validRequired doc) eqn:Hvalid; simpl; [| left; reflexivity].
  destruct (validatesRest store); simpl; [| left; reflexivity].
  right. apply validRequired_preSave. exact Hvalid.
Qed.

Lemma save_lookup_ne (store : Store) (doc : Document) (k : string) :
  k <> "reconciledAtISO"%string -> snd (save store doc) !! k = doc !! k.
Proof.
  intros Hk. destruct (save_in_memory store doc) as [-> | ->]; [reflexivity |].
  apply ensureReconciledAtISO_lookup_ne. exact Hk.
Qed.

(** A save changes nothing in a document that holds its reconciliation
    date. *)
Lemma save_reconciled (store : Store) (doc : Document) (d : Date) :
  doc !! "reconciledAtISO"%string = Some (VDate d) -> snd (save store doc) = doc.
Proof.
  intros Hd. destruct (save_in_memory store doc) as [-> | ->]; [reflexivity |].
  eapply ensureReconciledAtISO_set. eassumption.
Qed.

(** The document in memory after [markReconciled] is the document with the
    three assignments, however the save settles. *)
Lemma markReconciled_in_memory (store : Store) (clock1 clock2 : Z) (doc : Document) :
  snd (markReconciled store clock1 clock2 doc)
  = <["reconciledAtISO"%string := VDate (TimeValue clock2)]>
      (<["reconciledAt"%string := VNum (clock1 / 1000)]>
         (<["reconciled"%string := VBool true]> doc)).
Proof.
  unfold markReconciled. eapply save_reconciled. apply lookup_insert_eq.
Qed.

Lemma markReconciled_lookups (store : Store) (clock1 clock2 : Z) (doc : Document) :
  let d' := snd (markReconciled store clock1 clock2 doc) in
  d' !! "reconciled"%string = Some (VBool true) /\
  d' !! "reconciledAt"%string = Some (VNum (clock1 / 1000)) /\
  d' !! "reconciledAtISO"%string = Some (VDate (TimeValue clock2)).
Proof.
  simpl. rewrite markReconciled_in_memory. repeat split.
  - rewrite !lookup_insert_ne by congruence. apply lookup_insert_eq.
  - rewrite lookup_insert_ne by congruence. apply lookup_insert_eq.
  - apply lookup_insert_eq.
Qed.

End MongooseFacts.

(** ** Status update, creation and reconciliation of compliance records *)

Module ComplianceProperties.
Import JS.
Import ComplianceRecordFacts MongooseFacts.

(** C3.  For every record and every pair of supplied statuses, the status
    update — [ComplianceRecordUtils.updateComplianceStatus] on a record and
    the Mongoose method on a document — overwrites [kycStatus] and
    [amlStatus] with the supplied values, and writes [circleGatewayTxId]
    (respectively [arcTransparencyId]) only when the supplied value is a
    non-empty string; otherwise the field keeps the value it had.  For the
    Mongoose method this holds of the document in memory however the save
    settles. *)
Theorem updateComplianceStatus_overwrites_status_keeps_ids
    (record : ComplianceRecord) (store : Mongoose.Store) (this : Mongoose.Document)
    (kyc aml : ComplianceStatus) (kycName amlName : string)
    (gatewayTxId transparencyId : option string) :
  let r' := ComplianceRecordUtils.updateComplianceStatus
              record kyc aml gatewayTxId transparencyId in
  let d' := snd (Mongoose.updateComplianceStatus
                   store this kycName amlName gatewayTxId transparencyId) in
  (kycStatus r' = kyc /\ amlStatus r' = aml /\
   external_id_rule (fun s => s) gatewayTxId
     (circleGatewayTxId record) (circleGatewayTxId r') /\
   external_id_rule (fun s => s) transparencyId
     (arcTransparencyId record) (arcTransparencyId r')) /\
  (d' !! "kycStatus"%string = Some (Mongoose.VStr kycName) /\
   d' !! "amlStatus"%string = Some (Mongoose.VStr amlName) /\
   external_id_rule Mongoose.VStr gatewayTxId
     (this !! "circleGatewayTxId"%string) (d' !! "circleGatewayTxId"%string) /\
   external_id_rule Mongoose.VStr transparencyId
     (this !! "arcTransparencyId"%string) (d' !! "arcTransparencyId"%string)).
Proof.
  intros r' d'. split.
  - subst r'. simpl. repeat split; try apply or_str_rule.
  - subst d'. unfold Mongoose.updateComplianceStatus.
    rewrite !save_lookup_ne by congruence.
    repeat split.
    + rewrite !assign_if_truthy_lookup_ne by congruence.
      rewrite lookup_insert_ne by congruence. apply lookup_insert_eq.
    + rewrite !assign_if_truthy_lookup_ne by congruence.
      apply lookup_insert_eq.
    + rewrite assign_if_truthy_lookup_ne by congruence.
      pose proof (assign_if_truthy_rule "circleGatewayTxId" gatewayTxId
                    (<["amlStatus"%string := Mongoose.VStr amlName]>
                       (<["kycStatus"%string := Mongoose.VStr kycName]> this))) as [H _].
      exact H.
    + rewrite assign_if_truthy_lookup_ne by congruence.
      pose proof (assign_if_truthy_rule "circleGatewayTxId" gatewayTxId
                    (<["amlStatus"%string := Mongoose.VStr amlName]>
                       (<["kycStatus"%string := Mongoose.VStr kycName]> this))) as [_ H].
      rewrite !lookup_insert_ne in H by congruence. exact H.
    + pose proof (assign_if_truthy_rule "arcTransparencyId" transparencyId
                    (Mongoose.assign_if_truthy "circleGatewayTxId" gatewayTxId
                       (<["amlStatus"%string := Mongoose.VStr amlName]>
                          (<["kycStatus"%string := Mongoose.VStr kycName]> this)))) as [H _].
      exact H.
    + pose proof (assign_if_truthy_rule "arcTransparencyId" transparencyId
                    (Mongoose.assign_if_truthy "circleGatewayTxId" gatewayTxId
                       (<["amlStatus"%string := Mongoose.VStr amlName]>
                          (<["kycStatus"%string := Mongoose.VStr kycName]> this)))) as [_ H].
      rewrite (assign_if_truthy_lookup_ne "circleGatewayTxId" "arcTransparencyId")
        in H by congruence.
      rewrite !lookup_insert_ne in H by congruence. exact H.
Qed.

Example update_without_ids_keeps_gateway_id :
  forall record,
    circleGatewayTxId
      (ComplianceRecordUtils.updateComplianceStatus record VERIFIED VERIFIED
         (Some ""%string) None)
    = circleGatewayTxId record.
Proof. reflexivity. Qed.

(** C4.  Every compliance record created from an executed movement starts
    with [kycStatus = UNKNOWN], [amlStatus = UNKNOWN], [reconciled = false]
    and [reconciledAt = 0]: [ComplianceRecordUtils.fromEvent] yields such a
    record for all nine arguments (its only other outcome is the
    [RangeError] of [toISOString], exactly when the timestamp is not a
    representable date), and the Mongoose schema fills the same four
    defaults into every path the constructor input leaves undefined. *)
Theorem created_record_initial_status :
  (forall (rid txh rcp : string) (rule : Z) (src : TransactionSource)
          (amount exec : string) (blk ts : Z),
      match ComplianceRecordUtils.fromEvent rid txh rcp rule src amount exec blk ts with
      | Ok r => kycStatus r = UNKNOWN /\ amlStatus r = UNKNOWN /\
                reconciled r = false /\ reconciledAt r = 0
      | Throw _ => validTime (ts * 1000) = false
      end) /\
  (forall input : Mongoose.Document,
      (input !! "kycStatus"%string = None ->
       Mongoose.construct input !! "kycStatus"%string = Some (Mongoose.VStr "UNKNOWN")) /\
      (input !! "amlStatus"%string = None ->
       Mongoose.construct input !! "amlStatus"%string = Some (Mongoose.VStr "UNKNOWN")) /\
      (input !! "reconciled"%string = None ->
       Mongoose.construct input !! "reconciled"%string = Some (Mongoose.VBool false)) /\
      (input !! "reconciledAt"%string = None ->
       Mongoose.construct input !! "reconciledAt"%string = Some (Mongoose.VNum 0))).
Proof.
  split.
  - intros. unfold ComplianceRecordUtils.fromEvent.
    destruct (ComplianceRecordUtils.timestampToISO ts) as [iso | e] eqn:Hiso; simpl.
    + repeat split.
    + eapply timestampToISO_throws; eassumption.
  - intros input. unfold Mongoose.construct, Mongoose.schemaDefaults. simpl.
    repeat split; intros Hunset.
    + rewrite !applyDefault_lookup_ne by (simpl; congruence).
      change "kycStatus"%string
        with (fst ("kycStatus"%string, Mongoose.VStr Mongoose.ComplianceStatus.UNKNOWN)) at 2.
      apply applyDefault_lookup_unset. simpl.
      rewrite applyDefault_lookup_ne by (simpl; congruence). assumption.
    + rewrite !applyDefault_lookup_ne by (simpl; congruence).
      change "amlStatus"%string
        with (fst ("amlStatus"%string, Mongoose.VStr Mongoose.ComplianceStatus.UNKNOWN)) at 2.
      apply applyDefault_lookup_unset. simpl.
      rewrite !applyDefault_lookup_ne by (simpl; congruence). assumption.
    + rewrite !applyDefault_lookup_ne by (simpl; congruence).
      change "reconciled"%string
        with (fst ("reconciled"%string, Mongoose.VBool false)) at 2.
      apply applyDefault_lookup_unset. simpl.
      rewrite !applyDefault_lookup_ne by (simpl; congruence). assumption.
    + rewrite !applyDefault_lookup_ne by (simpl; congruence).
      change "reconciledAt"%string
        with (fst ("reconciledAt"%string, Mongoose.VNum 0)) at 2.
      apply applyDefault_lookup_unset. simpl.
      rewrite !applyDefault_lookup_ne by (simpl; congruence). assumption.
Qed.

Lemma created_record_initial_status_witness :
  (exists r,
      ComplianceRecordUtils.fromEvent
        (recordId Samples.record) (transactionHash Samples.record)
        (recipient Samples.record) 42 ALLOCATION_RULE "1000000000"
        (executor Samples.record) 12345678 1704067200 = Ok r /\
      kycStatus r = UNKNOWN /\ amlStatus r = UNKNOWN /\
      reconciled r = false /\ reconciledAt r = 0 /\
      timestampISO r = "2024-01-01T00:00:00.000Z"%string /\
      usdcAmountFormatted r = 1000%float) /\
  Samples.document !! "kycStatus"%string = Some (Mongoose.VStr "UNKNOWN") /\
  Samples.document !! "reconciledAt"%string = Some (Mongoose.VNum 0).
Proof.
  split; [| split].
  - pose proof (proj1 created_record_initial_status
                  (recordId Samples.record) (transactionHash Samples.record)
                  (recipient Samples.record) 42 ALLOCATION_RULE "1000000000"
                  (executor Samples.record) 12345678 1704067200) as H.
    destruct (ComplianceRecordUtils.fromEvent _ _ _ _ _ _ _ _ _) as [r | e] eqn:E.
    + exists r. split; [reflexivity |].
      destruct H as (H1 & H2 & H3 & H4).
      repeat split; try assumption;
        vm_compute in E; injection E as <-; reflexivity.
    + vm_compute in E. discriminate E.
  - apply (proj1 (proj2 created_record_initial_status Samples.input)).
    vm_compute. reflexivity.
  - apply (proj2 (proj2 (proj2 (proj2 created_record_initial_status Samples.input)))).
    vm_compute. reflexivity.
Defined.

(** What [markReconciled] does for every clock reading that is a valid
    time value: the helper of [ComplianceRecordUtils] renders the
    [reconciledAt] it stores, and the Mongoose method stores the whole
    seconds of its first clock read under [reconciledAt] and the instant of
    its second clock read under [reconciledAtISO]. *)
Lemma markReconciled_reconciliation_fields
    (store : Mongoose.Store) (clock clock' : Z) (record : ComplianceRecord)
    (this : Mongoose.Document) :
  validTime clock = true ->
  (exists r' iso,
      ComplianceRecordUtils.markReconciled clock record = Ok r' /\
      reconciled r' = true /\
      reconciledAt r' = clock / 1000 /\
      ComplianceRecordUtils.timestampToISO (reconciledAt r') = Ok iso /\
      reconciledAtISO r' = Some iso) /\
  (let d' := snd (Mongoose.markReconciled store clock clock' this) in
   d' !! "reconciled"%string = Some (Mongoose.VBool true) /\
   d' !! "reconciledAt"%string = Some (Mongoose.VNum (clock / 1000)) /\
   d' !! "reconciledAtISO"%string = Some (Mongoose.VDate (TimeValue clock'))).
Proof.
  intros Hvalid. split.
  - pose proof (timestampToISO_valid (clock / 1000)
                  (validTime_whole_seconds clock Hvalid)) as Hiso.
    unfold ComplianceRecordUtils.markReconciled. rewrite Hiso. simpl.
    eexists _, _. repeat split. simpl. exact Hiso.
  - apply markReconciled_lookups.
Qed.

(** The claim C5 read on the Mongoose method fails at the sample document
    with the clock at 1704067200500 ms, however the save settles. *)
Lemma mongoose_markReconciled_iso_keeps_milliseconds (store : Mongoose.Store) :
  ~ mongoose_iso_renders_reconciledAt store 1704067200500 Samples.document.
Proof.
  unfold mongoose_iso_renders_reconciledAt.
  intros (_ & _ & d & Hd & Hiso).
  rewrite markReconciled_in_memory, lookup_insert_eq in Hd.
  injection Hd as <-.
  vm_compute in Hiso. discriminate Hiso.
Qed.

(** C5.  The Mongoose method does not store under [reconciledAtISO] the
    rendering of the [reconciledAt] it stores.  On the sample document,
    with [Date.now()] and [new Date()] both reading 1704067200500 ms, it
    stores [reconciled = true] and [reconciledAt = 1704067200], but
    [reconciledAtISO] is the instant 2024-01-01T00:00:00.500Z, whereas
    that second renders as 2024-01-01T00:00:00.000Z.  Both sibling paths
    derive the date from [reconciledAt]: [ComplianceRecordUtils.markReconciled]
    at the same clock reading stores 2024-01-01T00:00:00.000Z, and the
    schema's own pre-save hook, run on the reconciled document without its
    [reconciledAtISO], derives the instant 1704067200000. *)
Theorem mongoose_markReconciled_iso_differs_from_reconciledAt
    (store : Mongoose.Store) :
  let d' := snd (Mongoose.markReconciled store 1704067200500 1704067200500
                   Samples.document) in
  d' !! "reconciled"%string = Some (Mongoose.VBool true) /\
  d' !! "reconciledAt"%string = Some (Mongoose.VNum 1704067200) /\
  d' !! "reconciledAtISO"%string = Some (Mongoose.VDate (TimeValue 1704067200500)) /\
  toISOString (TimeValue 1704067200500) = Ok "2024-01-01T00:00:00.500Z"%string /\
  ComplianceRecordUtils.timestampToISO 1704067200 = Ok "2024-01-01T00:00:00.000Z"%string /\
  (exists r',
      ComplianceRecordUtils.markReconciled 1704067200500 Samples.record = Ok r' /\
      reconciledAt r' = 1704067200 /\
      reconciledAtISO r' = Some "2024-01-01T00:00:00.000Z"%string) /\
  Mongoose.preSave (delete "reconciledAtISO"%string d') !! "reconciledAtISO"%string
    = Some (Mongoose.VDate (TimeValue 1704067200000)).
Proof.
  intros d'.
  assert (d' = <["reconciledAtISO"%string := Mongoose.VDate (TimeValue 1704067200500)]>
                 (<["reconciledAt"%string := Mongoose.VNum 1704067200]>
                    (<["reconciled"%string := Mongoose.VBool true]> Samples.document)))
    as -> by (subst d'; apply markReconciled_in_memory).
  repeat split; try (vm_compute; reflexivity).
  eexists. repeat split; vm_compute; reflexivity.
Qed.

(** C6.  Reconciling an already reconciled record is an idempotent no-op,
    not a rejection: with the clock held fixed, [markReconciled] applied to
    its own result returns that result again — the second application
    succeeds — both for [ComplianceRecordUtils.markReconciled] and for the
    Mongoose method.  For the method, the document in memory after the
    second call is the one the first call left, however the two saves
    settle; and with the same environment of the save the second call
    settles exactly as the first did. *)
Theorem markReconciled_twice_is_once
    (clock : Z) (record : ComplianceRecord)
    (store store' : Mongoose.Store) (this : Mongoose.Document) :
  validTime clock = true ->
  (exists r1,
      ComplianceRecordUtils.markReconciled clock record = Ok r1 /\
      ComplianceRecordUtils.markReconciled clock r1 = Ok r1) /\
  (let once := Mongoose.markReconciled store clock clock this in
   snd (Mongoose.markReconciled store' clock clock (snd once)) = snd once /\
   Mongoose.markReconciled store clock clock (snd once) = once).
Proof.
  intros Hvalid. split.
  - pose proof (timestampToISO_valid (clock / 1000)
                  (validTime_whole_seconds clock Hvalid)) as Hiso.
    unfold ComplianceRecordUtils.markReconciled. rewrite Hiso. simpl.
    eexists. split; reflexivity.
  - intros once.
    pose proof (markReconciled_lookups store clock clock this) as (H1 & H2 & H3).
    simpl in H1, H2, H3. fold once in H1, H2, H3.
    assert (forall st, Mongoose.markReconciled st clock clock (snd once)
                       = Mongoose.save st (snd once)) as Hagain.
    { intros st. unfold Mongoose.markReconciled at 1.
      rewrite (insert_id (snd once) "reconciled"%string) by assumption.
      rewrite (insert_id (snd once) "reconciledAt"%string) by assumption.
      rewrite (insert_id (snd once) "reconciledAtISO"%string) by assumption.
      reflexivity. }
    split.
    + rewrite Hagain. eapply save_reconciled. exact H3.
    + rewrite Hagain. subst once.
      rewrite markReconciled_in_memory. reflexivity.
Qed.

Lemma markReconciled_twice_is_once_witness :
  (exists r1,
      ComplianceRecordUtils.markReconciled 1704067200999 Samples.record = Ok r1 /\
      ComplianceRecordUtils.markReconciled 1704067200999 r1 = Ok r1) /\
  Mongoose.markReconciled
    {| Mongoose.validatesRest := true; Mongoose.writes := true |}
    1704067200999 1704067200999
    (snd (Mongoose.markReconciled
            {| Mongoose.validatesRest := true; Mongoose.writes := true |}
            1704067200999 1704067200999 Samples.document))
  = (Mongoose.Resolved,
     snd (Mongoose.markReconciled
            {| Mongoose.validatesRest := true; Mongoose.writes := true |}
            1704067200999 1704067200999 Samples.document)).
Proof.
  destruct (markReconciled_twice_is_once 1704067200999 Samples.record
              {| Mongoose.validatesRest := true; Mongoose.writes := true |}
              {| Mongoose.validatesRest := true; Mongoose.writes := true |}
              Samples.document eq_refl) as [Hrecord [_ Hdocument]].
  split; [exact Hrecord |].
  rewrite Hdocument. vm_compute. reflexivity.
Defined.

(** C7.  [updateComplianceStatus] and [markReconciled] of
    [ComplianceRecordUtils] leave every creation-time field as it was:
    recordId, transactionHash, internalTxHash, ruleId, source, recipient,
    usdcAmount, usdcAmountFormatted, timestamp, timestampISO, blockNumber,
    executor and metadata.  ([markReconciled] returns a record whenever the
    clock reading is a valid time value.) *)
Theorem status_and_reconcile_keep_creation_fields
    (record : ComplianceRecord) (kyc aml : ComplianceStatus)
    (gatewayTxId transparencyId : option string) (clock : Z) :
  creation_fields_equal record
    (ComplianceRecordUtils.updateComplianceStatus record kyc aml gatewayTxId transparencyId) /\
  match ComplianceRecordUtils.markReconciled clock record with
  | Ok r' => creation_fields_equal record r'
  | Throw _ => validTime clock = false
  end.
Proof.
  split.
  - unfold creation_fields_equal. simpl. repeat split.
  - unfold ComplianceRecordUtils.markReconciled.
    destruct (ComplianceRecordUtils.timestampToISO (clock / 1000)) as [iso | e] eqn:Hiso;
      simpl.
    + unfold creation_fields_equal. simpl. repeat split.
    + apply timestampToISO_throws in Hiso.
      destruct (validTime clock) eqn:Hc; [| reflexivity].
      rewrite (validTime_whole_seconds clock Hc) in Hiso. discriminate Hiso.
Qed.

End ComplianceProperties.

(** ** The payroll automation service *)

Module AutomationProperties.
Import JS PayrollAutomationService.

Example formatUnits6_whole : Ethers.formatUnits6 5000000000 = "5000.0"%string.
Proof. reflexivity. Qed.

Example formatUnits6_fraction : Ethers.formatUnits6 1500000 = "1.5"%string.
Proof. reflexivity. Qed.

Example formatUnits6_smallest : Ethers.formatUnits6 1 = "0.000001"%string.
Proof. reflexivity. Qed.

Lemma notCleared_true (status : string) :
  status <> "VERIFIED"%string -> status <> "EXEMPT"%string -> notCleared status = true.
Proof.
  intros H1 H2. unfold notCleared.
  apply String.eqb_neq in H1. apply String.eqb_neq in H2.
  rewrite H1, H2. reflexivity.
Qed.

Lemma submissions_app (l1 l2 : list Call) :
  submissions (l1 ++ l2) = submissions l1 ++ submissions l2.
Proof. apply omap_app. Qed.

Lemma lookups_app (l1 l2 : list Call) :
  lookups (l1 ++ l2) = lookups l1 ++ lookups l2.
Proof. apply omap_app. Qed.

Section Properties.
Context {World : Type}.
Variable env : Collaborators World.
Variable config : Config.

(** C8.  If [config.requireKYC] is set and the compliance provider's
    [kycStatus] is neither VERIFIED nor EXEMPT — or [config.requireAML] is
    set and the returned [amlStatus] is neither — then
    [executeScheduledDistribution] returns [null] and the on-chain
    [executeScheduledDistributions] transaction is not submitted for that
    schedule: the only outside calls made are the schedule look-up and the
    compliance check. *)
Theorem unverified_schedule_is_not_submitted
    (scheduleId : N) (w w1 w2 : World) (log : list Call)
    (schedule : Schedule.t) (check : ComplianceCheck.t) :
  getScheduledDistribution env scheduleId w = (Ok schedule, w1) ->
  performComplianceCheck env (complianceRequest schedule) w1 = (Ok check, w2) ->
  (requireKYC config = true /\
   ComplianceCheck.kycStatus check <> "VERIFIED"%string /\
   ComplianceCheck.kycStatus check <> "EXEMPT"%string) \/
  (requireAML config = true /\
   ComplianceCheck.amlStatus check <> "VERIFIED"%string /\
   ComplianceCheck.amlStatus check <> "EXEMPT"%string) ->
  let log' := log ++ [GetScheduledDistribution scheduleId;
                      PerformComplianceCheck (complianceRequest schedule)] in
  executeScheduledDistribution env config scheduleId (w, log) = (Ok None, (w2, log')) /\
  submissions log' = submissions log.
Proof.
  intros Hschedule Hcheck Hblocked log'. split.
  - unfold executeScheduledDistribution, tryCatch, mbind, await. simpl.
    rewrite Hschedule. simpl. rewrite Hcheck. simpl.
    subst log'. rewrite <- app_assoc. simpl.
    destruct Hblocked as [(Hreq & Hv & He) | (Hreq & Hv & He)].
    + rewrite Hreq, (notCleared_true _ Hv He). reflexivity.
    + rewrite Hreq, (notCleared_true _ Hv He). simpl.
      destruct (requireKYC config && notCleared (ComplianceCheck.kycStatus check));
        reflexivity.
  - subst log'. rewrite submissions_app. simpl. apply app_nil_r.
Qed.

(** One attempt always starts with the look-up of its own schedule and
    looks up no other. *)
Lemma executeScheduledDistribution_lookups
    (scheduleId : N) (st : World * list Call) :
  lookups (snd (snd (executeScheduledDistribution env config scheduleId st)))
  = lookups (snd st) ++ [scheduleId].
Proof.
  destruct st as [w log].
  unfold executeScheduledDistribution, tryCatch, mbind, await, throw, ret. simpl.
  destruct (getScheduledDistribution env scheduleId w) as [[schedule | e] w1]; simpl;
    [| rewrite lookups_app; reflexivity].
  destruct (performComplianceCheck env (complianceRequest schedule) w1)
    as [[check | e] w2]; simpl;
    [| rewrite !lookups_app; simpl; rewrite app_nil_r; reflexivity].
  destruct (requireKYC config && notCleared (ComplianceCheck.kycStatus check)); simpl;
    [rewrite !lookups_app; simpl; rewrite app_nil_r; reflexivity |].
  destruct (requireAML config && notCleared (ComplianceCheck.amlStatus check)); simpl;
    [rewrite !lookups_app; simpl; rewrite app_nil_r; reflexivity |].
  destruct (executeScheduledDistributions env [scheduleId] 500000 w2)
    as [[tx | e] w3]; simpl;
    [| rewrite !lookups_app; simpl; rewrite !app_nil_r; reflexivity].
  destruct (wait env tx w3) as [[receipt | e] w4]; simpl;
    rewrite !lookups_app; simpl; rewrite !app_nil_r; reflexivity.
Qed.

Lemma attemptEach_length (ids : list N) (st : World * list Call) :
  length (fst (attemptEach env config ids st)) = length ids.
Proof.
  revert st. induction ids as [| id rest IH]; intros st; simpl; [reflexivity |].
  destruct (executeScheduledDistribution env config id st) as [outcome st1].
  specialize (IH st1).
  destruct (attemptEach env config rest st1) as [outcomes st2].
  simpl in *. rewrite IH. reflexivity.
Qed.

Lemma attemptEach_lookups (ids : list N) (st : World * list Call) :
  lookups (snd (snd (attemptEach env config ids st))) = lookups (snd st) ++ ids.
Proof.
  revert st. induction ids as [| id rest IH]; intros st; simpl.
  - rewrite app_nil_r. reflexivity.
  - pose proof (executeScheduledDistribution_lookups id st) as Hone.
    destruct (executeScheduledDistribution env config id st) as [outcome st1].
    specialize (IH st1).
    destruct (attemptEach env config rest st1) as [outcomes st2].
    simpl in *. rewrite IH, Hone, <- app_assoc. reflexivity.
Qed.

(** The loop returns: it never throws, and it collects exactly the
    executions among the attempts. *)
Lemma executeEach_collects (ids : list N) (results : list Execution.t)
    (st : World * list Call) :
  executeEach env config ids results st
  = (Ok (results ++ omap executed (fst (attemptEach env config ids st))),
     snd (attemptEach env config ids st)).
Proof.
  revert results st. induction ids as [| id rest IH]; intros results st; simpl.
  - unfold ret. rewrite app_nil_r. reflexivity.
  - unfold mbind at 1. unfold tryCatch at 1. unfold mbind at 1.
    destruct (executeScheduledDistribution env config id st) as [[[r |] | e] st1];
      simpl; rewrite IH;
      destruct (attemptEach env config rest st1) as [outcomes st2]; simpl;
      rewrite <- ?app_assoc; reflexivity.
Qed.

(** C9.  In [checkScheduledDistributions], an error raised while executing
    one due id does not abort the batch: every id of the list is attempted
    (one schedule look-up per id, in order), the call returns normally, and
    its [count] is the number of attempts that executed; if every attempt
    fails the call still completes, with [count = 0]. *)
Theorem batch_continues_after_item_errors
    (w w1 : World) (log : list Call) (ids : list N) :
  getDueScheduledDistributions env w = (Ok ids, w1) ->
  let run := attemptEach env config ids (w1, log ++ [GetDueScheduledDistributions]) in
  exists result,
    checkScheduledDistributions env config (w, log) = (Ok result, snd run) /\
    length (fst run) = length ids /\
    lookups (snd (snd run)) = lookups log ++ ids /\
    Batch.count result = length (omap executed (fst run)) /\
    Batch.error result = None /\
    (Forall failed (fst run) -> Batch.count result = O).
Proof.
  intros Hdue run.
  assert (lookups (snd (snd run)) = lookups log ++ ids) as Hlook.
  { subst run. rewrite attemptEach_lookups. simpl.
    rewrite lookups_app. simpl. rewrite app_nil_r. reflexivity. }
  assert (Forall failed (fst run) -> omap executed (fst run) = []) as Hfail.
  { induction 1 as [| outcome outcomes [e ->] _ IH]; simpl; [reflexivity | exact IH]. }
  unfold checkScheduledDistributions, tryCatch, mbind, await. simpl.
  rewrite Hdue. simpl.
  destruct ids as [| id rest].
  - eexists. subst run. simpl. repeat split; try reflexivity.
    simpl in Hlook. exact Hlook.
  - rewrite executeEach_collects. fold run. simpl.
    eexists. split; [reflexivity |]. simpl.
    repeat split.
    + subst run. apply attemptEach_length.
    + exact Hlook.
    + intros Hall. rewrite (Hfail Hall). reflexivity.
Qed.

End Properties.

Lemma unverified_schedule_is_not_submitted_witness :
  executeScheduledDistribution ScriptedWorld.env ScriptedWorld.config 3 ([], [])
  = (Ok None,
     ([], [] ++ [GetScheduledDistribution 3;
                 PerformComplianceCheck (complianceRequest (ScriptedWorld.schedule_of 3))])).
Proof.
  refine (proj1 (unverified_schedule_is_not_submitted
                   ScriptedWorld.env ScriptedWorld.config 3 [] [] [] []
                   (ScriptedWorld.schedule_of 3) _ eq_refl eq_refl _)).
  left. repeat split; discriminate.
Defined.

Lemma batch_continues_after_item_errors_witness :
  exists result,
    fst (checkScheduledDistributions ScriptedWorld.env ScriptedWorld.config ([], []))
      = Ok result /\
    Batch.count result = 1%nat /\
    fst (snd (checkScheduledDistributions ScriptedWorld.env ScriptedWorld.config ([], [])))
      = [[1%N]].
Proof.
  destruct (batch_continues_after_item_errors
              ScriptedWorld.env ScriptedWorld.config [] [] [] [1; 2; 3]%N eq_refl)
    as (result & Hrun & _ & _ & Hcount & _).
  exists result. rewrite Hrun. repeat split.
  rewrite Hcount. vm_compute. reflexivity.
Defined.

End AutomationProperties.

(** ** The validator *)

Module ValidatorProperties.
Import JS ComplianceRecordValidator.

Lemma In_push_if (e : string) (c : bool) (f : Field) (errors : list string) :
  In e (push_if c f errors) <-> In e errors \/ (c = true /\ e = message f).
Proof.
  unfold push_if. destruct c.
  - rewrite in_app_iff. simpl. intuition congruence.
  - intuition congruence.
Qed.

Lemma absent_iff {A : Type} (o : option A) :
  bool_decide (is_Some o) = false <-> o = None.
Proof.
  rewrite bool_decide_eq_false. split.
  - apply eq_None_not_Some.
  - intros ->. apply is_Some_None.
Qed.

(** C10.  [ComplianceRecordValidator.validate] checks formats of the fields
    that are present and requires none: on the empty partial record it
    returns the empty error list, and for any partial record no error is
    reported for a field that is missing. *)
Theorem validate_requires_no_field :
  validate Partial.empty = [] /\
  forall (record : Partial.t) (f : Field),
    present f record = false -> ~ In (message f) (validate record).
Proof.
  split; [reflexivity |].
  intros record f Habsent Hin.
  unfold validate in Hin. rewrite !In_push_if in Hin. simpl in Hin.
  destruct f; simpl in Habsent; apply absent_iff in Habsent;
    rewrite ?Habsent in Hin; simpl in Hin;
    repeat match goal with
           | H : _ \/ _ |- _ => destruct H
           | H : _ /\ _ |- _ => destruct H
           | H : False |- _ => destruct H
           end;
    discriminate.
Qed.

Lemma validate_requires_no_field_witness :
  ~ In (message FRecipient)
       (validate
          {| Partial.recordId := Some "not-a-hash"%string;
             Partial.transactionHash := None; Partial.internalTxHash := None;
             Partial.ruleId := Some (-1); Partial.source := None;
             Partial.recipient := None; Partial.usdcAmount := Some "12x"%string;
             Partial.usdcAmountFormatted := None;
             Partial.kycStatus := None; Partial.amlStatus := None;
             Partial.timestamp := None; Partial.timestampISO := None;
             Partial.blockNumber := None; Partial.executor := None;
             Partial.circleGatewayTxId := None; Partial.arcTransparencyId := None;
             Partial.reconciled := None; Partial.reconciledAt := None;
             Partial.reconciledAtISO := None; Partial.metadata := None;
             Partial.createdAt := None; Partial.updatedAt := None |}).
Proof.
  apply (proj2 validate_requires_no_field). reflexivity.
Defined.

Example validate_reports_present_fields :
  validate
    {| Partial.recordId := Some "not-a-hash"%string;
       Partial.transactionHash := None; Partial.internalTxHash := None;
       Partial.ruleId := Some (-1); Partial.source := None;
       Partial.recipient := Some ""%string; Partial.usdcAmount := Some "12x"%string;
       Partial.usdcAmountFormatted := None;
       Partial.kycStatus := None; Partial.amlStatus := None;
       Partial.timestamp := None; Partial.timestampISO := None;
       Partial.blockNumber := None; Partial.executor := None;
       Partial.circleGatewayTxId := None; Partial.arcTransparencyId := None;
       Partial.reconciled := None; Partial.reconciledAt := None;
       Partial.reconciledAtISO := None; Partial.metadata := None;
       Partial.createdAt := None; Partial.updatedAt := None |}
  = [ message FRecordId; message FUsdcAmount; message FRuleId ].
Proof. reflexivity. Qed.

End ValidatorProperties.

(** ** The treasury engines *)

Module TreasuryFacts.
Import Treasury.

Local Open Scope N_scope.

(** Unfold one entry point and split on every test it makes. *)
Ltac split_call :=
  repeat case_match; simplify_eq; simpl in *; try done.

(** *** Which parts of the state each entry point leaves alone *)

Lemma settle_frame caller txId tx confirmations s s' :
  settle caller txId tx confirmations s = Done s' ->
  allocationRules s' = allocationRules s /\ nextTxId s' = nextTxId s /\
  transactions s' =
    <[txId := {| tx_recipient := tx_recipient tx; tx_amount := tx_amount tx;
                 tx_payload := tx_payload tx; tx_confirmations := confirmations;
                 tx_executed := true |}]> (transactions s) /\
  (tx_amount tx <= balance s) /\
  balance s' = balance s - tx_amount tx /\
  ledger s' = ledger s ++
    [movement s txId 0 MULTISIG_TRANSACTION (tx_recipient tx) (tx_amount tx) caller].
Proof.
  unfold settle. destruct (balance s <? tx_amount tx) eqn:Hfunds; [discriminate |].
  intros [= <-]. apply N.ltb_ge in Hfunds. simpl. repeat split; assumption.
Qed.

Lemma step_rules_unchanged (s : State) (c : Call) :
  match c with
  | CreateAllocationRule _ _ _ _ _ _ _ | ExecuteAllocations _ _
  | ExecuteAllEligibleAllocations _ | UpdateAllocationRule _ _ _ => True
  | _ => allocationRules (step s c) = allocationRules s
  end.
Proof.
  destruct c; simpl; try exact I;
    try (unfold propose, confirm, revoke, execute, addSigner, removeSigner,
           setThreshold, settled; split_call;
         match goal with
         | H : settle _ _ _ _ _ = Done _ |- _ => apply settle_frame in H; tauto
         end);
    reflexivity.
Qed.

(** *** The budget invariant *)

Lemma clamp_limited (rule : AllocationRule) (amount : N) :
  0 < rule_budgetLimit rule ->
  clamp rule amount = N.min amount (rule_budgetLimit rule - rule_spent rule).
Proof.
  intros Hlimit. unfold clamp.
  destruct (rule_budgetLimit rule =? 0) eqn:Hzero; [| reflexivity].
  apply N.eqb_eq in Hzero. lia.
Qed.

Lemma allocationAmount_clamped (rule : AllocationRule) (s : State) (amount : N) :
  allocationAmount rule s = Some amount ->
  exists computed,
    computedAmount rule (balance s) = Some computed /\
    amount = clamp rule computed /\ 0 < amount /\ amount <= balance s.
Proof.
  unfold allocationAmount. intros H.
  destruct (negb (rule_active rule)); [discriminate |].
  destruct (negb (cooledDown rule (now s))); [discriminate |].
  destruct (computedAmount rule (balance s)) as [computed |]; [| discriminate].
  destruct ((clamp rule computed =? 0) || (balance s <? clamp rule computed)) eqn:Hskip;
    [discriminate |].
  injection H as <-.
  apply orb_false_iff in Hskip as [Hpos Hfunds].
  apply N.eqb_neq in Hpos. apply N.ltb_ge in Hfunds.
  exists computed. repeat split; [lia | assumption].
Qed.

Lemma allocate_within_budget (caller : Identity) (ruleId : N) (s : State) :
  within_budget s -> within_budget (fst (allocate caller ruleId s)).
Proof.
  intros Hinv. unfold allocate.
  destruct (allocationRules s !! ruleId) as [rule |] eqn:Hrule; [| exact Hinv].
  destruct (allocationAmount rule s) as [amount |] eqn:Hamount; [| exact Hinv].
  apply allocationAmount_clamped in Hamount as (computed & _ & -> & _ & _).
  intros id r. simpl. rewrite lookup_insert. case_decide as Hid.
  - intros [= <-] Hlimit. simpl in *.
    specialize (Hinv ruleId rule Hrule Hlimit).
    rewrite (clamp_limited rule computed Hlimit). lia.
  - apply Hinv.
Qed.

Lemma executeAllocations_within_budget (caller : Identity) (ruleIds : list N) (s : State) :
  within_budget s -> within_budget (fst (executeAllocations caller ruleIds s)).
Proof.
  revert s. induction ruleIds as [| ruleId rest IH]; intros s Hinv; simpl; [exact Hinv |].
  pose proof (allocate_within_budget caller ruleId s Hinv) as Hone.
  destruct (allocate caller ruleId s) as [s1 ran].
  specialize (IH s1 Hone).
  destruct (executeAllocations caller rest s1) as [s2 count]. exact IH.
Qed.

Lemma step_within_budget (s : State) (c : Call) :
  within_budget s -> within_budget (step s c).
Proof.
  intros Hinv.
  pose proof (step_rules_unchanged s c) as Hsame.
  destruct c; try (unfold within_budget; rewrite Hsame; exact Hinv); simpl.
  - unfold createAllocationRule, settled. split_call;
      (intros id r; simpl; rewrite lookup_insert; case_decide;
       [intros [= <-]; simpl; lia | apply Hinv]).
  - apply executeAllocations_within_budget, Hinv.
  - apply executeAllocations_within_budget, Hinv.
  - unfold updateAllocationRule, settled. split_call;
      (intros id r; simpl; rewrite lookup_insert; case_decide;
       [intros [= <-]; simpl; subst; eapply Hinv; eassumption | apply Hinv]).
Qed.

Lemma run_within_budget (calls : list Call) (s : State) :
  within_budget s -> within_budget (run s calls).
Proof.
  revert s. induction calls as [| c rest IH]; intros s Hinv; simpl; [exact Hinv |].
  apply IH, step_within_budget, Hinv.
Qed.

Lemma init_within_budget owner members required funds time :
  within_budget (init owner members required funds time).
Proof. intros id r. simpl. rewrite lookup_empty. discriminate. Qed.

(** *** The ledger follows the transaction table *)

Lemma executions_snoc (txId : N) (entries : list Movement) (m : Movement) :
  executions txId (entries ++ [m])
  = (executions txId entries
     + if decide (mv_source m = MULTISIG_TRANSACTION /\ mv_internalTxRef m = txId)
       then 1 else 0)%nat.
Proof.
  unfold executions. rewrite filter_app, length_app. f_equal.
  rewrite filter_cons, filter_nil. case_decide; reflexivity.
Qed.

Lemma consistent_transfer (s s' : State) :
  transactions s' = transactions s ->
  nextTxId s' = nextTxId s ->
  (forall txId, executions txId (ledger s') = executions txId (ledger s)) ->
  consistent s -> consistent s'.
Proof.
  intros Htx Hnext Hledger [Hfresh Htracks]. split.
  - intros txId. rewrite Htx, Hnext. apply Hfresh.
  - intros txId. rewrite Hledger. unfold isExecuted. rewrite Htx. apply Htracks.
Qed.

Lemma allocate_leaves_transactions (caller : Identity) (ruleId : N) (s : State) :
  transactions (fst (allocate caller ruleId s)) = transactions s /\
  nextTxId (fst (allocate caller ruleId s)) = nextTxId s /\
  forall txId,
    executions txId (ledger (fst (allocate caller ruleId s)))
    = executions txId (ledger s).
Proof.
  unfold allocate.
  destruct (allocationRules s !! ruleId) as [rule |]; [| repeat split].
  destruct (allocationAmount rule s) as [amount |]; [| repeat split].
  simpl. repeat split. intros txId. rewrite executions_snoc.
  rewrite decide_False by (simpl; intros [? _]; discriminate). lia.
Qed.

Lemma executeAllocations_leaves_transactions
    (caller : Identity) (ruleIds : list N) (s : State) :
  transactions (fst (executeAllocations caller ruleIds s)) = transactions s /\
  nextTxId (fst (executeAllocations caller ruleIds s)) = nextTxId s /\
  forall txId,
    executions txId (ledger (fst (executeAllocations caller ruleIds s)))
    = executions txId (ledger s).
Proof.
  revert s. induction ruleIds as [| ruleId rest IH]; intros s; simpl; [repeat split |].
  pose proof (allocate_leaves_transactions caller ruleId s) as (H1 & H2 & H3).
  destruct (allocate caller ruleId s) as [s1 ran]. simpl in *.
  specialize (IH s1) as (I1 & I2 & I3).
  destruct (executeAllocations caller rest s1) as [s2 count]. simpl in *.
  repeat split; [congruence | congruence |].
  intros txId. rewrite I3. apply H3.
Qed.

Lemma known_below_next (s : State) (txId : N) (tx : PendingTransaction) :
  consistent s -> transactions s !! txId = Some tx -> txId < nextTxId s.
Proof.
  intros [Hfresh _] Htx.
  destruct (N.lt_ge_cases txId (nextTxId s)) as [Hlt | Hge]; [assumption |].
  rewrite (Hfresh txId Hge) in Htx. discriminate.
Qed.

(** Replacing a pending transaction by another pending one. *)
Lemma consistent_update_pending (s : State) (txId : N) (tx tx' : PendingTransaction) :
  transactions s !! txId = Some tx ->
  tx_executed tx = false -> tx_executed tx' = false ->
  consistent s ->
  consistent (withTransactions s (<[txId := tx']> (transactions s)) (nextTxId s)) /\
  forall other,
    isExecuted (withTransactions s (<[txId := tx']> (transactions s)) (nextTxId s)) other
    = isExecuted s other.
Proof.
  intros Htx Hpending Hpending' Hcons.
  assert (forall other,
    isExecuted (withTransactions s (<[txId := tx']> (transactions s)) (nextTxId s)) other
    = isExecuted s other) as Hsame.
  { intros other. unfold isExecuted. simpl. rewrite lookup_insert.
    case_decide; subst; [rewrite Htx; simpl; congruence | reflexivity]. }
  split; [| exact Hsame].
  pose proof (known_below_next s txId tx Hcons Htx) as Hlt.
  destruct Hcons as [Hfresh Htracks]. split.
  - intros other Hge. simpl in *. rewrite lookup_insert_ne by lia. apply Hfresh, Hge.
  - intros other. rewrite Hsame. apply Htracks.
Qed.

(** Settling a pending transaction. *)
Lemma consistent_settle (caller : Identity) (s s' : State) (txId : N)
    (tx : PendingTransaction) (confirmations : gset N) :
  transactions s !! txId = Some tx ->
  tx_executed tx = false ->
  settle caller txId tx confirmations s = Done s' ->
  consistent s ->
  consistent s' /\
  forall other, isExecuted s' other = if decide (txId = other) then true
                                     else isExecuted s other.
Proof.
  intros Htx Hpending Hsettle Hcons.
  apply settle_frame in Hsettle as (_ & Hnext & Htxs & _ & _ & Hledger).
  assert (forall other, isExecuted s' other = if decide (txId = other) then true
                                              else isExecuted s other) as Hflag.
  { intros other. unfold isExecuted. rewrite Htxs, lookup_insert.
    case_decide; reflexivity. }
  split; [| exact Hflag].
  pose proof (known_below_next s txId tx Hcons Htx) as Hlt.
  destruct Hcons as [Hfresh Htracks]. split.
  - intros other Hge. rewrite Htxs, Hnext in *.
    rewrite lookup_insert_ne by lia. apply Hfresh, Hge.
  - intros other. rewrite Hledger, executions_snoc, Hflag, Htracks. simpl.
    destruct (decide (txId = other)) as [<- | Hne].
    + unfold isExecuted. rewrite Htx, Hpending.
      rewrite decide_True by (split; reflexivity). reflexivity.
    + rewrite decide_False by (intros [_ ?]; congruence). lia.
Qed.

Lemma step_consistent (s : State) (c : Call) :
  consistent s ->
  consistent (step s c) /\
  forall txId, isExecuted s txId = true -> isExecuted (step s c) txId = true.
Proof.
  intros Hcons.
  assert (forall s', transactions s' = transactions s -> nextTxId s' = nextTxId s ->
                     (forall txId, executions txId (ledger s') = executions txId (ledger s)) ->
                     consistent s' /\
                     (forall txId, isExecuted s txId = true -> isExecuted s' txId = true))
    as Hframe.
  { intros s' Htx Hnext Hledger. split.
    - eapply consistent_transfer; eassumption.
    - intros txId. unfold isExecuted. rewrite Htx. trivial. }
  destruct c as [caller rcpt amount payload | caller txId | caller txId | caller txId
                | caller i | caller i | caller n
                | caller rcpt kind value budgetLimit priority cooldown
                | caller ruleIds | caller | caller ruleId active | amount | seconds];
    simpl.
  - (* propose *)
    unfold propose, settled.
    destruct ((amount =? 0) || (rcpt =? 0)); simpl; [apply Hframe; reflexivity |].
    destruct Hcons as [Hfresh Htracks].
    assert (forall other,
      isExecuted (withTransactions s
                    (<[nextTxId s :=
                         {| tx_recipient := rcpt; tx_amount := amount;
                            tx_payload := payload; tx_confirmations := ∅;
                            tx_executed := false |}]> (transactions s))
                    (nextTxId s + 1)) other
      = isExecuted s other) as Hsame.
    { intros other. unfold isExecuted. simpl. rewrite lookup_insert.
      case_decide; subst; [rewrite Hfresh by lia; reflexivity | reflexivity]. }
    repeat split.
    + intros other Hge. simpl in *. rewrite lookup_insert_ne by lia.
      apply Hfresh. lia.
    + intros other. rewrite Hsame. apply Htracks.
    + intros other. rewrite Hsame. trivial.
  - (* confirm *)
    unfold confirm, settled.
    destruct (transactions s !! txId) as [tx |] eqn:Htx; [| apply Hframe; reflexivity].
    destruct (tx_executed tx) eqn:Hpending; [apply Hframe; reflexivity |].
    destruct (negb (bool_decide (caller ∈ signers s))); [apply Hframe; reflexivity |].
    destruct (bool_decide (caller ∈ tx_confirmations tx)); [apply Hframe; reflexivity |].
    destruct (bool_decide (threshold s ≤ size (tx_confirmations tx ∪ {[caller]}))%nat).
    + destruct (settle caller txId tx (tx_confirmations tx ∪ {[caller]}) s)
        as [s' | e] eqn:Hsettle; [| apply Hframe; reflexivity].
      destruct (consistent_settle _ _ _ _ _ _ Htx Hpending Hsettle Hcons) as [Hc Hflag].
      split; [exact Hc |]. intros other Hother. simpl. rewrite Hflag.
      case_decide; [reflexivity | exact Hother].
    + match goal with
      | |- context [<[txId := ?t]> (transactions s)] =>
          destruct (consistent_update_pending s txId tx t Htx Hpending eq_refl Hcons)
            as [Hc Hflag]
      end.
      split; [exact Hc |]. intros other Hother. simpl. rewrite Hflag. exact Hother.
  - (* revoke *)
    unfold revoke, settled.
    destruct (transactions s !! txId) as [tx |] eqn:Htx; [| apply Hframe; reflexivity].
    destruct (tx_executed tx) eqn:Hpending; [apply Hframe; reflexivity |].
    match goal with
    | |- context [<[txId := ?t]> (transactions s)] =>
        destruct (consistent_update_pending s txId tx t Htx Hpending eq_refl Hcons)
          as [Hc Hflag]
    end.
    split; [exact Hc |]. intros other Hother. simpl. rewrite Hflag. exact Hother.
  - (* execute *)
    unfold execute, settled.
    destruct (transactions s !! txId) as [tx |] eqn:Htx; [| apply Hframe; reflexivity].
    destruct (tx_executed tx) eqn:Hpending; [apply Hframe; reflexivity |].
    destruct (negb (bool_decide (threshold s ≤ size (tx_confirmations tx))%nat));
      [apply Hframe; reflexivity |].
    destruct (settle caller txId tx (tx_confirmations tx) s)
      as [s' | e] eqn:Hsettle; [| apply Hframe; reflexivity].
    destruct (consistent_settle _ _ _ _ _ _ Htx Hpending Hsettle Hcons) as [Hc Hflag].
    split; [exact Hc |]. intros other Hother. simpl. rewrite Hflag.
    case_decide; [reflexivity | exact Hother].
  - unfold addSigner, settled. split_call; apply Hframe; reflexivity.
  - unfold removeSigner, settled. split_call; apply Hframe; reflexivity.
  - unfold setThreshold, settled. split_call; apply Hframe; reflexivity.
  - unfold createAllocationRule, settled. split_call; apply Hframe; reflexivity.
  - apply Hframe; apply executeAllocations_leaves_transactions.
  - apply Hframe; apply executeAllocations_leaves_transactions.
  - unfold updateAllocationRule, settled. split_call; apply Hframe; reflexivity.
  - apply Hframe; reflexivity.
  - apply Hframe; reflexivity.
Qed.

Lemma run_consistent (calls : list Call) (s : State) :
  consistent s ->
  consistent (run s calls) /\
  forall txId, isExecuted s txId = true -> isExecuted (run s calls) txId = true.
Proof.
  revert s. induction calls as [| c rest IH]; intros s Hcons; simpl; [auto |].
  destruct (step_consistent s c Hcons) as [Hstep Hmono].
  destruct (IH (step s c) Hstep) as [Hrest Hmono'].
  split; [exact Hrest | auto].
Qed.

Lemma init_consistent owner members required funds time :
  consistent (init owner members required funds time).
Proof.
  split; intros txId; simpl.
  - intros _. apply lookup_empty.
  - unfold isExecuted. simpl. rewrite lookup_empty. reflexivity.
Qed.

(** EXECUTED is terminal for [confirm] and [execute], whoever calls. *)
Lemma executed_is_terminal (s : State) (txId : N) (caller : Identity) :
  isExecuted s txId = true ->
  confirm caller txId s = Fail StateError /\ execute caller txId s = Fail StateError.
Proof.
  unfold isExecuted, confirm, execute.
  destruct (transactions s !! txId) as [tx |]; [| discriminate].
  intros ->. split; reflexivity.
Qed.

End TreasuryFacts.

Module TreasuryProperties.
Import Treasury TreasuryFacts.

Local Open Scope N_scope.

Example percentage_scenario :
  let s := run (init 9 {[1; 2; 3]} 2 1000 1700000000)
             [CreateAllocationRule 1 55 PERCENTAGE 1000 0 1 0; ExecuteAllocations 1 [1]] in
  balance s = 900 /\ (rule_spent <$> allocationRules s !! 1) = Some 100 /\
  (mv_source <$> ledger s) = [ALLOCATION_RULE] /\ (mv_amount <$> ledger s) = [100].
Proof. vm_compute. repeat split. Qed.

Example balance_threshold_scenario :
  balance (run (init 9 {[1; 2; 3]} 2 800 1700000000)
             [CreateAllocationRule 1 55 BALANCE_THRESHOLD 500 0 1 0;
              ExecuteAllEligibleAllocations 1]) = 500.
Proof. vm_compute. reflexivity. Qed.

Example priority_order_scenario :
  eligibleAllocationRules
    (run (init 9 {[1; 2; 3]} 2 1000 1700000000)
       [CreateAllocationRule 1 55 FIXED_AMOUNT 10 0 5 0;
        CreateAllocationRule 1 56 FIXED_AMOUNT 10 0 1 0;
        CreateAllocationRule 1 57 FIXED_AMOUNT 10 0 3 0])
  = [1; 3; 2].
Proof. vm_compute. reflexivity. Qed.

Example first_confirmation_stays_pending :
  let s := run TreasuryScenario.start TreasuryScenario.history in
  isExecuted s 1 = false /\ balance s = 1000 /\ ledger s = [].
Proof. vm_compute. repeat split. Qed.

(** C1.  For every pending multisignature transaction of a treasury, a
    confirm call that brings the confirmations to the threshold executes
    the transaction inside that same call — the balance is debited once
    and the ledger gains its single MULTISIG record — and from then on,
    whatever calls follow, the transaction stays executed exactly once
    and every confirm or execute call on its id fails with StateError. *)
Theorem threshold_confirmation_executes_exactly_once
    (owner : Identity) (members : gset N) (required : nat) (funds time : N)
    (history later : list Call) (caller : Identity) (txId : N)
    (tx : PendingTransaction) (s' : State) :
  let s := run (init owner members required funds time) history in
  transactions s !! txId = Some tx ->
  tx_executed tx = false ->
  confirm caller txId s = Done s' ->
  (threshold s <= size (tx_confirmations tx ∪ {[caller]}))%nat ->
  (executions txId (ledger s) = 0%nat /\
   isExecuted s' txId = true /\
   tx_amount tx <= balance s /\
   balance s' = balance s - tx_amount tx /\
   ledger s' = ledger s ++
     [movement s txId 0 MULTISIG_TRANSACTION (tx_recipient tx) (tx_amount tx) caller]) /\
  (let s'' := run s' later in
   isExecuted s'' txId = true /\
   executions txId (ledger s'') = 1%nat /\
   forall anyone,
     confirm anyone txId s'' = Fail StateError /\
     execute anyone txId s'' = Fail StateError).
Proof.
  intros s Htx Hpending Hconfirm Hreached.
  destruct (run_consistent history _ (init_consistent owner members required funds time))
    as [Hcons _]. fold s in Hcons.
  assert (settle caller txId tx (tx_confirmations tx ∪ {[caller]}) s = Done s') as Hsettle.
  { unfold confirm in Hconfirm. rewrite Htx, Hpending in Hconfirm.
    destruct (negb (bool_decide (caller ∈ signers s))); [discriminate |].
    destruct (bool_decide (caller ∈ tx_confirmations tx)); [discriminate |].
    rewrite bool_decide_eq_true_2 in Hconfirm by exact Hreached. exact Hconfirm. }
  destruct (consistent_settle _ _ _ _ _ _ Htx Hpending Hsettle Hcons) as [Hcons' Hflag].
  assert (isExecuted s' txId = true) as Hdone.
  { rewrite Hflag. rewrite decide_True by reflexivity. reflexivity. }
  apply settle_frame in Hsettle as (_ & _ & _ & Hfunds & Hbalance & Hledger).
  split.
  - repeat split; try assumption.
    destruct Hcons as [_ Htracks]. rewrite Htracks.
    unfold isExecuted. rewrite Htx, Hpending. reflexivity.
  - intros s''.
    destruct (run_consistent later s' Hcons') as [[_ Htracks] Hmono].
    fold s'' in Htracks, Hmono.
    specialize (Hmono txId Hdone).
    repeat split.
    + exact Hmono.
    + rewrite Htracks, Hmono. reflexivity.
    + apply executed_is_terminal, Hmono.
    + apply executed_is_terminal, Hmono.
Qed.

Lemma threshold_confirmation_executes_exactly_once_witness :
  balance (step (run TreasuryScenario.start TreasuryScenario.history) (Confirm 2 1)) = 600 /\
  executions 1
    (ledger (run (step (run TreasuryScenario.start TreasuryScenario.history) (Confirm 2 1))
               TreasuryScenario.later)) = 1%nat /\
  confirm 3 1
    (run (step (run TreasuryScenario.start TreasuryScenario.history) (Confirm 2 1))
       TreasuryScenario.later) = Fail StateError.
Proof.
  destruct (threshold_confirmation_executes_exactly_once
              9 {[1; 2; 3]} 2 1000 1700000000
              TreasuryScenario.history TreasuryScenario.later 2 1
              {| tx_recipient := 77; tx_amount := 400; tx_payload := "";
                 tx_confirmations := {[1]}; tx_executed := false |}
              (step (run TreasuryScenario.start TreasuryScenario.history) (Confirm 2 1)))
    as [(_ & _ & _ & Hbalance & _) (_ & Honce & Hterminal)].
  - vm_compute. reflexivity.
  - reflexivity.
  - vm_compute. reflexivity.
  - vm_compute. lia.
  - split; [| split].
    + rewrite Hbalance. vm_compute. reflexivity.
    + exact Honce.
    + exact (proj1 (Hterminal 3)).
Defined.

(** C2.  For every allocation rule with [budgetLimit > 0], after any
    sequence of calls on a treasury the rule's cumulative [spent] does not
    exceed [budgetLimit]: an execution moves the computed amount clamped
    to [budgetLimit − spent] and adds it to [spent], and when the clamped
    amount is zero the rule is skipped — the batch completes with count 0
    and the state as it was. *)
Theorem allocation_spent_never_exceeds_budget
    (owner : Identity) (members : gset N) (required : nat) (funds time : N)
    (calls : list Call) (ruleId : N) (rule : AllocationRule) :
  let s := run (init owner members required funds time) calls in
  allocationRules s !! ruleId = Some rule ->
  0 < rule_budgetLimit rule ->
  rule_spent rule <= rule_budgetLimit rule /\
  (forall caller s',
      allocate caller ruleId s = (s', true) ->
      exists computed rule',
        computedAmount rule (balance s) = Some computed /\
        allocationRules s' !! ruleId = Some rule' /\
        rule_spent rule'
          = rule_spent rule + N.min computed (rule_budgetLimit rule - rule_spent rule) /\
        balance s'
          = balance s - N.min computed (rule_budgetLimit rule - rule_spent rule) /\
        rule_spent rule' <= rule_budgetLimit rule') /\
  (forall caller computed,
      computedAmount rule (balance s) = Some computed ->
      N.min computed (rule_budgetLimit rule - rule_spent rule) = 0 ->
      executeAllocations caller [ruleId] s = (s, 0%nat)).
Proof.
  intros s Hrule Hlimit.
  pose proof (run_within_budget calls _
                (init_within_budget owner members required funds time)) as Hinv.
  fold s in Hinv.
  pose proof (Hinv ruleId rule Hrule Hlimit) as Hspent.
  split; [exact Hspent |]. split.
  - intros caller s' Hrun. unfold allocate in Hrun. rewrite Hrule in Hrun.
    destruct (allocationAmount rule s) as [amount |] eqn:Hamount; [| discriminate].
    apply allocationAmount_clamped in Hamount as (computed & Hcomputed & -> & _ & _).
    rewrite (clamp_limited rule computed Hlimit) in Hrun.
    injection Hrun as <-.
    eexists computed, _. simpl. rewrite lookup_insert_eq.
    repeat split; [exact Hcomputed |]. simpl. lia.
  - intros caller computed Hcomputed Hzero. simpl.
    unfold allocate. rewrite Hrule.
    unfold allocationAmount. rewrite Hcomputed.
    rewrite (clamp_limited rule computed Hlimit), Hzero. simpl.
    destruct (negb (rule_active rule)); [reflexivity |].
    destruct (negb (cooledDown rule (now s))); reflexivity.
Qed.

Lemma allocation_spent_never_exceeds_budget_witness :
  (rule_spent <$> allocationRules (run TreasuryScenario.start TreasuryScenario.budgeted) !! 1)
    = Some 100 /\
  executeAllocations 1 [1] (run TreasuryScenario.start TreasuryScenario.budgeted)
    = (run TreasuryScenario.start TreasuryScenario.budgeted, 0%nat).
Proof.
  destruct (allocation_spent_never_exceeds_budget
              9 {[1; 2; 3]} 2 1000 1700000000 TreasuryScenario.budgeted 1
              {| rule_recipient := 55; rule_kind := FIXED_AMOUNT; rule_value := 40;
                 rule_budgetLimit := 100; rule_spent := 100; rule_priority := 1;
                 rule_cooldown := 0; rule_lastExecuted := 1700000000;
                 rule_active := true |})
    as (_ & _ & Hskip).
  - vm_compute. reflexivity.
  - reflexivity.
  - split.
    + vm_compute. reflexivity.
    + apply (Hskip 1 40); vm_compute; reflexivity.
Defined.

End TreasuryProperties.

(** ** More about the validator and the record helpers *)

Module ValidationProperties.
Import JS ComplianceRecordValidator ValidationReading.
Import ComplianceRecordFacts ValidatorProperties.

Lemma guard_str_rejects (o : option string) (valid : string -> bool) :
  guard_str o (fun s => negb (valid s)) = true <->
  exists s, o = Some s /\ s <> ""%string /\ valid s = false.
Proof.
  unfold guard_str. split.
  - destruct o as [s |]; [| discriminate].
    intros H. apply andb_true_iff in H as [Hs Hv].
    exists s. repeat split.
    + intros ->. discriminate.
    + apply negb_true_iff, Hv.
  - intros (s & -> & Hne & Hv). destruct s; [congruence |]. simpl.
    rewrite Hv. reflexivity.
Qed.

Lemma defined_negative_spec (o : option Z) :
  defined_negative o = true <-> exists n, o = Some n /\ n < 0.
Proof.
  unfold defined_negative. split.
  - destruct o as [n |]; [| discriminate]. intros H. exists n.
    split; [reflexivity | apply Z.ltb_lt, H].
  - intros (n & -> & Hn). apply Z.ltb_lt, Hn.
Qed.

Lemma push_if_app (c : bool) (f : Field) (errors : list string) :
  push_if c f errors = errors ++ (if c then [message f] else []).
Proof. unfold push_if. destruct c; [reflexivity | symmetry; apply app_nil_r]. Qed.

Lemma optional_message_sublist (c : bool) (m : string) :
  (if c then [m] else []) `sublist_of` [m].
Proof. destruct c; [reflexivity | apply sublist_nil_l]. Qed.

Lemma validate_sublist (record : Partial.t) : validate record `sublist_of` allMessages.
Proof.
  unfold validate. rewrite !push_if_app. rewrite app_nil_l.
  rewrite <- !app_assoc.
  change allMessages with
    ([message FRecordId] ++ [message FTransactionHash] ++ [message FInternalTxHash]
       ++ [message FRecipient] ++ [message FExecutor] ++ [message FUsdcAmount]
       ++ [message FRuleId] ++ [message FTimestamp] ++ [message FBlockNumber]
       ++ [message FJurisdiction]).
  repeat (apply sublist_app; [apply optional_message_sublist |]).
  apply optional_message_sublist.
Qed.

(** X1.  [validate] reports a field's message exactly when the field is
    rejected — it holds a non-empty string that fails the field's regular
    expression, or a negative number — and the messages come without
    repetition, in the fixed order of the checks. *)
Theorem validate_reports_exactly_the_rejected_fields (record : Partial.t) :
  (forall f, In (message f) (validate record) <-> rejected f record) /\
  validate record `sublist_of` allMessages /\
  NoDup (validate record).
Proof.
  split; [| split].
  - intros f. unfold validate. rewrite !In_push_if. simpl In.
    rewrite !guard_str_rejects, !defined_negative_spec.
    unfold rejected. split.
    + intros H.
      repeat match goal with
             | H : _ \/ _ |- _ => destruct H
             | H : _ /\ _ |- _ => destruct H
             | H : False |- _ => destruct H
             end;
        destruct f; try discriminate; simpl; eauto.
    + intros [Hs | Hn]; destruct f; simpl in *;
        try (destruct Hs as (s & Hs & _); discriminate Hs);
        try (destruct Hn as (n & Hn & _); discriminate Hn);
        tauto.
  - apply validate_sublist.
  - eapply sublist_NoDup; [| apply validate_sublist].
    unfold allMessages. apply NoDup_ListNoDup. simpl.
    repeat (constructor; [simpl; intuition discriminate |]). constructor.
Qed.

Example empty_recipient_is_not_reported :
  validateAddress "" = false /\
  validate
    {| Partial.recordId := None; Partial.transactionHash := None;
       Partial.internalTxHash := None; Partial.ruleId := None;
       Partial.source := None; Partial.recipient := Some ""%string;
       Partial.usdcAmount := None; Partial.usdcAmountFormatted := None;
       Partial.kycStatus := None; Partial.amlStatus := None;
       Partial.timestamp := None; Partial.timestampISO := None;
       Partial.blockNumber := None; Partial.executor := None;
       Partial.circleGatewayTxId := None; Partial.arcTransparencyId := None;
       Partial.reconciled := None; Partial.reconciledAt := None;
       Partial.reconciledAtISO := None; Partial.metadata := None;
       Partial.createdAt := None; Partial.updatedAt := None |} = [].
Proof. split; reflexivity. Qed.

End ValidationProperties.

Module RecordHelperProperties.
Import JS ComplianceRecordValidator ComplianceRecordUtils ValidationReading.
Import ComplianceRecordFacts.

Lemma guard_str_accepts (s : string) (valid : string -> bool) :
  valid s = true -> guard_str (Some s) (fun x => negb (valid x)) = false.
Proof. intros H. unfold guard_str. rewrite H. apply andb_false_r. Qed.

(** X2.  A record that [fromEvent] builds from well-formed event data
    passes [validate]: with a bytes32 record id and transaction hash,
    20-byte recipient and executor addresses, a numeric amount string and
    non-negative rule id, block number and timestamp, the error list of the
    created record is empty. *)
Theorem fromEvent_of_wellformed_event_validates
    (rid txh rcp : string) (rule : Z) (src : TransactionSource)
    (amount exec : string) (blk ts : Z) (r : ComplianceRecord) :
  validateHash rid = true -> validateHash txh = true ->
  validateAddress rcp = true -> validateAddress exec = true ->
  validateAmount amount = true ->
  0 <= rule -> 0 <= blk -> 0 <= ts ->
  fromEvent rid txh rcp rule src amount exec blk ts = Ok r ->
  validate (asPartial r) = [].
Proof.
  intros Hrid Htxh Hrcp Hexec Hamount Hrule Hblk Hts Hcreate.
  unfold fromEvent in Hcreate.
  destruct (timestampToISO ts) as [iso | e]; [| discriminate].
  simpl in Hcreate. injection Hcreate as <-.
  cbv beta iota zeta delta
    [validate asPartial metadata_jurisdiction defined_negative metadata
     Partial.recordId Partial.transactionHash Partial.internalTxHash
     Partial.recipient Partial.executor Partial.usdcAmount Partial.ruleId
     Partial.timestamp Partial.blockNumber Partial.metadata].
  rewrite !(guard_str_accepts _ validateHash) by assumption.
  rewrite !(guard_str_accepts _ validateAddress) by assumption.
  rewrite (guard_str_accepts _ validateAmount) by assumption.
  assert (forall n, 0 <= n -> (n <? 0) = false) as Hneg
    by (intros n Hn; apply Z.ltb_ge, Hn).
  rewrite !Hneg by assumption. reflexivity.
Qed.

Lemma fromEvent_of_wellformed_event_validates_witness :
  exists r,
    fromEvent (recordId Samples.record) (transactionHash Samples.record)
      (recipient Samples.record) 42 ALLOCATION_RULE "1000000000"
      (executor Samples.record) 12345678 1704067200 = Ok r /\
    validate (asPartial r) = [].
Proof.
  destruct (fromEvent (recordId Samples.record) (transactionHash Samples.record)
              (recipient Samples.record) 42 ALLOCATION_RULE "1000000000"
              (executor Samples.record) 12345678 1704067200) as [r | e] eqn:E.
  - exists r. split; [reflexivity |].
    apply (fromEvent_of_wellformed_event_validates
             (recordId Samples.record) (transactionHash Samples.record)
             (recipient Samples.record) 42 ALLOCATION_RULE "1000000000"
             (executor Samples.record) 12345678 1704067200 r);
      try reflexivity; try lia. exact E.
  - vm_compute in E. discriminate E.
Defined.

(** X3.  The status update and the reconciliation of
    [ComplianceRecordUtils] act on different fields: applied in either
    order they give the same record, and neither changes what [validate]
    reports about the record. *)
Theorem status_update_and_reconciliation_commute
    (record : ComplianceRecord) (kyc aml : ComplianceStatus)
    (gatewayTxId transparencyId : option string) (clock : Z) :
  markReconciled clock (updateComplianceStatus record kyc aml gatewayTxId transparencyId)
  = bind (markReconciled clock record)
         (fun r' => Ok (updateComplianceStatus r' kyc aml gatewayTxId transparencyId)) /\
  validate (asPartial (updateComplianceStatus record kyc aml gatewayTxId transparencyId))
  = validate (asPartial record) /\
  match markReconciled clock record with
  | Ok r' => validate (asPartial r') = validate (asPartial record)
  | Throw _ => validTime clock = false
  end.
Proof.
  split; [| split].
  - unfold markReconciled.
    destruct (timestampToISO (clock / 1000)) as [iso | e]; reflexivity.
  - reflexivity.
  - unfold markReconciled.
    destruct (timestampToISO (clock / 1000)) as [iso | e] eqn:Hiso; simpl.
    + reflexivity.
    + apply timestampToISO_throws in Hiso.
      destruct (validTime clock) eqn:Hc; [| reflexivity].
      rewrite (validTime_whole_seconds clock Hc) in Hiso. discriminate Hiso.
Qed.

Lemma append_length (a b : string) :
  String.length (a ++ b) = (String.length a + String.length b)%nat.
Proof. induction a as [| c a IH]; simpl; [reflexivity | rewrite IH; reflexivity]. Qed.

Lemma pad_length (w : nat) (n : Z) (acc : string) :
  String.length (pad w n acc) = (w + String.length acc)%nat.
Proof.
  revert n acc. induction w as [| w IH]; intros n acc; simpl; [reflexivity |].
  rewrite IH. simpl. lia.
Qed.

Lemma append_assoc (a b c : string) : ((a ++ b) ++ c = a ++ (b ++ c))%string.
Proof.
  induction a as [| x a IH]; [reflexivity |].
  change (String x ((a ++ b) ++ c) = String x (a ++ (b ++ c)))%string.
  f_equal. exact IH.
Qed.

(** X4.  Whenever [timestampToISO] returns, the string it returns ends in
    ".000Z" — a timestamp in whole seconds renders with zero milliseconds —
    and is 24 characters long, or 27 when the year needs the signed
    six-digit form. *)
Theorem timestampToISO_renders_zero_milliseconds (t : Z) (iso : string) :
  timestampToISO t = Ok iso ->
  (exists front, iso = (front ++ ".000Z")%string) /\
  (String.length iso = 24%nat \/ String.length iso = 27%nat).
Proof.
  unfold timestampToISO, newDate.
  destruct (validTime (t * 1000)); simpl; [| discriminate].
  intros [= <-]. unfold iso_of_ms.
  destruct (civil_of_days (t * 1000 / 86400000)) as [[y m] d].
  assert ((t * 1000) mod 86400000 mod 1000 = 0) as Hms
    by (Z.to_euclidean_division_equations; lia).
  rewrite Hms. split.
  - exists (iso_year y ++ "-" ++ pad 2 m "" ++ "-" ++ pad 2 d ""
              ++ "T" ++ pad 2 ((t * 1000) mod 86400000 / 3600000) ""
              ++ ":" ++ pad 2 (((t * 1000) mod 86400000 / 60000) mod 60) ""
              ++ ":" ++ pad 2 (((t * 1000) mod 86400000 / 1000) mod 60) "")%string.
    rewrite !append_assoc. reflexivity.
  - rewrite !append_length, !pad_length.
    unfold iso_year.
    destruct ((0 <=? y) && (y <=? 9999)); [left | right; destruct (y <? 0)];
      simpl String.length; rewrite ?pad_length; simpl String.length; lia.
Qed.

Lemma timestampToISO_renders_zero_milliseconds_witness :
  exists front, ("2024-01-01T00:00:00.000Z" = front ++ ".000Z")%string.
Proof.
  exact (proj1 (timestampToISO_renders_zero_milliseconds
                  1704067200 "2024-01-01T00:00:00.000Z" eq_refl)).
Defined.

End RecordHelperProperties.

(** ** More about the Mongoose model *)

Module MongooseHookProperties.
Import JS Mongoose MongooseFacts.

Lemma ensureReconciledAtISO_idempotent (doc : Document) :
  ensureReconciledAtISO (ensureReconciledAtISO doc) = ensureReconciledAtISO doc.
Proof.
  unfold ensureReconciledAtISO at 2 3.
  destruct (truthy_value (doc !! "reconciledAt"%string)
            && negb (truthy_value (doc !! "reconciledAtISO"%string))
            && truthy_value (doc !! "reconciled"%string)) eqn:Hc.
  - destruct (doc !! "reconciledAt"%string) as [[s | t | f | b | d | m] |] eqn:Hat;
      try (unfold ensureReconciledAtISO; rewrite Hat, Hc; reflexivity).
    destruct (newDate (t * 1000)) as [ms |] eqn:Hdate; simpl.
    + eapply ensureReconciledAtISO_set. apply lookup_insert_eq.
    + unfold ensureReconciledAtISO. rewrite Hat, Hc, Hdate. reflexivity.
  - unfold ensureReconciledAtISO. rewrite Hc. reflexivity.
Qed.

Lemma assignDate_commute (p1 p2 : string) (d1 d2 : Date) (doc : Document) :
  p1 <> p2 ->
  assignDate p1 d1 (assignDate p2 d2 doc) = assignDate p2 d2 (assignDate p1 d1 doc).
Proof.
  intros Hne. destruct d1, d2; simpl; try reflexivity.
  apply insert_insert_ne. congruence.
Qed.

(** The two statements of the hook read and write different paths. *)
Lemma hook_statements_commute (doc : Document) :
  ensureTimestampISO (ensureReconciledAtISO doc)
  = ensureReconciledAtISO (ensureTimestampISO doc).
Proof.
  unfold ensureTimestampISO at 2.
  destruct (truthy_value (doc !! "timestamp"%string)
            && negb (truthy_value (doc !! "timestampISO"%string))) eqn:Hts.
  - destruct (doc !! "timestamp"%string) as [[s | t | f | b | d | m] |] eqn:Htv;
      try (unfold ensureTimestampISO;
           rewrite !ensureReconciledAtISO_lookup_ne by congruence;
           rewrite Htv, Hts; reflexivity).
    unfold ensureTimestampISO.
    rewrite !ensureReconciledAtISO_lookup_ne by congruence. rewrite Htv, Hts.
    unfold ensureReconciledAtISO.
    rewrite !assignDate_lookup_ne by congruence.
    destruct (truthy_value (doc !! "reconciledAt"%string)
              && negb (truthy_value (doc !! "reconciledAtISO"%string))
              && truthy_value (doc !! "reconciled"%string)); [| reflexivity].
    destruct (doc !! "reconciledAt"%string) as [[s' | t' | f' | b' | d' | m'] |];
      try reflexivity.
    apply assignDate_commute. congruence.
  - unfold ensureTimestampISO.
    rewrite !ensureReconciledAtISO_lookup_ne by congruence. rewrite Hts. reflexivity.
Qed.

Lemma ensureTimestampISO_keeps_truthy (doc : Document) :
  truthy_value (doc !! "timestampISO"%string) = true -> ensureTimestampISO doc = doc.
Proof.
  intros H. unfold ensureTimestampISO. rewrite H. rewrite andb_false_r. reflexivity.
Qed.

Lemma ensureReconciledAtISO_keeps_truthy (doc : Document) :
  truthy_value (doc !! "reconciledAtISO"%string) = true -> ensureReconciledAtISO doc = doc.
Proof.
  intros H. unfold ensureReconciledAtISO. rewrite H. simpl.
  rewrite andb_false_r. reflexivity.
Qed.

(** X5.  The pre-save hook only fills in: running it twice is the same as
    running it once, it leaves every path other than [timestampISO] and
    [reconciledAtISO] as it was, and it never replaces a value those two
    paths already hold. *)
Theorem preSave_only_fills_missing_dates (doc : Document) :
  preSave (preSave doc) = preSave doc /\
  (forall path, path <> "timestampISO"%string -> path <> "reconciledAtISO"%string ->
                preSave doc !! path = doc !! path) /\
  (truthy_value (doc !! "timestampISO"%string) = true ->
   preSave doc !! "timestampISO"%string = doc !! "timestampISO"%string) /\
  (truthy_value (doc !! "reconciledAtISO"%string) = true ->
   preSave doc !! "reconciledAtISO"%string = doc !! "reconciledAtISO"%string).
Proof.
  split; [| split; [| split]].
  - unfold preSave.
    rewrite <- (hook_statements_commute (ensureReconciledAtISO (ensureTimestampISO doc))).
    rewrite ensureReconciledAtISO_idempotent.
    rewrite hook_statements_commute.
    rewrite ensureTimestampISO_idempotent. reflexivity.
  - intros path H1 H2. apply preSave_lookup_ne; assumption.
  - intros H. unfold preSave.
    rewrite ensureReconciledAtISO_lookup_ne by congruence.
    rewrite ensureTimestampISO_keeps_truthy by assumption. reflexivity.
  - intros H. unfold preSave.
    rewrite ensureReconciledAtISO_keeps_truthy
      by (rewrite ensureTimestampISO_lookup_ne by congruence; assumption).
    apply ensureTimestampISO_lookup_ne. congruence.
Qed.

Lemma preSave_only_fills_missing_dates_witness :
  preSave Samples.document !! "timestampISO"%string
  = Samples.document !! "timestampISO"%string.
Proof.
  apply (proj1 (proj2 (proj2 (preSave_only_fills_missing_dates Samples.document)))).
  vm_compute. reflexivity.
Defined.



Example preSave_leaves_out_of_range_timestamp_unset :
  preSave {[ "timestamp"%string := VNum 10000000000000 ]} !! "timestampISO"%string = None.
Proof. vm_compute. reflexivity. Qed.

End MongooseHookProperties.

Module MongooseStaticsProperties.
Import JS MongooseStatics.

(** X7.  In all five static query helpers the options never change the
    filter, and a sort is requested only for a truthy [options.sort], which
    is then passed on unchanged: the fallback [{ timestamp: -1 }] written in
    [findUnreconciled], [findByDateRange] and [findByComplianceStatus] is
    never used, so without [options.sort] their results are not sorted. *)
Theorem static_helpers_sort_only_on_request
    (options : Options) (recipient kyc aml : string) (ruleId start finish : Z) :
  Forall (fun q => sorted q = requestedSort options)
    [findByRecipient recipient options; findByRuleId ruleId options;
     findUnreconciled options; findByDateRange start finish options;
     findByComplianceStatus kyc aml options] /\
  filter (findByRecipient recipient options)
    = [("recipient"%string, Equals (Mongoose.VStr recipient))] /\
  filter (findByRuleId ruleId options)
    = [("ruleId"%string, Equals (Mongoose.VNum ruleId))] /\
  filter (findUnreconciled options)
    = [("reconciled"%string, Equals (Mongoose.VBool false))] /\
  filter (findByDateRange start finish options)
    = [("timestamp"%string, Between start finish)] /\
  filter (findByComplianceStatus kyc aml options)
    = [("kycStatus"%string, Equals (Mongoose.VStr kyc));
       ("amlStatus"%string, Equals (Mongoose.VStr aml))].
Proof.
  unfold findByRecipient, findByRuleId, findUnreconciled, findByDateRange,
    findByComplianceStatus, applyLimit, applySort, applySortOrNewestFirst,
    sortOrNewestFirst, requestedSort.
  destruct options as [[n |] [[fields | s] |]]; simpl;
    try destruct (negb (n =? 0)); try destruct (truthy s); simpl;
    repeat split; repeat constructor.
Qed.

Example findUnreconciled_default_is_unsorted :
  sorted (findUnreconciled {| limit := Some 10; sort := None |}) = None /\
  limited (findUnreconciled {| limit := Some 10; sort := None |}) = Some 10.
Proof. split; reflexivity. Qed.

End MongooseStaticsProperties.

Module MongooseMethodProperties.
Import JS Mongoose MongooseFacts MongooseHookProperties.

Lemma assignDate_insert (path k : string) (date : Date) (v : Value) (doc : Document) :
  k <> path ->
  assignDate path date (<[k := v]> doc) = <[k := v]> (assignDate path date doc).
Proof.
  intros Hne. destruct date; simpl; [| reflexivity].
  apply insert_insert_ne. congruence.
Qed.

Lemma ensureTimestampISO_insert (k : string) (v : Value) (doc : Document) :
  k <> "timestamp"%string -> k <> "timestampISO"%string ->
  ensureTimestampISO (<[k := v]> doc) = <[k := v]> (ensureTimestampISO doc).
Proof.
  intros H1 H2. unfold ensureTimestampISO.
  rewrite !lookup_insert_ne by congruence.
  destruct (truthy_value (doc !! "timestamp"%string)
            && negb (truthy_value (doc !! "timestampISO"%string))); [| reflexivity].
  destruct (doc !! "timestamp"%string) as [[s | t | f | b | d | m] |]; try reflexivity.
  apply assignDate_insert. congruence.
Qed.

Lemma ensureReconciledAtISO_insert (k : string) (v : Value) (doc : Document) :
  k <> "reconciledAt"%string -> k <> "reconciledAtISO"%string ->
  k <> "reconciled"%string ->
  ensureReconciledAtISO (<[k := v]> doc) = <[k := v]> (ensureReconciledAtISO doc).
Proof.
  intros H1 H2 H3. unfold ensureReconciledAtISO.
  rewrite !lookup_insert_ne by congruence.
  destruct (truthy_value (doc !! "reconciledAt"%string)
            && negb (truthy_value (doc !! "reconciledAtISO"%string))
            && truthy_value (doc !! "reconciled"%string)); [| reflexivity].
  destruct (doc !! "reconciledAt"%string) as [[s | t | f | b | d | m] |]; try reflexivity.
  apply assignDate_insert. congruence.
Qed.





End MongooseMethodProperties.

(** ** More about the payroll automation service *)

Module CycleProperties.
Import JS PayrollAutomationService PayrollCycle.

Lemma queries_app (l1 l2 : list Event) : queries (l1 ++ l2) = queries l1 ++ queries l2.
Proof. apply omap_app. Qed.

Lemma submitted_app (l1 l2 : list Event) :
  submitted (l1 ++ l2) = submitted l1 ++ submitted l2.
Proof. apply List.filter_app. Qed.

Section Cycle.
Context {World : Type}.
Variable contract : Contract World.
Variable config : Config.

(** Both rule checks return for every answer of the contract, and make
    their own eligibility query and no other. *)
Lemma rule_checks_return (w : World) (log : list Event) :
  (exists result extra w',
      checkRuleBasedDistributions contract (w, log) = (Ok result, (w', log ++ extra)) /\
      queries extra = [EligibleDistributions]) /\
  (exists result extra w',
      checkAllocationRules contract (w, log) = (Ok result, (w', log ++ extra)) /\
      queries extra = [EligibleAllocations]).
Proof.
  split.
  - unfold checkRuleBasedDistributions, pcatch, pbind, call, ruleCheckFailed, pure.
    simpl.
    destruct (getEligibleDistributionRules contract w) as [[[| id rest] | e] w1]; simpl;
      [eexists _, [_], _; split; reflexivity | |
       destruct (nothingToExecute (message_of e)); eexists _, [_], _; split; reflexivity].
    destruct (executeAllEligibleDistributionRules contract 1000000 w1)
      as [[tx | e] w2]; simpl;
      [| destruct (nothingToExecute (message_of e));
         eexists _, [_; _], _; rewrite <- !app_assoc; split; reflexivity].
    destruct (wait (scheduled contract) tx w2) as [[receipt | e] w3]; simpl;
      [| destruct (nothingToExecute (message_of e))];
      eexists _, [_; _; _], _; rewrite <- !app_assoc; split; reflexivity.
  - unfold checkAllocationRules, pcatch, pbind, call, ruleCheckFailed, pure.
    simpl.
    destruct (getEligibleAllocationRules contract w) as [[[| id rest] | e] w1]; simpl;
      [eexists _, [_], _; split; reflexivity | |
       destruct (nothingToExecute (message_of e)); eexists _, [_], _; split; reflexivity].
    destruct (executeAllEligibleAllocations contract 1000000 w1)
      as [[tx | e] w2]; simpl;
      [| destruct (nothingToExecute (message_of e));
         eexists _, [_; _], _; rewrite <- !app_assoc; split; reflexivity].
    destruct (wait (scheduled contract) tx w2) as [[receipt | e] w3]; simpl;
      [| destruct (nothingToExecute (message_of e))];
      eexists _, [_; _; _], _; rewrite <- !app_assoc; split; reflexivity.
Qed.

(** X9.  [checkRuleBasedDistributions] and [checkAllocationRules] never
    throw and submit at most one transaction.  When the eligibility query
    returns no rule they stop there and report 0; a non-zero
    [rulesExecuted] is the number of rules the query returned before the
    transaction was sent — whatever the transaction then executed. *)
Theorem rule_checks_report_the_eligible_count (w : World) (log : list Event) :
  (exists result extra w',
      checkRuleBasedDistributions contract (w, log) = (Ok result, (w', log ++ extra)) /\
      queries extra = [EligibleDistributions] /\
      (length (submitted extra) <= 1)%nat /\
      (fst (getEligibleDistributionRules contract w) = Ok [] ->
       result = RuleBatch.nothing /\ extra = [GetEligibleDistributionRules]) /\
      (RuleBatch.rulesExecuted result <> O ->
       exists ids, fst (getEligibleDistributionRules contract w) = Ok ids /\
                   RuleBatch.rulesExecuted result = length ids /\
                   submitted extra = [ExecuteAllEligibleDistributionRules 1000000])) /\
  (exists result extra w',
      checkAllocationRules contract (w, log) = (Ok result, (w', log ++ extra)) /\
      queries extra = [EligibleAllocations] /\
      (length (submitted extra) <= 1)%nat /\
      (fst (getEligibleAllocationRules contract w) = Ok [] ->
       result = RuleBatch.nothing /\ extra = [GetEligibleAllocationRules]) /\
      (RuleBatch.rulesExecuted result <> O ->
       exists ids, fst (getEligibleAllocationRules contract w) = Ok ids /\
                   RuleBatch.rulesExecuted result = length ids /\
                   submitted extra = [ExecuteAllEligibleAllocations 1000000])).
Proof.
  split.
  - unfold checkRuleBasedDistributions, pcatch, pbind, call, ruleCheckFailed, pure.
    simpl.
    destruct (getEligibleDistributionRules contract w) as [[ids | e] w1]; simpl.
    + destruct ids as [| id rest]; simpl.
      * eexists _, [_], _. repeat split; simpl; auto; try congruence.
      * destruct (executeAllEligibleDistributionRules contract 1000000 w1)
          as [[tx | e] w2]; simpl.
        -- destruct (wait (scheduled contract) tx w2) as [[receipt | e] w3]; simpl.
           ++ eexists _, [_; _; _], _. rewrite <- !app_assoc. simpl.
              repeat split; simpl; auto; try congruence.
              intros _. eexists. repeat split.
           ++ destruct (nothingToExecute (message_of e));
                eexists _, [_; _; _], _; rewrite <- !app_assoc; simpl;
                repeat split; simpl; auto; congruence.
        -- destruct (nothingToExecute (message_of e));
             eexists _, [_; _], _; rewrite <- !app_assoc; simpl;
             repeat split; simpl; auto; congruence.
    + destruct (nothingToExecute (message_of e));
        eexists _, [_], _; repeat split; simpl; auto; congruence.
  - unfold checkAllocationRules, pcatch, pbind, call, ruleCheckFailed, pure.
    simpl.
    destruct (getEligibleAllocationRules contract w) as [[ids | e] w1]; simpl.
    + destruct ids as [| id rest]; simpl.
      * eexists _, [_], _. repeat split; simpl; auto; try congruence.
      * destruct (executeAllEligibleAllocations contract 1000000 w1)
          as [[tx | e] w2]; simpl.
        -- destruct (wait (scheduled contract) tx w2) as [[receipt | e] w3]; simpl.
           ++ eexists _, [_; _; _], _. rewrite <- !app_assoc. simpl.
              repeat split; simpl; auto; try congruence.
              intros _. eexists. repeat split.
           ++ destruct (nothingToExecute (message_of e));
                eexists _, [_; _; _], _; rewrite <- !app_assoc; simpl;
                repeat split; simpl; auto; congruence.
        -- destruct (nothingToExecute (message_of e));
             eexists _, [_; _], _; rewrite <- !app_assoc; simpl;
             repeat split; simpl; auto; congruence.
    + destruct (nothingToExecute (message_of e));
        eexists _, [_], _; repeat split; simpl; auto; congruence.
Qed.

(** One attempt at a schedule makes no eligibility query. *)
Lemma attempt_makes_no_query (scheduleId : N) (st : World * list Call) :
  queries (Scheduled <$>
             snd (snd (executeScheduledDistribution (scheduled contract) config
                                                    scheduleId st)))
  = queries (Scheduled <$> snd st).
Proof.
  destruct st as [w log].
  unfold executeScheduledDistribution, tryCatch, mbind, await, throw, ret. simpl.
  destruct (getScheduledDistribution (scheduled contract) scheduleId w)
    as [[schedule | e] w1]; simpl;
    [| rewrite fmap_app, queries_app; simpl; apply app_nil_r].
  destruct (performComplianceCheck (scheduled contract) (complianceRequest schedule) w1)
    as [[check | e] w2]; simpl;
    [| rewrite !fmap_app, !queries_app; simpl; rewrite !app_nil_r; reflexivity].
  destruct (requireKYC config && notCleared (ComplianceCheck.kycStatus check)); simpl;
    [rewrite !fmap_app, !queries_app; simpl; rewrite !app_nil_r; reflexivity |].
  destruct (requireAML config && notCleared (ComplianceCheck.amlStatus check)); simpl;
    [rewrite !fmap_app, !queries_app; simpl; rewrite !app_nil_r; reflexivity |].
  destruct (executeScheduledDistributions (scheduled contract) [scheduleId] 500000 w2)
    as [[tx | e] w3]; simpl;
    [| rewrite !fmap_app, !queries_app; simpl; rewrite !app_nil_r; reflexivity].
  destruct (wait (scheduled contract) tx w3) as [[receipt | e] w4]; simpl;
    rewrite !fmap_app, !queries_app; simpl; rewrite !app_nil_r; reflexivity.
Qed.

Lemma attempts_make_no_query (ids : list N) (st : World * list Call) :
  queries (Scheduled <$> snd (snd (attemptEach (scheduled contract) config ids st)))
  = queries (Scheduled <$> snd st).
Proof.
  revert st. induction ids as [| id rest IH]; intros st; simpl; [reflexivity |].
  pose proof (attempt_makes_no_query id st) as Hone.
  destruct (executeScheduledDistribution (scheduled contract) config id st)
    as [outcome st1].
  specialize (IH st1).
  destruct (attemptEach (scheduled contract) config rest st1) as [outcomes st2].
  simpl in *. rewrite IH. exact Hone.
Qed.

(** The scheduled check returns for every answer of its collaborators, and
    asks for the due schedules exactly once. *)
Lemma scheduled_check_returns (st : World * list Call) :
  exists batch st',
    checkScheduledDistributions (scheduled contract) config st = (Ok batch, st') /\
    queries (Scheduled <$> snd st') = queries (Scheduled <$> snd st) ++ [DueSchedules].
Proof.
  destruct st as [w log].
  unfold checkScheduledDistributions, tryCatch, mbind, await, ret. simpl.
  destruct (getDueScheduledDistributions (scheduled contract) w)
    as [[ids | e] w1]; simpl.
  - destruct ids as [| id rest].
    + eexists _, _. split; [reflexivity |]. simpl.
      rewrite fmap_app, queries_app. reflexivity.
    + rewrite AutomationProperties.executeEach_collects.
      eexists _, _. split; [reflexivity |].
      rewrite attempts_make_no_query. simpl.
      rewrite fmap_app, queries_app. reflexivity.
  - eexists _, _. split; [reflexivity |]. simpl.
    rewrite fmap_app, queries_app. reflexivity.
Qed.

(** X10.  [checkAndExecuteDistributions] never throws.  If reading the
    balance throws, nothing else is called in that cycle.  Otherwise the
    three checks all run, in the order scheduled, rule-based, allocation:
    a failure inside one of them does not keep the later ones from
    querying. *)
Theorem check_cycle_runs_all_three_checks (w : World) (log : list Event) :
  exists extra w',
    checkAndExecuteDistributions contract config (w, log) = (Ok tt, (w', log ++ extra)) /\
    match fst (getBalance contract w) with
    | Throw _ => extra = [GetBalance]
    | Ok _ =>
        exists rest, extra = GetBalance :: rest /\
          queries rest = [DueSchedules; EligibleDistributions; EligibleAllocations]
    end.
Proof.
  unfold checkAndExecuteDistributions, pcatch. unfold pbind at 1. unfold call at 1.
  simpl.
  destruct (getBalance contract w) as [[balance | e] w1]; simpl;
    [| eexists [_], _; split; reflexivity].
  unfold pbind at 1. unfold viaScheduled. simpl.
  destruct (scheduled_check_returns (w1, [])) as (batch & [w2 calls] & -> & Hq).
  simpl in Hq.
  unfold pbind at 1.
  destruct (rule_checks_return w2 ((log ++ [GetBalance]) ++ (Scheduled <$> calls)))
    as [(r1 & extra1 & w3 & -> & Hq1) _].
  unfold pbind at 1.
  destruct (rule_checks_return w3
              (((log ++ [GetBalance]) ++ (Scheduled <$> calls)) ++ extra1))
    as [_ (r2 & extra2 & w4 & -> & Hq2)].
  unfold pure.
  exists (GetBalance :: (Scheduled <$> calls) ++ extra1 ++ extra2), w4. split.
  - f_equal. f_equal. rewrite <- !app_assoc. reflexivity.
  - eexists. split; [reflexivity |].
    rewrite !queries_app, Hq, Hq1, Hq2. reflexivity.
Qed.

End Cycle.

End CycleProperties.


(** ** Starting and stopping the services *)

Module LifecycleProperties.
Import JS Lifecycle.

Lemma stopTask_last (before : list (string * bool)) (expression : string)
    (pending periodic : list N) :
  stopTask (length before)
           {| tasks := before ++ [(expression, true)]; timeouts := pending;
              intervals := periodic |}
  = {| tasks := before ++ [(expression, false)]; timeouts := pending;
       intervals := periodic |}.
Proof.
  unfold stopTask. simpl. f_equal.
  replace (length before) with (length before + 0)%nat by lia.
  rewrite alter_app_r. reflexivity.
Qed.

Lemma in_step_running (st : Automation * Timers) :
  in_step st -> running (snd st) = if isRunning (fst st) then 1%nat else 0%nat.
Proof.
  destruct st as [this timers]. unfold in_step, running. simpl.
  destruct (isRunning this).
  - intros (before & expression & -> & Hnone & _).
    rewrite List.filter_app, Hnone. reflexivity.
  - intros [_ ->]. reflexivity.
Qed.

Section Automation.
Variable accepts : string -> bool.

Lemma perform_keeps_in_step (st : Automation * Timers) (c : Command) :
  in_step st -> in_step (perform accepts st c).
Proof.
  destruct st as [this timers]. destruct c; simpl.
  - destruct (isRunning this) eqn:Hrun; simpl.
    + intros H. rewrite Hrun. exact H.
    + destruct (accepts (expressionOf this)); simpl.
      * intros [Hjobs Hnone]. exists (tasks timers), (expressionOf this).
        rewrite Hjobs, insert_empty. repeat split. exact Hnone.
      * rewrite Hrun. intros H. exact H.
  - destruct (isRunning this) eqn:Hrun; simpl.
    + intros (before & expression & Htasks & Hnone & Hjobs).
      rewrite Hjobs, map_fold_singleton.
      destruct timers as [all pending periodic]. simpl in Htasks. subst all.
      rewrite stopTask_last. simpl. split; [reflexivity |].
      rewrite List.filter_app, Hnone. reflexivity.
    + rewrite Hrun. intros H. exact H.
Qed.

Lemma perform_keeps_timeouts (st : Automation * Timers) (c : Command) :
  in_step st -> timeouts (snd st) `prefix_of` timeouts (snd (perform accepts st c)).
Proof.
  destruct st as [this timers]. destruct c; simpl.
  - intros _. destruct (isRunning this); simpl; [reflexivity |].
    destruct (accepts (expressionOf this)); simpl; [| reflexivity].
    apply prefix_app_r. reflexivity.
  - destruct (isRunning this) eqn:Hrun; simpl; [| reflexivity].
    intros (before & expression & Htasks & Hnone & Hjobs).
    rewrite Hjobs, map_fold_singleton. reflexivity.
Qed.

(** X11.  Whatever sequence of [start] and [stop] calls a
    [PayrollAutomationService] receives, exactly one of its cron tasks is
    running while [isRunning] holds and none otherwise: a second [start]
    creates no second task, and [stop] stops the task [start] created.  A
    pending [setTimeout] is never cancelled: after [start] then [stop] the
    2000 ms timeout of [start] is still pending although the service no
    longer runs. *)
Theorem automation_runs_one_task_while_running
    (st : Automation * Timers) (commands : list Command) :
  in_step st ->
  let st' := fold_left (perform accepts) commands st in
  in_step st' /\
  running (snd st') = (if isRunning (fst st') then 1%nat else 0%nat) /\
  timeouts (snd st) `prefix_of` timeouts (snd st') /\
  (isRunning (fst st') = false -> accepts (expressionOf (fst st')) = true ->
   let stopped := perform accepts (perform accepts st' Start) Stop in
   isRunning (fst stopped) = false /\
   running (snd stopped) = 0%nat /\
   timeouts (snd stopped) = timeouts (snd st') ++ [2000%N]).
Proof.
  intros Hstep st'.
  assert (in_step st' /\ timeouts (snd st) `prefix_of` timeouts (snd st')) as [Hstep' Hpre].
  { subst st'. revert st Hstep.
    induction commands as [| c rest IH]; intros st Hstep; simpl.
    - split; [exact Hstep | reflexivity].
    - destruct (IH (perform accepts st c) (perform_keeps_in_step st c Hstep))
        as [Hfinal Hpre].
      split; [exact Hfinal |].
      etransitivity; [apply (perform_keeps_timeouts st c Hstep) | exact Hpre]. }
  split; [exact Hstep' |].
  split; [apply in_step_running; exact Hstep' |].
  split; [exact Hpre |].
  intros Hrun Hok stopped.
  pose proof (perform_keeps_in_step _ Stop
                (perform_keeps_in_step st' Start Hstep')) as Hstopped.
  fold stopped in Hstopped.
  assert (isRunning (fst stopped) = false /\
          timeouts (snd stopped) = timeouts (snd st') ++ [2000%N]) as [Hoff Htime].
  { subst stopped. destruct st' as [this timers]. simpl in *.
    rewrite Hrun. simpl. rewrite Hok. simpl.
    rewrite Hrun in Hstep'. destruct Hstep' as [Hjobs _]. rewrite Hjobs.
    rewrite insert_empty, map_fold_singleton. simpl. split; reflexivity. }
  split; [exact Hoff |]. split; [| exact Htime].
  rewrite (in_step_running _ Hstopped), Hoff. reflexivity.
Qed.

End Automation.

Lemma automation_runs_one_task_while_running_witness :
  let st' := fold_left (perform (fun _ => true)) [Start; Start; Stop; Start]
                       (constructed None, {| tasks := []; timeouts := []; intervals := [] |}) in
  running (snd st') = 1%nat /\ length (tasks (snd st')) = 2%nat /\
  timeouts (snd st') = [2000%N; 2000%N].
Proof.
  destruct (automation_runs_one_task_while_running (fun _ => true)
              (constructed None, {| tasks := []; timeouts := []; intervals := [] |})
              [Start; Start; Stop; Start]) as (_ & Hrunning & _).
  - simpl. split; reflexivity.
  - split; [exact Hrunning |]. split; reflexivity.
Defined.

End LifecycleProperties.


(** ** The event listener's subscriptions *)

Module ListenerProperties.
Import JS Lifecycle.

Lemma off_fresh (name : string) (handler : nat) (registered rest : list (string * nat)) :
  (name, handler) ∉ registered ->
  off name handler (registered ++ (name, handler) :: rest) = registered ++ rest.
Proof.
  induction registered as [| entry others IH]; intros Hfresh; simpl.
  - rewrite bool_decide_eq_true_2 by reflexivity. reflexivity.
  - apply not_elem_of_cons in Hfresh as [Hne Hfresh].
    rewrite bool_decide_eq_false_2 by congruence.
    rewrite IH by exact Hfresh. reflexivity.
Qed.

Lemma off_other (name : string) (handler : nat) (entry : string * nat)
    (registered : list (string * nat)) :
  entry <> (name, handler) ->
  off name handler (entry :: registered) = entry :: off name handler registered.
Proof. intros Hne. simpl. rewrite bool_decide_eq_false_2 by exact Hne. reflexivity. Qed.

Lemma off_commute (n1 n2 : string) (h1 h2 : nat) (registered : list (string * nat)) :
  off n1 h1 (off n2 h2 registered) = off n2 h2 (off n1 h1 registered).
Proof.
  destruct (decide ((n1, h1) = (n2, h2))) as [Heq | Hne]; [congruence |].
  induction registered as [| entry rest IH]; simpl; [reflexivity |].
  destruct (decide (entry = (n2, h2))) as [-> | H2].
  - rewrite bool_decide_eq_true_2 by reflexivity.
    rewrite (bool_decide_eq_false_2 ((n2, h2) = (n1, h1))) by congruence.
    simpl. rewrite bool_decide_eq_true_2 by reflexivity. reflexivity.
  - rewrite (bool_decide_eq_false_2 (entry = (n2, h2))) by exact H2.
    destruct (decide (entry = (n1, h1))) as [-> | H1].
    + rewrite bool_decide_eq_true_2 by reflexivity. simpl.
      rewrite bool_decide_eq_true_2 by reflexivity. reflexivity.
    + rewrite (bool_decide_eq_false_2 (entry = (n1, h1))) by exact H1. simpl.
      rewrite (bool_decide_eq_false_2 (entry = (n1, h1))) by exact H1.
      rewrite (bool_decide_eq_false_2 (entry = (n2, h2))) by exact H2.
      rewrite IH. reflexivity.
Qed.

Lemma forEach_off_insert (name : string) (handler : nat) (handlers : gmap string nat)
    (registered : list (string * nat)) :
  handlers !! name = None ->
  map_fold (fun name handler acc => off name handler acc) registered
           (<[name := handler]> handlers)
  = off name handler
        (map_fold (fun name handler acc => off name handler acc) registered handlers).
Proof.
  intros Hnew. apply map_fold_insert_L; [| exact Hnew].
  intros. apply off_commute.
Qed.

(** What [_setupEventListeners] leaves on an initialized listener, and what
    the [forEach] of [stop] then makes of the contract's listeners. *)
Lemma subscribed_then_removed
    (this : Listener) (registered : list (string * nat)) :
  treasuryContract this = Some registered ->
  eventHandlers this = ∅ ->
  Forall (fun entry => (snd entry < nextHandler this)%nat) registered ->
  exists subscribed,
    setupEventListeners this = (Returned, subscribed) /\
    isListening subscribed = isListening this /\
    nextHandler subscribed = (nextHandler this + 5)%nat /\
    treasuryContract subscribed
      = Some (registered ++ zip eventNames (seq (nextHandler this) 5)) /\
    map_fold (fun name handler acc => off name handler acc)
             (registered ++ zip eventNames (seq (nextHandler this) 5))
             (eventHandlers subscribed)
      = registered.
Proof.
  intros Hcontract Hnone Hold.
  assert (forall name k, (name, (nextHandler this + k)%nat) ∉ registered) as Hfresh.
  { intros name k Hin. rewrite Forall_forall in Hold.
    specialize (Hold _ Hin). simpl in Hold. lia. }
  unfold setupEventListeners, eventNames, subscribeEach, subscribe, on. simpl.
  rewrite Hcontract, Hnone. simpl.
  eexists. split; [reflexivity |]. simpl.
  split; [reflexivity |].
  split; [lia |].
  split; [rewrite <- !app_assoc; reflexivity |].
  rewrite !forEach_off_insert
    by (rewrite ?lookup_insert_ne by discriminate; apply lookup_empty).
  rewrite map_fold_empty.
  pose proof (Hfresh "ScheduledDistributionExecuted"%string 0%nat) as H0.
  pose proof (Hfresh "DistributionRuleExecuted"%string 1%nat) as H1.
  pose proof (Hfresh "AllocationExecuted"%string 2%nat) as H2.
  pose proof (Hfresh "ComplianceRecordCreated"%string 3%nat) as H3.
  pose proof (Hfresh "TransactionExecuted"%string 4%nat) as H4.
  replace (nextHandler this + 0)%nat with (nextHandler this) in H0 by lia.
  replace (nextHandler this + 1)%nat with (S (nextHandler this)) in H1 by lia.
  replace (nextHandler this + 2)%nat with (S (S (nextHandler this))) in H2 by lia.
  replace (nextHandler this + 3)%nat with (S (S (S (nextHandler this)))) in H3 by lia.
  replace (nextHandler this + 4)%nat with (S (S (S (S (nextHandler this))))) in H4 by lia.
  rewrite (off_fresh _ _ _ _ H0), (off_fresh _ _ _ _ H1), (off_fresh _ _ _ _ H2),
    (off_fresh _ _ _ _ H3), (off_fresh _ _ _ _ H4).
  apply app_nil_r.
Qed.

(** [start] then [stop], as the monitoring service calls them. *)
Lemma listen_then_unlisten
    (this : Listener) (registered : list (string * nat)) :
  treasuryContract this = Some registered ->
  isListening this = false ->
  eventHandlers this = ∅ ->
  Forall (fun entry => (snd entry < nextHandler this)%nat) registered ->
  exists started,
    listen this = (Returned, started) /\
    listen started = (Returned, started) /\
    unlisten started
      = (Returned,
         {| treasuryContract := Some registered; isListening := false;
            eventHandlers := ∅; nextHandler := (nextHandler this + 5)%nat |}).
Proof.
  intros Hcontract Hidle Hnone Hold.
  destruct (subscribed_then_removed this registered Hcontract Hnone Hold)
    as (subscribed & Hsetup & _ & Hnext & Hthere & Hoff).
  unfold listen at 1. rewrite Hidle, Hsetup.
  eexists. split; [reflexivity |]. split; [reflexivity |].
  unfold unlisten. simpl. rewrite Hthere, Hoff, Hnext. reflexivity.
Qed.

(** X12.  On an initialized [TreasuryEventListener] that is not listening,
    [start] registers one new handler for each of the five events, after
    the listeners the contract already has; a second [start] changes
    nothing; and [stop] removes exactly the five listeners [start]
    registered, leaving the contract's other listeners as they were. *)
Theorem listener_stop_removes_what_start_registered
    (this : Listener) (registered : list (string * nat)) :
  treasuryContract this = Some registered ->
  isListening this = false ->
  eventHandlers this = ∅ ->
  Forall (fun entry => (snd entry < nextHandler this)%nat) registered ->
  exists started,
    listen this = (Returned, started) /\
    isListening started = true /\
    treasuryContract started
      = Some (registered ++ zip eventNames (seq (nextHandler this) 5)) /\
    listen started = (Returned, started) /\
    unlisten started
      = (Returned,
         {| treasuryContract := Some registered; isListening := false;
            eventHandlers := ∅; nextHandler := (nextHandler this + 5)%nat |}).
Proof.
  intros Hcontract Hidle Hnone Hold.
  destruct (subscribed_then_removed this registered Hcontract Hnone Hold)
    as (subscribed & Hsetup & _ & Hnext & Hthere & Hoff).
  exists {| treasuryContract := treasuryContract subscribed; isListening := true;
            eventHandlers := eventHandlers subscribed;
            nextHandler := nextHandler subscribed |}.
  split.
  - unfold listen. rewrite Hidle, Hsetup. reflexivity.
  - split; [reflexivity |].
    split; [exact Hthere |].
    split; [reflexivity |].
    unfold unlisten. simpl. rewrite Hthere, Hoff, Hnext. reflexivity.
Qed.

Lemma listener_stop_removes_what_start_registered_witness :
  exists started,
    listen {| treasuryContract := Some [("Paused"%string, 0%nat)]; isListening := false;
              eventHandlers := ∅; nextHandler := 1 |} = (Returned, started) /\
    unlisten started
      = (Returned,
         {| treasuryContract := Some [("Paused"%string, 0%nat)]; isListening := false;
            eventHandlers := ∅; nextHandler := 6 |}).
Proof.
  destruct (listener_stop_removes_what_start_registered
              {| treasuryContract := Some [("Paused"%string, 0%nat)];
                 isListening := false; eventHandlers := ∅; nextHandler := 1 |}
              [("Paused"%string, 0%nat)] eq_refl eq_refl eq_refl)
    as (started & Hstart & _ & _ & _ & Hstop).
  - repeat constructor.
  - exists started. split; [exact Hstart | exact Hstop].
Defined.

End ListenerProperties.


(** ** The event listener's handlers *)

Module HandlerProperties.
Import JS PayrollAutomationService TreasuryEventListener.

Section Handlers.
Context {World : Type}.
Variable circleGateway : Collaborators World.

(** The handlers of the single-recipient events make one compliance check
    and return, whatever the check does. *)
Lemma single_recipient_handlers_return (recipient : string) (amount : N)
    (w : World) (log : list Call) :
  (exists w',
      handleScheduledDistribution circleGateway recipient amount (w, log)
      = (Ok tt, (w', log ++ [PerformComplianceCheck
                               (requestFrom "SCHEDULED_DISTRIBUTION" recipient amount)]))) /\
  (exists w',
      handleAllocation circleGateway recipient amount (w, log)
      = (Ok tt, (w', log ++ [PerformComplianceCheck
                               (requestFrom "ALLOCATION_RULE" recipient amount)]))).
Proof.
  unfold handleScheduledDistribution, handleAllocation, tryCatch, mbind, await, ret.
  simpl. split.
  - destruct (performComplianceCheck circleGateway
                (requestFrom "SCHEDULED_DISTRIBUTION" recipient amount) w)
      as [[check | e] w1]; eexists; reflexivity.
  - destruct (performComplianceCheck circleGateway
                (requestFrom "ALLOCATION_RULE" recipient amount) w)
      as [[check | e] w1]; eexists; reflexivity.
Qed.


End Handlers.

End HandlerProperties.


(** ** The monitoring service *)

Module MonitoringProperties.
Import JS Lifecycle MonitoringService.

Section Service.
Variable accepts : string -> bool.

(** What [start] of the automation does when it is idle and the cron
    expression is accepted. *)
Lemma automation_start_idle (a : Automation) (timers : Timers) :
  isRunning a = false -> accepts (expressionOf a) = true ->
  Lifecycle.start accepts (a, timers)
  = (Returned,
     ({| cronExpression := cronExpression a; isRunning := true;
         jobs := <["main"%string := length (tasks timers)]> (jobs a) |},
      {| tasks := tasks timers ++ [(expressionOf a, true)];
         timeouts := timeouts timers ++ [2000%N];
         intervals := intervals timers |})).
Proof. intros Hidle Hok. simpl. rewrite Hidle, Hok. reflexivity. Qed.

(** X14.  On an initialized, idle [MonitoringService], [start] then [stop]
    leave both services stopped: no cron task runs and the contract has
    the listeners it had before.  But the hourly statistics interval that
    [start] sets is still in force after [stop], as is the 2000 ms timeout
    of the automation; and a second [start], which starts nothing new,
    sets a second interval. *)
Theorem monitoring_stop_keeps_the_stats_interval
    (clock clock' : Z) (this : MonitoringService.t) (timers : Timers)
    (a : Automation) (l : Listener) (registered : list (string * nat)) :
  automation this = Some a ->
  eventListener this = Some l ->
  isRunning a = false ->
  in_step (a, timers) ->
  accepts (expressionOf a) = true ->
  treasuryContract l = Some registered ->
  isListening l = false ->
  eventHandlers l = ∅ ->
  Forall (fun entry => (snd entry < nextHandler l)%nat) registered ->
  exists started stopped again,
    MonitoringService.start accepts clock (this, timers) = (Returned, started) /\
    MonitoringService.stop started = (Returned, stopped) /\
    MonitoringService.start accepts clock' started = (Returned, again) /\
    running (snd started) = 1%nat /\
    running (snd stopped) = 0%nat /\
    (exists a' l',
        automation (fst stopped) = Some a' /\ isRunning a' = false /\
        eventListener (fst stopped) = Some l' /\ isListening l' = false /\
        treasuryContract l' = Some registered) /\
    timeouts (snd stopped) = timeouts timers ++ [2000%N] /\
    intervals (snd stopped) = intervals timers ++ [3600000%N] /\
    tasks (snd again) = tasks (snd started) /\
    intervals (snd again) = intervals timers ++ [3600000%N; 3600000%N].
Proof.
  intros Ha Hl Hidle Hstep Hok Hcontract Hdeaf Hnone Hfresh.
  destruct (ListenerProperties.listen_then_unlisten l registered
              Hcontract Hdeaf Hnone Hfresh)
    as (l1 & Hlisten & Hrelisten & Hunlisten).
  pose proof (automation_start_idle a timers Hidle Hok) as Hstart.
  unfold in_step in Hstep. rewrite Hidle in Hstep. destruct Hstep as [Hjobs Hquiet].
  unfold MonitoringService.start at 1. rewrite Ha, Hl, Hstart, Hlisten.
  eexists _, _, _. split; [reflexivity |].
  unfold MonitoringService.stop, MonitoringService.start.
  cbn [automation eventListener startTime Lifecycle.stop Lifecycle.start
       isRunning negb fst snd].
  rewrite Hunlisten, Hrelisten.
  split; [reflexivity |]. split; [reflexivity |].
  cbn [fst snd tasks timeouts intervals jobs cronExpression].
  rewrite Hjobs, insert_empty, map_fold_singleton.
  rewrite LifecycleProperties.stopTask_last.
  unfold running. cbn [tasks timeouts intervals].
  rewrite !List.filter_app, Hquiet. simpl.
  repeat split.
  - eexists _, _. repeat split.
  - rewrite <- app_assoc. reflexivity.
Qed.

(** X15.  If the event listener was never given its contract, [start] of
    the monitoring service throws — but only after it has started the
    automation: the cron task is left running, while [stats.startTime] and
    the statistics interval are not set. *)
Theorem monitoring_start_failure_leaves_automation_running
    (clock : Z) (this : MonitoringService.t) (timers : Timers)
    (a : Automation) (l : Listener) :
  automation this = Some a ->
  eventListener this = Some l ->
  isRunning a = false ->
  in_step (a, timers) ->
  accepts (expressionOf a) = true ->
  treasuryContract l = None ->
  isListening l = false ->
  exists st',
    MonitoringService.start accepts clock (this, timers) = (Threw, st') /\
    (exists a', automation (fst st') = Some a' /\ isRunning a' = true) /\
    (exists l', eventListener (fst st') = Some l' /\ isListening l' = false) /\
    running (snd st') = 1%nat /\
    startTime (fst st') = startTime this /\
    intervals (snd st') = intervals timers.
Proof.
  intros Ha Hl Hidle Hstep Hok Hcontract Hdeaf.
  pose proof (automation_start_idle a timers Hidle Hok) as Hstart.
  unfold in_step in Hstep. rewrite Hidle in Hstep. destruct Hstep as [_ Hquiet].
  unfold MonitoringService.start. rewrite Ha, Hl, Hstart.
  unfold listen, setupEventListeners, eventNames. rewrite Hdeaf.
  cbn [subscribeEach]. unfold subscribe at 1. rewrite Hcontract.
  eexists. split; [reflexivity |]. simpl.
  repeat split.
  - eexists. split; reflexivity.
  - eexists. split; [reflexivity | exact Hdeaf].
  - unfold running. simpl. rewrite List.filter_app, Hquiet. reflexivity.
Qed.

End Service.

(** X16.  When the clock has not gone back behind [stats.startTime], the
    hours, minutes and seconds [printStats] prints are a proper split of
    the whole seconds of uptime: minutes and seconds lie in 0..59, hours
    are not negative, and together they give the uptime back.  Without a
    start time all three are 0. *)
Theorem printStats_splits_the_uptime (clock : Z) (this : MonitoringService.t) :
  match startTime this with
  | Some started => started <= clock
  | None => True
  end ->
  0 <= hours clock this /\
  0 <= minutes clock this < 60 /\
  0 <= seconds clock this < 60 /\
  hours clock this * 3600 + minutes clock this * 60 + seconds clock this
    = uptime clock this /\
  (startTime this = None ->
   hours clock this = 0 /\ minutes clock this = 0 /\ seconds clock this = 0).
Proof.
  unfold hours, minutes, seconds, uptime.
  destruct (startTime this) as [started |]; intros Hclock.
  - assert (0 <= (clock - started) / 1000) as Hup
        by (apply Z.div_pos; lia).
    set (u := (clock - started) / 1000) in *.
    rewrite !Z.rem_mod_nonneg by lia.
    repeat split; try discriminate; Z.to_euclidean_division_equations; lia.
  - repeat split; try reflexivity; lia.
Qed.

Lemma monitoring_stop_keeps_the_stats_interval_witness :
  exists started stopped,
    MonitoringService.start (fun _ => true) 1704067200000
      ({| automation := Some (constructed None);
          eventListener :=
            Some {| treasuryContract := Some []; isListening := false;
                    eventHandlers := ∅; nextHandler := 0 |};
          startTime := None |},
       {| tasks := []; timeouts := []; intervals := [] |}) = (Returned, started) /\
    MonitoringService.stop started = (Returned, stopped) /\
    intervals (snd stopped) = [3600000%N].
Proof.
  destruct (monitoring_stop_keeps_the_stats_interval (fun _ => true)
              1704067200000 1704067260000
              {| automation := Some (constructed None);
                 eventListener :=
                   Some {| treasuryContract := Some []; isListening := false;
                           eventHandlers := ∅; nextHandler := 0 |};
                 startTime := None |}
              {| tasks := []; timeouts := []; intervals := [] |}
              (constructed None)
              {| treasuryContract := Some []; isListening := false;
                 eventHandlers := ∅; nextHandler := 0 |}
              [] eq_refl eq_refl eq_refl (conj eq_refl eq_refl) eq_refl
              eq_refl eq_refl eq_refl (Forall_nil_2 _))
    as (started & stopped & _ & Hstart & Hstop & _ & _ & _ & _ & _ & Hintervals & _).
  exists started, stopped. repeat split; assumption.
Defined.

Lemma monitoring_start_failure_leaves_automation_running_witness :
  exists st',
    MonitoringService.start (fun _ => true) 1704067200000
      ({| automation := Some (constructed None);
          eventListener :=
            Some {| treasuryContract := None; isListening := false;
                    eventHandlers := ∅; nextHandler := 0 |};
          startTime := None |},
       {| tasks := []; timeouts := []; intervals := [] |}) = (Threw, st') /\
    running (snd st') = 1%nat.
Proof.
  destruct (monitoring_start_failure_leaves_automation_running (fun _ => true)
              1704067200000
              {| automation := Some (constructed None);
                 eventListener :=
                   Some {| treasuryContract := None; isListening := false;
                           eventHandlers := ∅; nextHandler := 0 |};
                 startTime := None |}
              {| tasks := []; timeouts := []; intervals := [] |}
              (constructed None)
              {| treasuryContract := None; isListening := false;
                 eventHandlers := ∅; nextHandler := 0 |}
              eq_refl eq_refl eq_refl (conj eq_refl eq_refl) eq_refl eq_refl eq_refl)
    as (st' & Hstart & _ & _ & Hrunning & _).
  exists st'. split; assumption.
Defined.

Lemma printStats_splits_the_uptime_witness :
  let this := {| automation := None; eventListener := None;
                 startTime := Some 1704067200000 |} in
  (hours 1704070861500 this, minutes 1704070861500 this, seconds 1704070861500 this)
    = (1, 1, 1) /\
  hours 1704070861500 this * 3600 + minutes 1704070861500 this * 60
    + seconds 1704070861500 this = uptime 1704070861500 this.
Proof.
  intros this. split; [vm_compute; reflexivity |].
  apply (printStats_splits_the_uptime 1704070861500 this).
  simpl. lia.
Defined.

End MonitoringProperties.


(** ** What reaches the chain *)

Module SubmissionProperties.
Import JS PayrollAutomationService.
Import AutomationProperties.

Lemma notCleared_false (status : string) :
  notCleared status = false -> status = "VERIFIED"%string \/ status = "EXEMPT"%string.
Proof.
  unfold notCleared. intros H.
  destruct (String.eqb status "VERIFIED") eqn:Hv.
  - left. apply String.eqb_eq. exact Hv.
  - destruct (String.eqb status "EXEMPT") eqn:He; [| discriminate].
    right. apply String.eqb_eq. exact He.
Qed.

Lemma required_and_cleared (required : bool) (status : string) :
  required && notCleared status = false ->
  required = true -> status = "VERIFIED"%string \/ status = "EXEMPT"%string.
Proof. intros H ->. apply notCleared_false. exact H. Qed.

Section Service.
Context {World : Type}.
Variable env : Collaborators World.
Variable config : Config.

(** What one attempt adds to the log: at most one submission, of the
    attempted schedule alone; and no execution object without it. *)
Lemma attempt_submits_at_most_once (scheduleId : N) (w : World) (log : list Call) :
  exists extra,
    snd (snd (executeScheduledDistribution env config scheduleId (w, log))) = log ++ extra /\
    ((submissions extra = [] /\
      executed (fst (executeScheduledDistribution env config scheduleId (w, log))) = None)
     \/ submissions extra = [[scheduleId]]).
Proof.
  unfold executeScheduledDistribution, tryCatch, mbind, await, throw, ret. simpl.
  destruct (getScheduledDistribution env scheduleId w) as [[schedule | e] w1]; simpl;
    [| eexists [_]; split; [reflexivity | left; split; reflexivity]].
  destruct (performComplianceCheck env (complianceRequest schedule) w1)
    as [[check | e] w2]; simpl;
    [| eexists [_; _]; rewrite <- !app_assoc; split;
       [reflexivity | left; split; reflexivity]].
  destruct (requireKYC config && notCleared (ComplianceCheck.kycStatus check)); simpl;
    [eexists [_; _]; rewrite <- !app_assoc; split;
     [reflexivity | left; split; reflexivity] |].
  destruct (requireAML config && notCleared (ComplianceCheck.amlStatus check)); simpl;
    [eexists [_; _]; rewrite <- !app_assoc; split;
     [reflexivity | left; split; reflexivity] |].
  destruct (executeScheduledDistributions env [scheduleId] 500000 w2)
    as [[tx | e] w3]; simpl;
    [| eexists [_; _; _]; rewrite <- !app_assoc; split;
       [reflexivity | right; reflexivity]].
  destruct (wait env tx w3) as [[receipt | e] w4]; simpl;
    eexists [_; _; _; _]; rewrite <- !app_assoc; split;
    try reflexivity; right; reflexivity.
Qed.

(** X17.  [executeScheduledDistribution] submits a transaction only after
    the compliance check of that schedule has answered with every status
    the configuration requires cleared (VERIFIED or EXEMPT).  In every
    run — also when a collaborator throws — the log gains at most one
    submission, for the attempted schedule alone with gas limit 500000,
    placed right after the look-up and the check; and an execution object
    is returned only when that submission was made. *)
Theorem submission_only_after_cleared_check
    (scheduleId : N) (w : World) (log : list Call) :
  exists extra,
    snd (snd (executeScheduledDistribution env config scheduleId (w, log))) = log ++ extra /\
    (submissions extra = [] \/ submissions extra = [[scheduleId]]) /\
    (submissions extra <> [] ->
     exists schedule check w1 w2 rest,
       getScheduledDistribution env scheduleId w = (Ok schedule, w1) /\
       performComplianceCheck env (complianceRequest schedule) w1 = (Ok check, w2) /\
       (requireKYC config = true ->
        ComplianceCheck.kycStatus check = "VERIFIED"%string \/
        ComplianceCheck.kycStatus check = "EXEMPT"%string) /\
       (requireAML config = true ->
        ComplianceCheck.amlStatus check = "VERIFIED"%string \/
        ComplianceCheck.amlStatus check = "EXEMPT"%string) /\
       extra = GetScheduledDistribution scheduleId
                 :: PerformComplianceCheck (complianceRequest schedule)
                 :: ExecuteScheduledDistributions [scheduleId] 500000 :: rest /\
       submissions rest = []) /\
    (executed (fst (executeScheduledDistribution env config scheduleId (w, log))) <> None ->
     submissions extra = [[scheduleId]]).
Proof.
  unfold executeScheduledDistribution, tryCatch, mbind, await, throw, ret. simpl.
  destruct (getScheduledDistribution env scheduleId w)
    as [[schedule | e] w1] eqn:Hschedule; simpl;
    [| eexists [_]; repeat split; simpl; auto; congruence].
  destruct (performComplianceCheck env (complianceRequest schedule) w1)
    as [[check | e] w2] eqn:Hcheck; simpl;
    [| eexists [_; _]; rewrite <- !app_assoc; repeat split; simpl; auto; congruence].
  destruct (requireKYC config && notCleared (ComplianceCheck.kycStatus check)) eqn:Hkyc;
    simpl;
    [eexists [_; _]; rewrite <- !app_assoc; repeat split; simpl; auto; congruence |].
  destruct (requireAML config && notCleared (ComplianceCheck.amlStatus check)) eqn:Haml;
    simpl;
    [eexists [_; _]; rewrite <- !app_assoc; repeat split; simpl; auto; congruence |].
  pose proof (required_and_cleared _ _ Hkyc) as Hk.
  pose proof (required_and_cleared _ _ Haml) as Ha.
  destruct (executeScheduledDistributions env [scheduleId] 500000 w2)
    as [[tx | e] w3]; simpl.
  - destruct (wait env tx w3) as [[receipt | e] w4]; simpl;
      eexists [_; _; _; _]; rewrite <- !app_assoc;
      (split; [reflexivity |]); (split; [right; reflexivity |]);
      (split; [| reflexivity]);
      intros _; eexists schedule, check, w1, w2, [_]; repeat split; auto.
  - eexists [_; _; _]; rewrite <- !app_assoc.
    split; [reflexivity |]. split; [right; reflexivity |].
    split; [| reflexivity].
    intros _. eexists schedule, check, w1, w2, []. repeat split; auto.
Qed.

Lemma attempts_submit_in_order (ids : list N) (st : World * list Call) :
  exists extra,
    snd (snd (attemptEach env config ids st)) = snd st ++ extra /\
    submissions extra `sublist_of` ((fun id => [id]) <$> ids) /\
    (length (omap executed (fst (attemptEach env config ids st)))
     <= length (submissions extra))%nat.
Proof.
  revert st. induction ids as [| id rest IH]; intros [w log]; simpl.
  - exists []. rewrite app_nil_r. repeat split; [reflexivity | simpl; lia].
  - destruct (attempt_submits_at_most_once id w log) as (one & Hlog & Hone).
    destruct (executeScheduledDistribution env config id (w, log))
      as [outcome [w1 log1]].
    simpl in Hlog, Hone. subst log1.
    destruct (IH (w1, log ++ one)) as (more & Hmore & Hsub & Hcount).
    destruct (attemptEach env config rest (w1, log ++ one)) as [outcomes [w2 log2]].
    simpl in *. subst log2.
    exists (one ++ more). rewrite app_assoc, submissions_app.
    split; [reflexivity |].
    destruct Hone as [[Hnone Hno] | Hsubmitted].
    + rewrite Hnone, Hno. simpl. split; [| exact Hcount].
      apply sublist_cons. exact Hsub.
    + rewrite Hsubmitted. simpl. split.
      * apply sublist_skip. exact Hsub.
      * destruct (executed outcome); simpl;
          [apply le_n_S | apply le_S]; exact Hcount.
Qed.

(** X18.  In a run of [checkScheduledDistributions] every transaction
    submitted is for a single due schedule, and the submissions follow the
    order of the due list, each due id being submitted at most once per
    occurrence in it.  The [count] returned never exceeds the number of
    transactions submitted: it counts the confirmed ones. *)
Theorem batch_submits_due_schedules_in_order (w : World) (log : list Call) :
  exists result extra w',
    checkScheduledDistributions env config (w, log) = (Ok result, (w', log ++ extra)) /\
    (Batch.count result <= length (submissions extra))%nat /\
    match fst (getDueScheduledDistributions env w) with
    | Ok ids => submissions extra `sublist_of` ((fun id => [id]) <$> ids)
    | Throw e =>
        extra = [GetDueScheduledDistributions] /\
        Batch.error result = Some (message_of e)
    end.
Proof.
  unfold checkScheduledDistributions, tryCatch, mbind, await, ret. simpl.
  destruct (getDueScheduledDistributions env w) as [[ids | e] w1]; simpl.
  - destruct ids as [| id rest].
    + eexists _, [_], _. split; [reflexivity |]. simpl. split; [lia |].
      apply sublist_nil.
    + rewrite executeEach_collects.
      destruct (attempts_submit_in_order (id :: rest)
                  (w1, log ++ [GetDueScheduledDistributions]))
        as (more & Hlog & Hsub & Hcount).
      destruct (attemptEach env config (id :: rest) _) as [outcomes [w2 log2]].
      simpl in Hlog, Hcount. subst log2.
      eexists _, (GetDueScheduledDistributions :: more), w2.
      rewrite <- app_assoc. split; [reflexivity |]. simpl.
      split; [exact Hcount | exact Hsub].
  - eexists _, [_], _. split; [reflexivity |]. simpl.
    split; [lia |]. split; reflexivity.
Qed.

End Service.

End SubmissionProperties.
